(** * WattCell: the cell model of [cell_components.py]

    A shallow embedding of the pouch-cell calculator: the material table, the
    component dataclasses and the two-stage derivation that [Cell] runs in its
    [__post_init__].

    Conventions of the embedding.
    - Numbers.  Python's [float] (and the [int]s mixed into the same
      formulas) are modelled by exact rationals [Q]; [layers_number] is an
      integer ([Z]) injected where the source multiplies it with a float.
      Rounding, overflow, infinities and NaN are therefore outside the
      model: an equation between computed numbers is stated with [==]
      (equality of rationals) and is a statement about the formulas
      evaluated exactly.
    - Errors.  Python raises on a missing dict key, on subscripting [None]
      and on division by zero; the model returns [Raise] with the
      corresponding exception.
    - Objects.  Dataclass instances are mutable and can be shared, so they
      live in a heap and a [Cell] holds references to them.  Attribute
      writes are heap updates, and they persist when a later step raises. *)

From Stdlib Require Import QArith Qminmax Lqa Lia ZArith String.
From stdpp Require Import base option list gmap strings.

Set Warnings "-register-all".
Open Scope Q_scope.
Open Scope string_scope.

(** ** Exceptions and results *)

Inductive exn : Type :=
| KeyError (key : string)
| TypeError
| ZeroDivisionError
| AttributeError.

Inductive result (A : Type) : Type :=
| Ok (a : A)
| Raise (e : exn).
Arguments Ok {A} a.
Arguments Raise {A} e.

Definition rbind {A B} (r : result A) (k : A -> result B) : result B :=
  match r with
  | Ok a => k a
  | Raise e => Raise e
  end.

Notation "x <~ r ;; k" := (rbind r (fun x => k))
  (at level 100, r at next level, right associativity).

(** [x / y] on Python floats: [ZeroDivisionError] when the divisor is zero. *)
Definition pydiv (x y : Q) : result Q :=
  if Qeq_bool y 0 then Raise ZeroDivisionError else Ok (x / y).

(** [d[k]] on a dict of numbers. *)
Definition getitem (d : gmap string Q) (k : string) : result Q :=
  match d !! k with
  | Some v => Ok v
  | None => Raise (KeyError k)
  end.

(** ** The material table *)

(** Values of the nested [materials] dict: numbers, or dicts again. *)
Inductive pyval : Type :=
| PNum (q : Q)
| PDict (d : gmap string pyval).

Definition dict_of (l : list (string * pyval)) : pyval := PDict (list_to_map l).

Definition materials : gmap string pyval :=
  list_to_map
    [ ("Cu", dict_of [("density", PNum 8.94); ("thickness", PNum 6)]);
      ("Al", dict_of [("density", PNum 2.7); ("thickness", PNum 16)]);
      ("Prussian Blue",
        dict_of [("density", PNum 1.8); ("capacity", PNum 150); ("voltage", PNum 3.2)]);
      ("Hard Carbon",
        dict_of [("capacity", PNum 300); ("voltage", PNum 0.1); ("density", PNum 1.6)]);
      ("SuperP", dict_of [("density", PNum 1.9)]);
      ("PVDF", dict_of [("density", PNum 1.78)]);
      ("CMC+SBR", dict_of [("density", PNum ((1.6 + 0.96) / 2))]);
      ("Celgard 2325",
        dict_of [("thickness", PNum 25); ("porosity", PNum 0.41); ("density", PNum 0.74)]);
      ("pouch",
        dict_of [("thickness", PNum 113); ("density", PNum 1.62);
                 ("extra_width", PNum 0.9); ("extra_height", PNum 2)]);
      ("tabs", dict_of [("Al", dict_of [("density", PNum 2.7)])]);
      ("electrolytes", dict_of [("NaPF6 in diglyme", dict_of [("density", PNum 1.15)])]) ].

(** [v['density']] used as a number.  [None] and numbers are not
    subscriptable; a dict without the key raises [KeyError]. *)
Definition density_of (v : option pyval) : result Q :=
  match v with
  | Some (PDict d) =>
      match d !! "density" with
      | Some (PNum q) => Ok q
      | Some (PDict _) => Raise TypeError
      | None => Raise (KeyError "density")
      end
  | Some (PNum _) => Raise TypeError
  | None => Raise TypeError
  end.

(** [materials[name]['density']]: the subscript raises [KeyError name] when
    the name is not in the table. *)
Definition materials_density (name : string) : result Q :=
  match materials !! name with
  | Some v => density_of (Some v)
  | None => Raise (KeyError name)
  end.

(** [materials.get(name)['density']]: [get] returns [None] for an unknown
    name, and subscripting [None] raises [TypeError]. *)
Definition materials_get_density (name : string) : result Q :=
  density_of (materials !! name).

(** ** Electrode *)

Module Electrode.

Record t : Type := mk {
  active_material : string;
  mass_ratio : gmap string Q;
  binder : string;
  porosity : Q;
  voltage : Q;
  capacity : Q;
  density_am : Q;
  width : Q;
  height : Q;
  cc_thickness : Q;
  current_collector : string;
  thickness : Q;
  tab_height : Q;
  tab_width : Q;
  density : Q;
  areal_capacity : Q
}.

Definition set_thickness (x : Q) (e : t) : t :=
  mk (active_material e) (mass_ratio e) (binder e) (porosity e) (voltage e)
     (capacity e) (density_am e) (width e) (height e) (cc_thickness e)
     (current_collector e) x (tab_height e) (tab_width e) (density e)
     (areal_capacity e).

Definition set_density (x : Q) (e : t) : t :=
  mk (active_material e) (mass_ratio e) (binder e) (porosity e) (voltage e)
     (capacity e) (density_am e) (width e) (height e) (cc_thickness e)
     (current_collector e) (thickness e) (tab_height e) (tab_width e) x
     (areal_capacity e).

Definition set_areal_capacity (x : Q) (e : t) : t :=
  mk (active_material e) (mass_ratio e) (binder e) (porosity e) (voltage e)
     (capacity e) (density_am e) (width e) (height e) (cc_thickness e)
     (current_collector e) (thickness e) (tab_height e) (tab_width e)
     (density e) x.

(** The three entries of the local dict [volumes]. *)
Definition volumes (self : t) : result (Q * Q * Q) :=
  m_am <~ getitem (mass_ratio self) "am" ;;
  v_am <~ pydiv m_am (density_am self) ;;
  m_c <~ getitem (mass_ratio self) "carbon" ;;
  d_c <~ materials_density "SuperP" ;;
  v_c <~ pydiv m_c d_c ;;
  m_b <~ getitem (mass_ratio self) "binder" ;;
  d_b <~ materials_density (binder self) ;;
  v_b <~ pydiv m_b d_b ;;
  Ok (v_am, v_c, v_b).

(** [sum(volumes.values())]: Python's [sum] starts from 0 and adds the
    values in insertion order. *)
Definition sum_volumes (v : Q * Q * Q) : Q :=
  let '(v_am, v_c, v_b) := v in 0 + v_am + v_c + v_b.

Definition calculate_composite_density (self : t) : result t :=
  v <~ volumes self ;;
  let '(v_am, v_c, v_b) := v in
  r_am <~ pydiv v_am (sum_volumes v) ;;
  r_c <~ pydiv v_c (sum_volumes v) ;;
  r_b <~ pydiv v_b (sum_volumes v) ;;
  d_c <~ materials_density "SuperP" ;;
  d_b <~ materials_density (binder self) ;;
  Ok (set_density
        ((1 - porosity self) *
         (r_am * density_am self + r_c * d_c + r_b * d_b)) self).

Definition calculate_areal_capacity (self : t) : result t :=
  m_am <~ getitem (mass_ratio self) "am" ;;
  Ok (set_areal_capacity
        (density self * thickness self * capacity self * m_am) self).

Definition default_thickness : Q := 0.
Definition default_tab_height : Q := 1.
Definition default_tab_width : Q := 1.

(** The generated [__init__] followed by [__post_init__].  [density] and
    [areal_capacity] are [init=False]: they do not exist before
    [__post_init__] assigns them, and nothing reads them before that, so
    the record under construction carries a placeholder there. *)
Definition new (active_material : string) (mass_ratio : gmap string Q)
    (binder : string) (porosity voltage capacity density_am width height
     cc_thickness : Q) (current_collector : string)
    (thickness tab_height tab_width : Q) : result t :=
  let self :=
    mk active_material mass_ratio binder porosity voltage capacity density_am
       width height cc_thickness current_collector thickness tab_height
       tab_width 0 0 in
  self <~ calculate_composite_density self ;;
  calculate_areal_capacity self.

End Electrode.

(** ** Separator, Electrolyte, Pouch, Tab *)

Module Separator.
Record t : Type := mk {
  material : string;
  width : Q;
  height : Q;
  thickness : Q;
  porosity : Q;
  density : Q
}.
End Separator.

Module Electrolyte.
(** [volume] and [volume_per_ah] are [init=False] and the class has no
    [__post_init__]: the attributes are absent ([None] here) until a
    [Cell] assigns them. *)
Record t : Type := mk {
  material : string;
  density : Q;
  volume_excess : Q;
  volume : option Q;
  volume_per_ah : option Q
}.

Definition default_volume_excess : Q := 0.

Definition new (material : string) (density volume_excess : Q) : t :=
  mk material density volume_excess None None.

Definition set_volume (x : Q) (e : t) : t :=
  mk (material e) (density e) (volume_excess e) (Some x) (volume_per_ah e).

Definition set_volume_per_ah (x : Q) (e : t) : t :=
  mk (material e) (density e) (volume_excess e) (volume e) (Some x).
End Electrolyte.

Module Pouch.
Record t : Type := mk {
  width : Q;
  height : Q;
  thickness : Q;
  density : Q
}.
End Pouch.

Module Tab.
Record t : Type := mk {
  material_cathode : string;
  material_anode : string;
  height : Q;
  width : Q;
  thickness : Q;
  density_cathode : Q;
  density_anode : Q
}.

Definition new (material_cathode material_anode : string)
    (height width thickness : Q) : result t :=
  d_c <~ materials_get_density material_cathode ;;
  d_a <~ materials_get_density material_anode ;;
  Ok (mk material_cathode material_anode height width thickness d_c d_a).
End Tab.

(** ** The heap of dataclass instances *)

Inductive obj : Type :=
| OElectrode (e : Electrode.t)
| OSeparator (s : Separator.t)
| OElectrolyte (l : Electrolyte.t)
| OPouch (p : Pouch.t)
| OTab (b : Tab.t).

Abbreviation loc := nat.
Abbreviation heap := (list obj).

(** Computations that read and write the heap and may raise.  The heap is
    returned in both cases: what was written before an exception stays
    written. *)
Definition M (A : Type) : Type := heap -> result A * heap.

Definition ret {A} (a : A) : M A := fun h => (Ok a, h).
Definition raise {A} (e : exn) : M A := fun h => (Raise e, h).
Definition lift {A} (r : result A) : M A := fun h => (r, h).

Definition bind {A B} (m : M A) (k : A -> M B) : M B :=
  fun h =>
    match m h with
    | (Ok a, h') => k a h'
    | (Raise e, h') => (Raise e, h')
    end.

Notation "x <- m ;; k" := (bind m (fun x => k))
  (at level 100, m at next level, right associativity).
Notation "m ;;; k" := (bind m (fun _ => k))
  (at level 100, right associativity).

(** Following a reference whose annotated class is [Electrode] (and so on).
    An object of another class lacks the attributes read next, which is
    Python's [AttributeError]. *)
Definition get_electrode (l : loc) : M Electrode.t :=
  fun h =>
    match h !! l with
    | Some (OElectrode e) => (Ok e, h)
    | _ => (Raise AttributeError, h)
    end.

Definition get_separator (l : loc) : M Separator.t :=
  fun h =>
    match h !! l with
    | Some (OSeparator s) => (Ok s, h)
    | _ => (Raise AttributeError, h)
    end.

Definition get_electrolyte (l : loc) : M Electrolyte.t :=
  fun h =>
    match h !! l with
    | Some (OElectrolyte e) => (Ok e, h)
    | _ => (Raise AttributeError, h)
    end.

Definition get_pouch (l : loc) : M Pouch.t :=
  fun h =>
    match h !! l with
    | Some (OPouch p) => (Ok p, h)
    | _ => (Raise AttributeError, h)
    end.

Definition get_tab (l : loc) : M Tab.t :=
  fun h =>
    match h !! l with
    | Some (OTab b) => (Ok b, h)
    | _ => (Raise AttributeError, h)
    end.

(** Running a method of the electrode at [l] that assigns attributes of
    [self]: the object at [l] is replaced by the updated one. *)
Definition update_electrode (l : loc) (f : Electrode.t -> result Electrode.t)
  : M unit :=
  e <- get_electrode l ;;
  e' <- lift (f e) ;;
  fun h => (Ok tt, <[l := OElectrode e']> h).

Definition update_electrolyte (l : loc) (f : Electrolyte.t -> Electrolyte.t)
  : M unit :=
  e <- get_electrolyte l ;;
  fun h => (Ok tt, <[l := OElectrolyte (f e)]> h).

(** ** Cell *)

Module Cell.

Record t : Type := mk {
  cathode : loc;
  anode : loc;
  separator : loc;
  electrolyte : loc;
  format : loc;
  tabs : loc;
  layers_number : Z;
  n_p_ratio : Q;
  ice : Q;
  volumetric_energy_density : Q;
  gravimetric_energy_density : Q;
  energy : Q;
  capacity : Q;
  total_mass : Q;
  total_volume : Q
}.

Definition default_ice : Q := 0.93.

(** *** The local variables of [calculate_energy_density]

    Each is a function of the objects it reads ([c] the cathode, [a] the
    anode, [s] the separator, [p] the pouch, [b] the tabs, [l] the
    electrolyte) and of [layers_number].  The method below evaluates them
    in the order of the source as far as an exception can tell: the two
    table look-ups, then the tabs, then the electrolyte, then the two
    [mass_ratio['am']], then the three divisions. *)

Definition cathode_volume (c : Electrode.t) (layers_number : Z) : Q :=
  Electrode.width c * Electrode.height c * Electrode.thickness c * 2
  * inject_Z layers_number.

Definition anode_volume (a : Electrode.t) (layers_number : Z) : Q :=
  Electrode.width a * Electrode.height a * Electrode.thickness a
  * inject_Z (2 * layers_number + 2).

Definition separator_volume (s : Separator.t) (layers_number : Z) : Q :=
  Separator.width s * Separator.height s * Separator.thickness s * 2
  * inject_Z layers_number.

Definition pouch_volume (p : Pouch.t) : Q :=
  Pouch.width p * Pouch.height p * Pouch.thickness p * 2.

Definition anode_cc_volume (a : Electrode.t) (layers_number : Z) : Q :=
  inject_Z (layers_number + 1)
  * (Electrode.width a * Electrode.height a
     + Electrode.tab_height a + Electrode.tab_width a)
  * Electrode.cc_thickness a.

Definition cathode_cc_volume (c : Electrode.t) (layers_number : Z) : Q :=
  inject_Z layers_number
  * (Electrode.width c * Electrode.height c
     + Electrode.tab_height c * Electrode.tab_width c)
  * Electrode.cc_thickness c.

Definition cathode_mass (c : Electrode.t) (layers_number : Z) : Q :=
  cathode_volume c layers_number * Electrode.density c.

Definition anode_mass (a : Electrode.t) (layers_number : Z) : Q :=
  anode_volume a layers_number * Electrode.density a.

Definition separator_mass (s : Separator.t) (layers_number : Z) : Q :=
  separator_volume s layers_number * Separator.density s.

Definition pouch_mass (p : Pouch.t) : Q :=
  pouch_volume p * Pouch.density p.

Definition tabs_mass (b : Tab.t) : Q :=
  Tab.height b * Tab.width b * Tab.thickness b
  * (Tab.density_cathode b + Tab.density_anode b).

Definition cathode_void_volume (c : Electrode.t) (layers_number : Z) : Q :=
  cathode_volume c layers_number * Electrode.porosity c.

Definition anode_void_volume (a : Electrode.t) (layers_number : Z) : Q :=
  anode_volume a layers_number * Electrode.porosity a.

Definition separator_void_volume (s : Separator.t) (layers_number : Z) : Q :=
  separator_volume s layers_number * Separator.porosity s.

Definition total_void_volume (c a : Electrode.t) (s : Separator.t)
    (layers_number : Z) : Q :=
  cathode_void_volume c layers_number + anode_void_volume a layers_number
  + separator_void_volume s layers_number.

(** The value assigned to [self.electrolyte.volume]. *)
Definition electrolyte_volume (c a : Electrode.t) (s : Separator.t)
    (l : Electrolyte.t) (layers_number : Z) : Q :=
  total_void_volume c a s layers_number * (1 + Electrolyte.volume_excess l).

(** [cathode_capacity] and [anode_capacity], given the electrode's
    [mass_ratio['am']]. *)
Definition cathode_capacity (c : Electrode.t) (m_am : Q) (layers_number : Z)
  : Q :=
  cathode_mass c layers_number * m_am * Electrode.capacity c / 1000.

Definition anode_capacity (a : Electrode.t) (m_am : Q) (layers_number : Z)
  : Q :=
  anode_mass a layers_number * m_am * Electrode.capacity a / 1000.

Definition electrolyte_mass (c a : Electrode.t) (s : Separator.t)
    (l : Electrolyte.t) (layers_number : Z) : Q :=
  electrolyte_volume c a s l layers_number * Electrolyte.density l.

Definition cathode_cc_mass (c : Electrode.t) (d_cc : Q) (layers_number : Z)
  : Q :=
  cathode_cc_volume c layers_number * d_cc.

Definition anode_cc_mass (a : Electrode.t) (d_cc : Q) (layers_number : Z)
  : Q :=
  anode_cc_volume a layers_number * d_cc.

(** The values assigned to [self.total_mass], [self.total_volume],
    [self.capacity] and [self.energy]; [d_ccc] and [d_acc] are the table
    densities of the two current collectors, [c_am] and [a_am] the two
    [mass_ratio['am']]. *)
Definition total_mass_of (c a : Electrode.t) (s : Separator.t) (p : Pouch.t)
    (b : Tab.t) (l : Electrolyte.t) (d_ccc d_acc : Q) (layers_number : Z)
  : Q :=
  cathode_mass c layers_number + cathode_cc_mass c d_ccc layers_number
  + anode_mass a layers_number + anode_cc_mass a d_acc layers_number
  + separator_mass s layers_number + pouch_mass p + tabs_mass b
  + electrolyte_mass c a s l layers_number.

Definition total_volume_of (c a : Electrode.t) (s : Separator.t)
    (p : Pouch.t) (l : Electrolyte.t) (layers_number : Z) : Q :=
  cathode_volume c layers_number + anode_volume a layers_number
  + separator_volume s layers_number + pouch_volume p
  + (electrolyte_volume c a s l layers_number
     - total_void_volume c a s layers_number)
  + anode_cc_volume a layers_number + cathode_cc_volume c layers_number.

Definition capacity_of (c a : Electrode.t) (c_am a_am : Q)
    (layers_number : Z) (ice : Q) : Q :=
  Qmin (cathode_capacity c c_am layers_number)
       (anode_capacity a a_am layers_number) * ice.

Definition cell_voltage (c a : Electrode.t) : Q :=
  Electrode.voltage c - Electrode.voltage a.

Definition energy_of (c a : Electrode.t) (c_am a_am : Q)
    (layers_number : Z) (ice : Q) : Q :=
  capacity_of c a c_am a_am layers_number ice * cell_voltage c a.

Section Construction.

(** The attributes the generated [__init__] stores on [self]. *)
Variables (cathode anode separator electrolyte format tabs : loc).
Variable layers_number : Z.
Variables (n_p_ratio ice : Q).

(** The thickness assigned to the anode: the right-hand side of the
    assignment, evaluated on the anode [a] as it is before the write. *)
Definition required_anode_thickness (c a : Electrode.t) : result Q :=
  let required_anode_capacity := Electrode.areal_capacity c * n_p_ratio in
  m_am <~ getitem (Electrode.mass_ratio a) "am" ;;
  pydiv required_anode_capacity
        (Electrode.density a * Electrode.capacity a * m_am).

Definition calculate_anode_properties : M unit :=
  c <- get_electrode cathode ;;
  (update_electrode anode
     (fun a => x <~ required_anode_thickness c a ;;
               Ok (Electrode.set_thickness x a))) ;;;
  update_electrode anode Electrode.calculate_areal_capacity.

Definition calculate_energy_density : M t :=
  c <- get_electrode cathode ;;
  a <- get_electrode anode ;;
  s <- get_separator separator ;;
  p <- get_pouch format ;;
  d_ccc <- lift (materials_density (Electrode.current_collector c)) ;;
  d_acc <- lift (materials_density (Electrode.current_collector a)) ;;
  b <- get_tab tabs ;;
  l <- get_electrolyte electrolyte ;;
  let volume := electrolyte_volume c a s l layers_number in
  (update_electrolyte electrolyte (Electrolyte.set_volume volume)) ;;;
  let total_mass :=
    total_mass_of c a s p b l d_ccc d_acc layers_number in
  let total_volume := total_volume_of c a s p l layers_number in
  c_am <- lift (getitem (Electrode.mass_ratio c) "am") ;;
  a_am <- lift (getitem (Electrode.mass_ratio a) "am") ;;
  let capacity := capacity_of c a c_am a_am layers_number ice in
  volume_per_ah <- lift (pydiv volume capacity) ;;
  (update_electrolyte electrolyte
     (Electrolyte.set_volume_per_ah volume_per_ah)) ;;;
  let energy := energy_of c a c_am a_am layers_number ice in
  e_v <- lift (pydiv energy total_volume) ;;
  let volumetric_energy_density := e_v * 1000 in
  e_m <- lift (pydiv energy total_mass) ;;
  let gravimetric_energy_density := e_m * 1000 in
  ret (mk cathode anode separator electrolyte format tabs layers_number
          n_p_ratio ice volumetric_energy_density
          gravimetric_energy_density energy capacity total_mass
          total_volume).

(** The generated [__init__] followed by [__post_init__]. *)
Definition new : M t :=
  calculate_anode_properties ;;;
  calculate_energy_density.

End Construction.

End Cell.

(** * Predicates used in the statements *)

(** ** What a write may change *)

Module Frame.

(** [e'] is [e] except, possibly, for [thickness] and [areal_capacity]. *)
Record electrode (e e' : Electrode.t) : Prop := {
  active_material : Electrode.active_material e' = Electrode.active_material e;
  mass_ratio : Electrode.mass_ratio e' = Electrode.mass_ratio e;
  binder : Electrode.binder e' = Electrode.binder e;
  porosity : Electrode.porosity e' = Electrode.porosity e;
  voltage : Electrode.voltage e' = Electrode.voltage e;
  capacity : Electrode.capacity e' = Electrode.capacity e;
  density_am : Electrode.density_am e' = Electrode.density_am e;
  width : Electrode.width e' = Electrode.width e;
  height : Electrode.height e' = Electrode.height e;
  cc_thickness : Electrode.cc_thickness e' = Electrode.cc_thickness e;
  current_collector :
    Electrode.current_collector e' = Electrode.current_collector e;
  tab_height : Electrode.tab_height e' = Electrode.tab_height e;
  tab_width : Electrode.tab_width e' = Electrode.tab_width e;
  density : Electrode.density e' = Electrode.density e
}.

(** [l'] is [l] except, possibly, for [volume] and [volume_per_ah]. *)
Record electrolyte (l l' : Electrolyte.t) : Prop := {
  material : Electrolyte.material l' = Electrolyte.material l;
  electrolyte_density : Electrolyte.density l' = Electrolyte.density l;
  volume_excess : Electrolyte.volume_excess l' = Electrolyte.volume_excess l
}.

(** How the object stored at one location may differ between two heaps,
    when [r_anode] and [r_electrolyte] are the references a [Cell] was
    given as its anode and electrolyte:
    it is the same object, or it is the anode with a new size, or it is
    the electrolyte with a new fill volume. *)
Definition object (r_anode r_electrolyte l : loc) (o o' : option obj)
  : Prop :=
  o' = o
  \/ (l = r_anode /\ exists e e',
        o = Some (OElectrode e) /\ o' = Some (OElectrode e')
        /\ electrode e e')
  \/ (l = r_electrolyte /\ exists e e',
        o = Some (OElectrolyte e) /\ o' = Some (OElectrolyte e')
        /\ electrolyte e e').

Definition heaps (r_anode r_electrolyte : loc) (h h' : heap) : Prop :=
  forall l, object r_anode r_electrolyte l (h !! l) (h' !! l).

(** The computation [m] changes the heap only within that frame, whether it
    returns or raises. *)
Definition preserved_by {A} (r_anode r_electrolyte : loc) (m : M A) : Prop :=
  forall h, heaps r_anode r_electrolyte h (snd (m h)).

End Frame.

(** ** The outcome of the sizing stage *)

(** The anode [a] once [calculate_anode_properties] has given it the
    thickness [x]; [m_am] is its [mass_ratio['am']]. *)
Definition sized_anode (a : Electrode.t) (x m_am : Q) : Electrode.t :=
  Electrode.set_areal_capacity
    (Electrode.density a * x * Electrode.capacity a * m_am)
    (Electrode.set_thickness x a).

(** The divisor of the sizing formula. *)
Definition sizing_divisor (a : Electrode.t) (m_am : Q) : Q :=
  Electrode.density a * Electrode.capacity a * m_am.

(** ** The outcome of the aggregation stage *)

(** [aggregated ... h cell h'] describes the successful runs of
    [calculate_energy_density] from the heap [h]: the objects it read, the
    conditions under which nothing raised, the [Cell] it built and the heap
    it left. *)
Inductive aggregated (cathode anode separator electrolyte format tabs : loc)
    (layers_number : Z) (n_p_ratio ice : Q) (h : heap)
  : Cell.t -> heap -> Prop :=
| Aggregated (c a : Electrode.t) (s : Separator.t) (p : Pouch.t) (b : Tab.t)
    (l : Electrolyte.t) (d_ccc d_acc c_am a_am : Q) :
    h !! cathode = Some (OElectrode c) ->
    h !! anode = Some (OElectrode a) ->
    h !! separator = Some (OSeparator s) ->
    h !! format = Some (OPouch p) ->
    h !! tabs = Some (OTab b) ->
    h !! electrolyte = Some (OElectrolyte l) ->
    materials_density (Electrode.current_collector c) = Ok d_ccc ->
    materials_density (Electrode.current_collector a) = Ok d_acc ->
    Electrode.mass_ratio c !! "am" = Some c_am ->
    Electrode.mass_ratio a !! "am" = Some a_am ->
    let volume := Cell.electrolyte_volume c a s l layers_number in
    let capacity := Cell.capacity_of c a c_am a_am layers_number ice in
    let energy := Cell.energy_of c a c_am a_am layers_number ice in
    let total_mass :=
      Cell.total_mass_of c a s p b l d_ccc d_acc layers_number in
    let total_volume := Cell.total_volume_of c a s p l layers_number in
    ~ capacity == 0 ->
    ~ total_volume == 0 ->
    ~ total_mass == 0 ->
    aggregated cathode anode separator electrolyte format tabs layers_number
      n_p_ratio ice h
      (Cell.mk cathode anode separator electrolyte format tabs layers_number
         n_p_ratio ice (energy / total_volume * 1000)
         (energy / total_mass * 1000) energy capacity total_mass total_volume)
      (<[electrolyte :=
           OElectrolyte
             (Electrolyte.set_volume_per_ah (volume / capacity)
                (Electrolyte.set_volume volume l))]> h).

(** ** Signs of the inputs *)

Module Nonneg.

Record electrode (e : Electrode.t) : Prop := {
  porosity : 0 <= Electrode.porosity e;
  capacity : 0 <= Electrode.capacity e;
  width : 0 <= Electrode.width e;
  height : 0 <= Electrode.height e;
  cc_thickness : 0 <= Electrode.cc_thickness e;
  thickness : 0 <= Electrode.thickness e;
  tab_height : 0 <= Electrode.tab_height e;
  tab_width : 0 <= Electrode.tab_width e;
  density : 0 <= Electrode.density e;
  areal_capacity : 0 <= Electrode.areal_capacity e;
  mass_ratio_am :
    forall m, Electrode.mass_ratio e !! "am" = Some m -> 0 <= m
}.

Record separator (s : Separator.t) : Prop := {
  separator_width : 0 <= Separator.width s;
  separator_height : 0 <= Separator.height s;
  separator_thickness : 0 <= Separator.thickness s;
  separator_porosity : 0 <= Separator.porosity s;
  separator_density : 0 <= Separator.density s
}.

Record electrolyte (l : Electrolyte.t) : Prop := {
  electrolyte_density : 0 <= Electrolyte.density l;
  volume_excess : 0 <= Electrolyte.volume_excess l
}.

Record pouch (p : Pouch.t) : Prop := {
  pouch_width : 0 <= Pouch.width p;
  pouch_height : 0 <= Pouch.height p;
  pouch_thickness : 0 <= Pouch.thickness p;
  pouch_density : 0 <= Pouch.density p
}.

Record tab (b : Tab.t) : Prop := {
  tab_h : 0 <= Tab.height b;
  tab_w : 0 <= Tab.width b;
  tab_thickness : 0 <= Tab.thickness b;
  density_cathode : 0 <= Tab.density_cathode b;
  density_anode : 0 <= Tab.density_anode b
}.

(** Every object of the heap has non-negative numeric attributes. *)
Definition object (o : obj) : Prop :=
  match o with
  | OElectrode e => electrode e
  | OSeparator s => separator s
  | OElectrolyte l => electrolyte l
  | OPouch p => pouch p
  | OTab b => tab b
  end.

End Nonneg.

Module Positive.

(** The attributes of an electrode that a [Cell] reads, other than the
    coating thickness and the areal capacity derived from it (the anode's
    are 0 by default and are overwritten by the sizing). *)
Record electrode (e : Electrode.t) : Prop := {
  porosity : 0 < Electrode.porosity e;
  capacity : 0 < Electrode.capacity e;
  width : 0 < Electrode.width e;
  height : 0 < Electrode.height e;
  cc_thickness : 0 < Electrode.cc_thickness e;
  tab_height : 0 < Electrode.tab_height e;
  tab_width : 0 < Electrode.tab_width e;
  density : 0 < Electrode.density e;
  mass_ratio_am : exists m, Electrode.mass_ratio e !! "am" = Some m /\ 0 < m
}.

Record pouch (p : Pouch.t) : Prop := {
  pouch_width : 0 < Pouch.width p;
  pouch_height : 0 < Pouch.height p;
  pouch_thickness : 0 < Pouch.thickness p
}.

End Positive.

(** * A concrete cell

    The materials of the table with a geometry of our choosing: a Prussian
    Blue cathode on aluminium, a hard-carbon anode on copper, a Celgard
    separator, NaPF6 electrolyte, five layers, N:P ratio 1.1. *)

Module Scenario.

Definition mass_ratio : gmap string Q :=
  <["am" := 0.9]> (<["carbon" := 0.05]> (<["binder" := 0.05]> ∅)).

Definition cathode (current_collector : string) : result Electrode.t :=
  Electrode.new "Prussian Blue" mass_ratio "CMC+SBR" 0.25 3.2 150 1.8 5 8
    0.0016 current_collector 0.01 Electrode.default_tab_height
    Electrode.default_tab_width.

Definition anode : result Electrode.t :=
  Electrode.new "Hard Carbon" mass_ratio "CMC+SBR" 0.25 0.1 300 1.6 5 8
    0.0006 "Cu" Electrode.default_thickness Electrode.default_tab_height
    Electrode.default_tab_width.

Definition separator : Separator.t :=
  Separator.mk "Celgard 2325" 5.2 8.2 0.0025 0.41 0.74.

Definition electrolyte : Electrolyte.t :=
  Electrolyte.new "NaPF6 in diglyme" 1.15 Electrolyte.default_volume_excess.

Definition pouch : Pouch.t := Pouch.mk 5.9 10 0.0113 1.62.

Definition tabs : result Tab.t := Tab.new "Al" "Cu" 1 1 0.01.

(** The heap after the six components were constructed, in this order;
    empty if one of the constructors raised. *)
Definition components (cathode_collector : string) : heap :=
  match cathode cathode_collector, anode, tabs with
  | Ok c, Ok a, Ok b =>
      [OElectrode c; OElectrode a; OSeparator separator;
       OElectrolyte electrolyte; OPouch pouch; OTab b]
  | _, _, _ => []
  end.

Definition heap0 : heap := components "Al".

(** The same components, the cathode naming a collector that is not in
    the table. *)
Definition heap_Zn : heap := components "Zn".

(** [Cell(cathode, anode, separator, electrolyte, pouch, tabs,
    layers_number, 1.1)] on these components, with the default [ice]. *)
Definition cell (layers_number : Z) : M Cell.t :=
  Cell.new 0%nat 1%nat 2%nat 3%nat 4%nat 5%nat layers_number 1.1
           Cell.default_ice.

(** One electrode object passed as cathode and as anode. *)
Definition aliased_cell : M Cell.t :=
  Cell.new 0%nat 0%nat 2%nat 3%nat 4%nat 5%nat 5 1.1 Cell.default_ice.

End Scenario.

(** * Variants of the concrete cell

    Components on which the edge cases of the construction show. *)

Module Variants.

(** The mass ratios of [Scenario], all doubled. *)
Definition mass_ratio_doubled : gmap string Q :=
  <["am" := 2 * 0.9]> (<["carbon" := 2 * 0.05]> (<["binder" := 2 * 0.05]> ∅)).

(** Mass ratios without the key ['carbon']. *)
Definition mass_ratio_no_carbon : gmap string Q :=
  <["am" := 0.9]> (<["binder" := 0.1]> ∅).

(** All three mass ratios zero. *)
Definition mass_ratio_zero : gmap string Q :=
  <["am" := 0]> (<["carbon" := 0]> (<["binder" := 0]> ∅)).

(** The anode of [Scenario] with a specific capacity of 0. *)
Definition dead_anode : result Electrode.t :=
  Electrode.new "Hard Carbon" Scenario.mass_ratio "CMC+SBR" 0.25 0.1 0 1.6 5 8
    0.0006 "Cu" Electrode.default_thickness Electrode.default_tab_height
    Electrode.default_tab_width.

(** The components of [Scenario] with that anode. *)
Definition heap_dead_anode : heap :=
  match dead_anode with
  | Ok a => <[1%nat := OElectrode a]> Scenario.heap0
  | Raise _ => []
  end.

(** The cell of [Scenario] with another [ice]. *)
Definition cell_with_ice (ice : Q) : M Cell.t :=
  Cell.new 0%nat 1%nat 2%nat 3%nat 4%nat 5%nat 5 1.1 ice.

End Variants.

(** * The exceptions of a construction *)


(** * Reasoning about runs *)

(** ** Results and the heap monad *)

Lemma rbind_Ok_inv {A B} (r : result A) (k : A -> result B) (b : B) :
  rbind r k = Ok b -> exists a, r = Ok a /\ k a = Ok b.
Proof. destruct r as [a|e]; simpl; [eauto | discriminate]. Qed.

Lemma pydiv_Ok (x y : Q) : ~ y == 0 -> pydiv x y = Ok (x / y).
Proof.
  intros Hy. unfold pydiv.
  destruct (Qeq_bool y 0) eqn:E; [|reflexivity].
  apply Qeq_bool_iff in E. contradiction.
Qed.

Lemma pydiv_Ok_inv (x y q : Q) : pydiv x y = Ok q -> ~ y == 0 /\ q = x / y.
Proof.
  unfold pydiv. destruct (Qeq_bool y 0) eqn:E; [discriminate|].
  intros [= <-]. split; [|reflexivity].
  intros Hy. apply Qeq_bool_iff in Hy. congruence.
Qed.

Lemma pydiv_zero (x y : Q) : y == 0 -> pydiv x y = Raise ZeroDivisionError.
Proof.
  intros Hy. unfold pydiv. apply Qeq_bool_iff in Hy. now rewrite Hy.
Qed.

Lemma getitem_Ok_inv (d : gmap string Q) (k : string) (v : Q) :
  getitem d k = Ok v <-> d !! k = Some v.
Proof.
  unfold getitem. destruct (d !! k); split; intros H; congruence.
Qed.

Lemma bind_Ok_inv {A B} (m : M A) (k : A -> M B) (h h' : heap) (b : B) :
  bind m k h = (Ok b, h') ->
  exists a h1, m h = (Ok a, h1) /\ k a h1 = (Ok b, h').
Proof.
  unfold bind. destruct (m h) as [[a|e] h1]; [eauto | discriminate].
Qed.

Lemma bind_Ok {A B} (m : M A) (k : A -> M B) (h h1 : heap) (a : A) :
  m h = (Ok a, h1) -> bind m k h = k a h1.
Proof. unfold bind. now intros ->. Qed.

Lemma bind_Raise {A B} (m : M A) (k : A -> M B) (h h1 : heap) (e : exn) :
  m h = (Raise e, h1) -> bind m k h = (Raise e, h1).
Proof. unfold bind. now intros ->. Qed.

Lemma lift_Ok {A} (r : result A) (h : heap) (a : A) :
  r = Ok a -> lift r h = (Ok a, h).
Proof. now intros ->. Qed.

Lemma lift_Raise {A} (r : result A) (h : heap) (e : exn) :
  r = Raise e -> lift r h = (Raise e, h).
Proof. now intros ->. Qed.

Lemma lift_Ok_inv {A} (r : result A) (h h' : heap) (a : A) :
  lift r h = (Ok a, h') -> r = Ok a /\ h' = h.
Proof. unfold lift. now intros [= -> ->]. Qed.

Lemma get_electrode_Ok (l : loc) (h : heap) (e : Electrode.t) :
  h !! l = Some (OElectrode e) -> get_electrode l h = (Ok e, h).
Proof. unfold get_electrode. now intros ->. Qed.

Lemma get_electrode_Ok_inv (l : loc) (h h' : heap) (e : Electrode.t) :
  get_electrode l h = (Ok e, h') -> h !! l = Some (OElectrode e) /\ h' = h.
Proof.
  unfold get_electrode.
  destruct (h !! l) as [[]|]; intros [= <- <-] || discriminate; auto.
Qed.

Lemma get_separator_Ok (l : loc) (h : heap) (s : Separator.t) :
  h !! l = Some (OSeparator s) -> get_separator l h = (Ok s, h).
Proof. unfold get_separator. now intros ->. Qed.

Lemma get_electrolyte_Ok (l : loc) (h : heap) (e : Electrolyte.t) :
  h !! l = Some (OElectrolyte e) -> get_electrolyte l h = (Ok e, h).
Proof. unfold get_electrolyte. now intros ->. Qed.

Lemma get_pouch_Ok (l : loc) (h : heap) (p : Pouch.t) :
  h !! l = Some (OPouch p) -> get_pouch l h = (Ok p, h).
Proof. unfold get_pouch. now intros ->. Qed.

Lemma get_tab_Ok (l : loc) (h : heap) (b : Tab.t) :
  h !! l = Some (OTab b) -> get_tab l h = (Ok b, h).
Proof. unfold get_tab. now intros ->. Qed.

Lemma get_separator_Ok_inv (l : loc) (h h' : heap) (s : Separator.t) :
  get_separator l h = (Ok s, h') -> h !! l = Some (OSeparator s) /\ h' = h.
Proof.
  unfold get_separator.
  destruct (h !! l) as [[]|]; intros [= <- <-] || discriminate; auto.
Qed.

Lemma get_electrolyte_Ok_inv (l : loc) (h h' : heap) (e : Electrolyte.t) :
  get_electrolyte l h = (Ok e, h') -> h !! l = Some (OElectrolyte e) /\ h' = h.
Proof.
  unfold get_electrolyte.
  destruct (h !! l) as [[]|]; intros [= <- <-] || discriminate; auto.
Qed.

Lemma get_pouch_Ok_inv (l : loc) (h h' : heap) (p : Pouch.t) :
  get_pouch l h = (Ok p, h') -> h !! l = Some (OPouch p) /\ h' = h.
Proof.
  unfold get_pouch.
  destruct (h !! l) as [[]|]; intros [= <- <-] || discriminate; auto.
Qed.

Lemma get_tab_Ok_inv (l : loc) (h h' : heap) (b : Tab.t) :
  get_tab l h = (Ok b, h') -> h !! l = Some (OTab b) /\ h' = h.
Proof.
  unfold get_tab.
  destruct (h !! l) as [[]|]; intros [= <- <-] || discriminate; auto.
Qed.

Lemma update_electrode_Ok (l : loc) f (h : heap) (e e' : Electrode.t) :
  h !! l = Some (OElectrode e) -> f e = Ok e' ->
  update_electrode l f h = (Ok tt, <[l := OElectrode e']> h).
Proof.
  intros Hl Hf. unfold update_electrode.
  rewrite (bind_Ok _ _ _ _ _ (get_electrode_Ok _ _ _ Hl)).
  unfold bind, lift. now rewrite Hf.
Qed.

Lemma update_electrode_Ok_inv (l : loc) f (h h' : heap) (u : unit) :
  update_electrode l f h = (Ok u, h') ->
  exists e e', h !! l = Some (OElectrode e) /\ f e = Ok e'
               /\ h' = <[l := OElectrode e']> h.
Proof.
  unfold update_electrode. intros H.
  apply bind_Ok_inv in H as (e & h1 & He & H).
  apply get_electrode_Ok_inv in He as [He ->].
  apply bind_Ok_inv in H as (e' & h2 & He' & H).
  apply lift_Ok_inv in He' as [He' ->].
  injection H as _ <-. eauto.
Qed.

Lemma update_electrolyte_Ok (l : loc) f (h : heap) (e : Electrolyte.t) :
  h !! l = Some (OElectrolyte e) ->
  update_electrolyte l f h = (Ok tt, <[l := OElectrolyte (f e)]> h).
Proof.
  intros Hl. unfold update_electrolyte.
  now rewrite (bind_Ok _ _ _ _ _ (get_electrolyte_Ok _ _ _ Hl)).
Qed.

Lemma update_electrolyte_Ok_inv (l : loc) f (h h' : heap) (u : unit) :
  update_electrolyte l f h = (Ok u, h') ->
  exists e, h !! l = Some (OElectrolyte e)
            /\ h' = <[l := OElectrolyte (f e)]> h.
Proof.
  unfold update_electrolyte. intros H.
  apply bind_Ok_inv in H as (e & h1 & He & H).
  apply get_electrolyte_Ok_inv in He as [He ->].
  injection H as _ <-. eauto.
Qed.

(** Reading back what was just written. *)
Lemma lookup_insert_same (h : heap) (l : loc) (o o' : obj) :
  h !! l = Some o -> <[l := o']> h !! l = Some o'.
Proof. intros H. apply list_lookup_insert_eq. eapply lookup_lt_Some, H. Qed.

(** ** The sizing stage *)

Section Sizing.

Variables (cathode anode : loc) (n_p_ratio : Q).

Lemma required_anode_thickness_Ok (c a : Electrode.t) (m_am : Q) :
  Electrode.mass_ratio a !! "am" = Some m_am ->
  ~ sizing_divisor a m_am == 0 ->
  Cell.required_anode_thickness n_p_ratio c a
  = Ok (Electrode.areal_capacity c * n_p_ratio / sizing_divisor a m_am).
Proof.
  intros Hm Hd. unfold Cell.required_anode_thickness.
  apply getitem_Ok_inv in Hm. rewrite Hm. simpl.
  now apply pydiv_Ok.
Qed.

Lemma required_anode_thickness_Ok_inv (c a : Electrode.t) (x : Q) :
  Cell.required_anode_thickness n_p_ratio c a = Ok x ->
  exists m_am,
    Electrode.mass_ratio a !! "am" = Some m_am
    /\ ~ sizing_divisor a m_am == 0
    /\ x = Electrode.areal_capacity c * n_p_ratio / sizing_divisor a m_am.
Proof.
  unfold Cell.required_anode_thickness. intros H.
  apply rbind_Ok_inv in H as (m & Hm & H).
  apply getitem_Ok_inv in Hm. apply pydiv_Ok_inv in H as [Hd ->].
  exists m. auto.
Qed.

Lemma calculate_anode_properties_Ok (h : heap) (c a : Electrode.t) (m_am : Q) :
  h !! cathode = Some (OElectrode c) ->
  h !! anode = Some (OElectrode a) ->
  Electrode.mass_ratio a !! "am" = Some m_am ->
  ~ sizing_divisor a m_am == 0 ->
  Cell.calculate_anode_properties cathode anode n_p_ratio h
  = (Ok tt,
     <[anode := OElectrode
         (sized_anode a
            (Electrode.areal_capacity c * n_p_ratio / sizing_divisor a m_am)
            m_am)]> h).
Proof.
  intros Hc Ha Hm Hd. unfold Cell.calculate_anode_properties.
  rewrite (bind_Ok _ _ _ _ _ (get_electrode_Ok _ _ _ Hc)).
  erewrite bind_Ok; cycle 1.
  { eapply update_electrode_Ok; [exact Ha|].
    rewrite (required_anode_thickness_Ok c a m_am Hm Hd). reflexivity. }
  erewrite update_electrode_Ok; cycle 1.
  { eapply lookup_insert_same, Ha. }
  { unfold Electrode.calculate_areal_capacity. simpl.
    apply getitem_Ok_inv in Hm. rewrite Hm. reflexivity. }
  now rewrite list_insert_insert_eq.
Qed.

Lemma calculate_anode_properties_Ok_inv (h h1 : heap) (u : unit) :
  Cell.calculate_anode_properties cathode anode n_p_ratio h = (Ok u, h1) ->
  exists c a m_am,
    h !! cathode = Some (OElectrode c)
    /\ h !! anode = Some (OElectrode a)
    /\ Electrode.mass_ratio a !! "am" = Some m_am
    /\ ~ sizing_divisor a m_am == 0
    /\ h1 = <[anode := OElectrode
                (sized_anode a
                   (Electrode.areal_capacity c * n_p_ratio
                    / sizing_divisor a m_am) m_am)]> h.
Proof.
  unfold Cell.calculate_anode_properties. intros H.
  apply bind_Ok_inv in H as (c & h0 & Hc & H).
  apply get_electrode_Ok_inv in Hc as [Hc ->].
  apply bind_Ok_inv in H as (u1 & h2 & H1 & H).
  apply update_electrode_Ok_inv in H1 as (a & a1 & Ha & Hf & ->).
  apply rbind_Ok_inv in Hf as (x & Hx & [= <-]).
  apply required_anode_thickness_Ok_inv in Hx as (m & Hm & Hd & ->).
  apply update_electrode_Ok_inv in H as (a2 & a3 & Ha2 & Hf & ->).
  rewrite (lookup_insert_same _ _ _ _ Ha) in Ha2. injection Ha2 as <-.
  apply rbind_Ok_inv in Hf as (m' & Hm' & [= <-]).
  apply getitem_Ok_inv in Hm'. simpl in Hm'.
  rewrite Hm in Hm'. injection Hm' as <-.
  exists c, a, m. repeat (split; [assumption|]).
  now rewrite list_insert_insert_eq.
Qed.

End Sizing.

(** ** The aggregation stage *)

Section Aggregation.

Variables (cathode anode separator electrolyte format tabs : loc).
Variable layers_number : Z.
Variables (n_p_ratio ice : Q).

Local Abbreviation run_aggregation :=
  (Cell.calculate_energy_density cathode anode separator electrolyte format
     tabs layers_number n_p_ratio ice).

Lemma calculate_energy_density_Ok_inv (h h' : heap) (cell : Cell.t) :
  run_aggregation h = (Ok cell, h') ->
  aggregated cathode anode separator electrolyte format tabs layers_number
    n_p_ratio ice h cell h'.
Proof.
  unfold Cell.calculate_energy_density. intros H.
  apply bind_Ok_inv in H as (c & h1 & Hc & H).
  apply get_electrode_Ok_inv in Hc as [Hc ->].
  apply bind_Ok_inv in H as (a & h1 & Ha & H).
  apply get_electrode_Ok_inv in Ha as [Ha ->].
  apply bind_Ok_inv in H as (s & h1 & Hs & H).
  apply get_separator_Ok_inv in Hs as [Hs ->].
  apply bind_Ok_inv in H as (p & h1 & Hp & H).
  apply get_pouch_Ok_inv in Hp as [Hp ->].
  apply bind_Ok_inv in H as (d_ccc & h1 & Hdc & H).
  apply lift_Ok_inv in Hdc as [Hdc ->].
  apply bind_Ok_inv in H as (d_acc & h1 & Hda & H).
  apply lift_Ok_inv in Hda as [Hda ->].
  apply bind_Ok_inv in H as (b & h1 & Hb & H).
  apply get_tab_Ok_inv in Hb as [Hb ->].
  apply bind_Ok_inv in H as (l & h1 & Hl & H).
  apply get_electrolyte_Ok_inv in Hl as [Hl ->].
  cbv zeta in H.
  apply bind_Ok_inv in H as (u & h1 & Hu & H).
  apply update_electrolyte_Ok_inv in Hu as (l1 & Hl1 & ->).
  rewrite Hl in Hl1. injection Hl1 as <-.
  apply bind_Ok_inv in H as (c_am & h2 & Hcm & H).
  apply lift_Ok_inv in Hcm as [Hcm ->].
  apply bind_Ok_inv in H as (a_am & h2 & Ham & H).
  apply lift_Ok_inv in Ham as [Ham ->].
  apply bind_Ok_inv in H as (vpa & h2 & Hv & H).
  apply lift_Ok_inv in Hv as [Hv ->].
  apply pydiv_Ok_inv in Hv as [Hcap ->].
  apply bind_Ok_inv in H as (u2 & h2 & Hu2 & H).
  apply update_electrolyte_Ok_inv in Hu2 as (l2 & Hl2 & ->).
  rewrite (lookup_insert_same _ _ _ _ Hl) in Hl2. injection Hl2 as <-.
  apply bind_Ok_inv in H as (e_v & h2 & Hev & H).
  apply lift_Ok_inv in Hev as [Hev ->].
  apply pydiv_Ok_inv in Hev as [Htv ->].
  apply bind_Ok_inv in H as (e_m & h2 & Hem & H).
  apply lift_Ok_inv in Hem as [Hem ->].
  apply pydiv_Ok_inv in Hem as [Htm ->].
  unfold ret in H. injection H as <- <-.
  rewrite list_insert_insert_eq.
  apply getitem_Ok_inv in Hcm, Ham.
  now apply Aggregated.
Qed.

Lemma calculate_energy_density_Ok (h h' : heap) (cell : Cell.t) :
  aggregated cathode anode separator electrolyte format tabs layers_number
    n_p_ratio ice h cell h' ->
  run_aggregation h = (Ok cell, h').
Proof.
  intros [c a s p b l d_ccc d_acc c_am a_am Hc Ha Hs Hp Hb Hl Hdc Hda Hcm
            Ham volume capacity energy total_mass total_volume Hcap Htv Htm].
  subst volume capacity energy total_mass total_volume.
  apply getitem_Ok_inv in Hcm, Ham.
  unfold Cell.calculate_energy_density.
  rewrite (bind_Ok _ _ _ _ _ (get_electrode_Ok _ _ _ Hc)).
  rewrite (bind_Ok _ _ _ _ _ (get_electrode_Ok _ _ _ Ha)).
  rewrite (bind_Ok _ _ _ _ _ (get_separator_Ok _ _ _ Hs)).
  rewrite (bind_Ok _ _ _ _ _ (get_pouch_Ok _ _ _ Hp)).
  rewrite (bind_Ok _ _ _ _ _ (lift_Ok _ h _ Hdc)).
  rewrite (bind_Ok _ _ _ _ _ (lift_Ok _ h _ Hda)).
  rewrite (bind_Ok _ _ _ _ _ (get_tab_Ok _ _ _ Hb)).
  rewrite (bind_Ok _ _ _ _ _ (get_electrolyte_Ok _ _ _ Hl)).
  cbv zeta.
  rewrite (bind_Ok _ _ _ _ _ (update_electrolyte_Ok _ _ _ _ Hl)).
  rewrite (bind_Ok _ _ _ _ _ (lift_Ok _ _ _ Hcm)).
  rewrite (bind_Ok _ _ _ _ _ (lift_Ok _ _ _ Ham)).
  rewrite (bind_Ok _ _ _ _ _ (lift_Ok _ _ _ (pydiv_Ok _ _ Hcap))).
  rewrite (bind_Ok _ _ _ _ _
             (update_electrolyte_Ok _ _ _ _ (lookup_insert_same _ _ _ _ Hl))).
  rewrite (bind_Ok _ _ _ _ _ (lift_Ok _ _ _ (pydiv_Ok _ _ Htv))).
  rewrite (bind_Ok _ _ _ _ _ (lift_Ok _ _ _ (pydiv_Ok _ _ Htm))).
  unfold ret. now rewrite list_insert_insert_eq.
Qed.

End Aggregation.

(** ** The frame of a construction *)

Lemma frame_electrode_refl (e : Electrode.t) : Frame.electrode e e.
Proof. now constructor. Qed.

Lemma frame_electrode_trans (e1 e2 e3 : Electrode.t) :
  Frame.electrode e1 e2 -> Frame.electrode e2 e3 -> Frame.electrode e1 e3.
Proof. intros [] []. constructor; congruence. Qed.

Lemma frame_electrolyte_refl (l : Electrolyte.t) : Frame.electrolyte l l.
Proof. now constructor. Qed.

Lemma frame_electrolyte_trans (l1 l2 l3 : Electrolyte.t) :
  Frame.electrolyte l1 l2 -> Frame.electrolyte l2 l3 -> Frame.electrolyte l1 l3.
Proof. intros [] []. constructor; congruence. Qed.

Lemma frame_set_thickness (x : Q) (e : Electrode.t) :
  Frame.electrode e (Electrode.set_thickness x e).
Proof. now constructor. Qed.

Lemma frame_set_areal_capacity (x : Q) (e : Electrode.t) :
  Frame.electrode e (Electrode.set_areal_capacity x e).
Proof. now constructor. Qed.

Lemma frame_sized_anode (a : Electrode.t) (x m_am : Q) :
  Frame.electrode a (sized_anode a x m_am).
Proof. now constructor. Qed.

(** Two electrodes that agree outside the sizing attributes are equal once
    both attributes are overwritten with the same values. *)
Lemma frame_electrode_overwrite (e e' : Electrode.t) (x y : Q) :
  Frame.electrode e e' ->
  Electrode.set_areal_capacity y (Electrode.set_thickness x e')
  = Electrode.set_areal_capacity y (Electrode.set_thickness x e).
Proof.
  destruct e, e'. intros []. simpl in *. subst.
  reflexivity.
Qed.

Section FrameRules.

Variables (r_anode r_electrolyte : loc).

Local Abbreviation framed := (Frame.heaps r_anode r_electrolyte).
Local Abbreviation keeps := (Frame.preserved_by r_anode r_electrolyte).

Lemma frame_heaps_refl (h : heap) : framed h h.
Proof. intros l. now left. Qed.

Lemma frame_object_trans (l : loc) (o1 o2 o3 : option obj) :
  Frame.object r_anode r_electrolyte l o1 o2 ->
  Frame.object r_anode r_electrolyte l o2 o3 ->
  Frame.object r_anode r_electrolyte l o1 o3.
Proof.
  intros [->|[(El & e1 & e2 & -> & -> & F12)|(El & e1 & e2 & -> & -> & F12)]];
    [auto| |];
    intros [->|[(El' & e2' & e3 & E2 & -> & F23)|(El' & e2' & e3 & E2 & -> & F23)]];
    try discriminate.
  - right; left. eauto 7.
  - injection E2 as <-. right; left. split; [assumption|].
    exists e1, e3. eauto using frame_electrode_trans.
  - right; right. eauto 7.
  - injection E2 as <-. right; right. split; [assumption|].
    exists e1, e3. eauto using frame_electrolyte_trans.
Qed.

Lemma frame_heaps_trans (h1 h2 h3 : heap) :
  framed h1 h2 -> framed h2 h3 -> framed h1 h3.
Proof. intros H12 H23 l. eapply frame_object_trans; [apply H12 | apply H23]. Qed.

Lemma keeps_ret {A} (a : A) : keeps (ret a).
Proof. intros h. apply frame_heaps_refl. Qed.

Lemma keeps_lift {A} (r : result A) : keeps (lift r).
Proof. intros h. apply frame_heaps_refl. Qed.

Lemma keeps_bind {A B} (m : M A) (k : A -> M B) :
  keeps m -> (forall a, keeps (k a)) -> keeps (bind m k).
Proof.
  intros Hm Hk h. unfold bind. specialize (Hm h).
  destruct (m h) as [[a|e] h1]; simpl in *; [|assumption].
  eapply frame_heaps_trans; [exact Hm | apply Hk].
Qed.

Lemma keeps_get_electrode (l : loc) : keeps (get_electrode l).
Proof.
  intros h. unfold get_electrode.
  destruct (h !! l) as [[]|]; apply frame_heaps_refl.
Qed.

Lemma keeps_get_separator (l : loc) : keeps (get_separator l).
Proof.
  intros h. unfold get_separator.
  destruct (h !! l) as [[]|]; apply frame_heaps_refl.
Qed.

Lemma keeps_get_electrolyte (l : loc) : keeps (get_electrolyte l).
Proof.
  intros h. unfold get_electrolyte.
  destruct (h !! l) as [[]|]; apply frame_heaps_refl.
Qed.

Lemma keeps_get_pouch (l : loc) : keeps (get_pouch l).
Proof.
  intros h. unfold get_pouch.
  destruct (h !! l) as [[]|]; apply frame_heaps_refl.
Qed.

Lemma keeps_get_tab (l : loc) : keeps (get_tab l).
Proof.
  intros h. unfold get_tab.
  destruct (h !! l) as [[]|]; apply frame_heaps_refl.
Qed.

(** A method of the anode that assigns only its sizing attributes. *)
Lemma keeps_update_anode (f : Electrode.t -> result Electrode.t) :
  (forall e e', f e = Ok e' -> Frame.electrode e e') ->
  keeps (update_electrode r_anode f).
Proof.
  intros Hf h. unfold update_electrode, bind, get_electrode, lift.
  destruct (h !! r_anode) as [[e| | | |]|] eqn:Ha; try apply frame_heaps_refl.
  destruct (f e) as [e'|x] eqn:Hfe; [|apply frame_heaps_refl].
  simpl. intros l. destruct (decide (l = r_anode)) as [->|Hne].
  - right; left. split; [reflexivity|]. exists e, e'.
    rewrite (lookup_insert_same _ _ _ _ Ha). auto.
  - left. now apply list_lookup_insert_ne.
Qed.

Lemma keeps_update_electrolyte (f : Electrolyte.t -> Electrolyte.t) :
  (forall e, Frame.electrolyte e (f e)) ->
  keeps (update_electrolyte r_electrolyte f).
Proof.
  intros Hf h. unfold update_electrolyte, bind, get_electrolyte.
  destruct (h !! r_electrolyte) as [[|  |e | |]|] eqn:Hl;
    try apply frame_heaps_refl.
  simpl. intros l. destruct (decide (l = r_electrolyte)) as [->|Hne].
  - right; right. split; [reflexivity|]. exists e, (f e).
    rewrite (lookup_insert_same _ _ _ _ Hl). auto.
  - left. now apply list_lookup_insert_ne.
Qed.

End FrameRules.

Section CellFrame.

Variables (cathode anode separator electrolyte format tabs : loc).
Variable layers_number : Z.
Variables (n_p_ratio ice : Q).

Lemma keeps_calculate_anode_properties :
  Frame.preserved_by anode electrolyte
    (Cell.calculate_anode_properties cathode anode n_p_ratio).
Proof.
  unfold Cell.calculate_anode_properties.
  apply keeps_bind; [apply keeps_get_electrode|]. intros c.
  apply keeps_bind; [|intros _].
  - apply keeps_update_anode. intros e e' H.
    apply rbind_Ok_inv in H as (x & _ & [= <-]). apply frame_set_thickness.
  - apply keeps_update_anode. intros e e' H.
    apply rbind_Ok_inv in H as (x & _ & [= <-]).
    apply frame_set_areal_capacity.
Qed.

(** The aggregation writes to the electrolyte only: the frame holds
    whichever location [r] is allowed to be resized. *)
Lemma keeps_calculate_energy_density (r : loc) :
  Frame.preserved_by r electrolyte
    (Cell.calculate_energy_density cathode anode separator electrolyte format
       tabs layers_number n_p_ratio ice).
Proof.
  unfold Cell.calculate_energy_density.
  repeat first
    [ apply keeps_ret | apply keeps_lift | apply keeps_get_electrode
    | apply keeps_get_separator | apply keeps_get_pouch | apply keeps_get_tab
    | apply keeps_get_electrolyte
    | apply keeps_update_electrolyte; intros e; now constructor
    | apply keeps_bind; [|intros ?] ].
Qed.

Lemma keeps_new :
  Frame.preserved_by anode electrolyte
    (Cell.new cathode anode separator electrolyte format tabs layers_number
       n_p_ratio ice).
Proof.
  unfold Cell.new. apply keeps_bind; [|intros _].
  - apply keeps_calculate_anode_properties.
  - apply keeps_calculate_energy_density.
Qed.

Lemma keeps_electrodes (h : heap) (l : loc) (e : Electrode.t) :
  h !! l = Some (OElectrode e) ->
  snd (Cell.calculate_energy_density cathode anode separator electrolyte
         format tabs layers_number n_p_ratio ice h) !! l
  = Some (OElectrode e).
Proof.
  intros Hl.
  destruct (keeps_calculate_energy_density (S l) h l)
    as [H|[(E & _)|(_ & e1 & e2 & E & _)]].
  - congruence.
  - lia.
  - congruence.
Qed.

(** [Cell.new] once the sizing stage has returned. *)
Lemma new_after_sizing (h h1 : heap) :
  Cell.calculate_anode_properties cathode anode n_p_ratio h = (Ok tt, h1) ->
  Cell.new cathode anode separator electrolyte format tabs layers_number
    n_p_ratio ice h
  = Cell.calculate_energy_density cathode anode separator electrolyte format
      tabs layers_number n_p_ratio ice h1.
Proof. intros H. unfold Cell.new. now rewrite (bind_Ok _ _ _ _ _ H). Qed.

Lemma new_Ok_inv (h h' : heap) (cell : Cell.t) :
  Cell.new cathode anode separator electrolyte format tabs layers_number
    n_p_ratio ice h = (Ok cell, h') ->
  exists c0 a0 m_am,
    h !! cathode = Some (OElectrode c0)
    /\ h !! anode = Some (OElectrode a0)
    /\ Electrode.mass_ratio a0 !! "am" = Some m_am
    /\ ~ sizing_divisor a0 m_am == 0
    /\ aggregated cathode anode separator electrolyte format tabs
         layers_number n_p_ratio ice
         (<[anode := OElectrode
              (sized_anode a0
                 (Electrode.areal_capacity c0 * n_p_ratio
                  / sizing_divisor a0 m_am) m_am)]> h)
         cell h'.
Proof.
  unfold Cell.new. intros H.
  apply bind_Ok_inv in H as (u & h1 & H1 & H).
  apply calculate_anode_properties_Ok_inv in H1
    as (c0 & a0 & m & Hc & Ha & Hm & Hd & ->).
  apply calculate_energy_density_Ok_inv in H. eauto 10.
Qed.

(** A successful construction: the sizing returned, then the aggregation. *)
Lemma new_Ok_stages (h h' : heap) (cell : Cell.t) :
  Cell.new cathode anode separator electrolyte format tabs layers_number
    n_p_ratio ice h = (Ok cell, h') ->
  exists h1,
    Cell.calculate_anode_properties cathode anode n_p_ratio h = (Ok tt, h1)
    /\ aggregated cathode anode separator electrolyte format tabs
         layers_number n_p_ratio ice h1 cell h'.
Proof.
  unfold Cell.new. intros H.
  apply bind_Ok_inv in H as ([] & h1 & H1 & H).
  apply calculate_energy_density_Ok_inv in H. eauto.
Qed.

End CellFrame.

(** ** The material table *)

Lemma materials_density_pos (name : string) (d : Q) :
  materials_density name = Ok d -> 0 < d.
Proof.
  unfold materials_density.
  destruct (materials !! name) as [v|] eqn:E; [|discriminate].
  unfold materials in E. apply elem_of_list_to_map_2 in E.
  repeat (apply elem_of_cons in E as [[= -> ->]|E];
          [vm_compute; intros [= <-]; reflexivity || discriminate|]).
  now apply elem_of_nil in E.
Qed.

Lemma materials_density_SuperP : materials_density "SuperP" = Ok 1.9.
Proof. reflexivity. Qed.

Lemma materials_density_unknown (name : string) :
  materials !! name = None -> materials_density name = Raise (KeyError name).
Proof. unfold materials_density. now intros ->. Qed.

Lemma materials_get_density_unknown (name : string) :
  materials !! name = None -> materials_get_density name = Raise TypeError.
Proof. unfold materials_get_density. now intros ->. Qed.

(** ** Signs *)

Lemma Qplus_nonneg (a b : Q) : 0 <= a -> 0 <= b -> 0 <= a + b.
Proof. intros. lra. Qed.

Lemma Qdiv_nonneg (a b : Q) : 0 <= a -> 0 <= b -> 0 <= a / b.
Proof.
  intros Ha Hb. unfold Qdiv.
  apply Qmult_le_0_compat; [assumption | now apply Qinv_le_0_compat].
Qed.

Lemma Qdiv_pos (a b : Q) : 0 < a -> 0 < b -> 0 < a / b.
Proof.
  intros Ha Hb. unfold Qdiv.
  apply Qmult_lt_0_compat; [assumption | now apply Qinv_lt_0_compat].
Qed.

Lemma inject_Z_nonneg (n : Z) : (0 <= n)%Z -> 0 <= inject_Z n.
Proof. intros H. now rewrite Zle_Qle in H. Qed.

Lemma Qnonneg_nonzero_pos (a : Q) : 0 <= a -> ~ a == 0 -> 0 < a.
Proof.
  intros Ha Hn. apply Qle_lteq in Ha as [Ha|Ha]; [assumption|].
  exfalso. apply Hn. now symmetry.
Qed.

Lemma Qpos_nonzero (x : Q) : 0 < x -> ~ x == 0.
Proof. intros H E. rewrite E in H. discriminate. Qed.

(** Sums, products and quotients of non-negative numbers. *)
Ltac nonneg :=
  repeat first
    [ assumption
    | apply Qdiv_nonneg
    | apply Qinv_le_0_compat
    | apply Qmult_le_0_compat
    | apply Qplus_nonneg
    | apply inject_Z_nonneg; lia
    | discriminate ].

Ltac positive :=
  repeat first
    [ assumption
    | apply Qdiv_pos
    | apply Qinv_lt_0_compat
    | apply Qmult_lt_0_compat
    | reflexivity ].

Section Signs.

Variable layers_number : Z.
Hypothesis layers_nonneg : (0 <= layers_number)%Z.

Lemma cathode_volume_nonneg (c : Electrode.t) :
  Nonneg.electrode c -> 0 <= Cell.cathode_volume c layers_number.
Proof. intros []. unfold Cell.cathode_volume. nonneg. Qed.

Lemma anode_volume_nonneg (a : Electrode.t) :
  Nonneg.electrode a -> 0 <= Cell.anode_volume a layers_number.
Proof. intros []. unfold Cell.anode_volume. nonneg. Qed.

Lemma separator_volume_nonneg (s : Separator.t) :
  Nonneg.separator s -> 0 <= Cell.separator_volume s layers_number.
Proof. intros []. unfold Cell.separator_volume. nonneg. Qed.

Lemma pouch_volume_nonneg (p : Pouch.t) :
  Nonneg.pouch p -> 0 <= Cell.pouch_volume p.
Proof. intros []. unfold Cell.pouch_volume. nonneg. Qed.

Lemma anode_cc_volume_nonneg (a : Electrode.t) :
  Nonneg.electrode a -> 0 <= Cell.anode_cc_volume a layers_number.
Proof. intros []. unfold Cell.anode_cc_volume. nonneg. Qed.

Lemma cathode_cc_volume_nonneg (c : Electrode.t) :
  Nonneg.electrode c -> 0 <= Cell.cathode_cc_volume c layers_number.
Proof. intros []. unfold Cell.cathode_cc_volume. nonneg. Qed.

Lemma total_void_volume_nonneg (c a : Electrode.t) (s : Separator.t) :
  Nonneg.electrode c -> Nonneg.electrode a -> Nonneg.separator s ->
  0 <= Cell.total_void_volume c a s layers_number.
Proof.
  intros Hc Ha Hs.
  pose proof (cathode_volume_nonneg c Hc).
  pose proof (anode_volume_nonneg a Ha).
  pose proof (separator_volume_nonneg s Hs).
  destruct Hc, Ha, Hs.
  unfold Cell.total_void_volume, Cell.cathode_void_volume,
    Cell.anode_void_volume, Cell.separator_void_volume.
  nonneg.
Qed.

Lemma cathode_capacity_nonneg (c : Electrode.t) (c_am : Q) :
  Nonneg.electrode c -> Electrode.mass_ratio c !! "am" = Some c_am ->
  0 <= Cell.cathode_capacity c c_am layers_number.
Proof.
  intros Hc Hm. pose proof (cathode_volume_nonneg c Hc).
  destruct Hc as [? ? ? ? ? ? ? ? ? ? Ham]. specialize (Ham _ Hm).
  unfold Cell.cathode_capacity, Cell.cathode_mass. nonneg.
Qed.

Lemma anode_capacity_nonneg (a : Electrode.t) (a_am : Q) :
  Nonneg.electrode a -> Electrode.mass_ratio a !! "am" = Some a_am ->
  0 <= Cell.anode_capacity a a_am layers_number.
Proof.
  intros Ha Hm. pose proof (anode_volume_nonneg a Ha).
  destruct Ha as [? ? ? ? ? ? ? ? ? ? Ham]. specialize (Ham _ Hm).
  unfold Cell.anode_capacity, Cell.anode_mass. nonneg.
Qed.

Lemma total_volume_of_nonneg (c a : Electrode.t) (s : Separator.t)
    (p : Pouch.t) (l : Electrolyte.t) :
  Nonneg.electrode c -> Nonneg.electrode a -> Nonneg.separator s ->
  Nonneg.pouch p -> Nonneg.electrolyte l ->
  0 <= Cell.total_volume_of c a s p l layers_number.
Proof.
  intros Hc Ha Hs Hp Hl.
  pose proof (cathode_volume_nonneg c Hc).
  pose proof (anode_volume_nonneg a Ha).
  pose proof (separator_volume_nonneg s Hs).
  pose proof (pouch_volume_nonneg p Hp).
  pose proof (anode_cc_volume_nonneg a Ha).
  pose proof (cathode_cc_volume_nonneg c Hc).
  pose proof (total_void_volume_nonneg c a s Hc Ha Hs) as Hv.
  destruct Hl as [_ Hx].
  unfold Cell.total_volume_of, Cell.electrolyte_volume.
  set (v := Cell.total_void_volume c a s layers_number) in *.
  assert (0 <= v * (1 + Electrolyte.volume_excess l) - v).
  { assert (E : v * (1 + Electrolyte.volume_excess l) - v
                == v * Electrolyte.volume_excess l) by ring.
    rewrite E. nonneg. }
  nonneg.
Qed.

Lemma total_mass_of_nonneg (c a : Electrode.t) (s : Separator.t) (p : Pouch.t)
    (b : Tab.t) (l : Electrolyte.t) (d_ccc d_acc : Q) :
  Nonneg.electrode c -> Nonneg.electrode a -> Nonneg.separator s ->
  Nonneg.pouch p -> Nonneg.tab b -> Nonneg.electrolyte l ->
  0 <= d_ccc -> 0 <= d_acc ->
  0 <= Cell.total_mass_of c a s p b l d_ccc d_acc layers_number.
Proof.
  intros Hc Ha Hs Hp Hb Hl Hdc Hda.
  pose proof (cathode_volume_nonneg c Hc).
  pose proof (anode_volume_nonneg a Ha).
  pose proof (separator_volume_nonneg s Hs).
  pose proof (pouch_volume_nonneg p Hp).
  pose proof (anode_cc_volume_nonneg a Ha).
  pose proof (cathode_cc_volume_nonneg c Hc).
  pose proof (total_void_volume_nonneg c a s Hc Ha Hs).
  destruct Hc, Ha, Hs, Hp, Hb, Hl.
  unfold Cell.total_mass_of, Cell.cathode_mass, Cell.cathode_cc_mass,
    Cell.anode_mass, Cell.anode_cc_mass, Cell.separator_mass, Cell.pouch_mass,
    Cell.tabs_mass, Cell.electrolyte_mass, Cell.electrolyte_volume.
  nonneg; lra.
Qed.

End Signs.

(** Sizing keeps the anode's attributes non-negative. *)
Lemma sized_anode_nonneg (c a : Electrode.t) (n_p_ratio m_am : Q) :
  Nonneg.electrode c -> Nonneg.electrode a -> 0 <= n_p_ratio ->
  Electrode.mass_ratio a !! "am" = Some m_am ->
  Nonneg.electrode
    (sized_anode a
       (Electrode.areal_capacity c * n_p_ratio / sizing_divisor a m_am) m_am).
Proof.
  intros Hc Ha Hn Hm.
  destruct Ha as [? ? ? ? ? ? ? ? ? ? Ham]. pose proof (Ham _ Hm).
  destruct Hc.
  assert (0 <= Electrode.areal_capacity c * n_p_ratio / sizing_divisor a m_am)
    by (unfold sizing_divisor; nonneg).
  constructor; simpl; try assumption. nonneg.
Qed.

Lemma heap_nonneg_after_sizing (cathode anode : loc) (n_p_ratio : Q)
    (h h1 : heap) (u : unit) :
  Forall Nonneg.object h -> 0 <= n_p_ratio ->
  Cell.calculate_anode_properties cathode anode n_p_ratio h = (Ok u, h1) ->
  Forall Nonneg.object h1.
Proof.
  intros Hh Hn H.
  apply calculate_anode_properties_Ok_inv in H
    as (c & a & m & Hc & Ha & Hm & _ & ->).
  apply Forall_insert; [assumption|]. simpl.
  apply sized_anode_nonneg; try assumption.
  - apply (Forall_lookup_1 _ _ _ _ Hh Hc).
  - apply (Forall_lookup_1 _ _ _ _ Hh Ha).
Qed.

(** ** The concrete cell *)

(** Its components are non-negative. *)
Lemma scenario_heap0_nonneg : Forall Nonneg.object Scenario.heap0.
Proof.
  vm_compute Scenario.heap0.
  repeat apply Forall_cons_2; try apply Forall_nil_2;
    constructor; simpl;
    try (intros m Hm; vm_compute in Hm; injection Hm as <-);
    vm_compute; discriminate.
Qed.

(** The components of the concrete cell before the construction. *)
Lemma scenario_components :
  exists c a s l p b,
    Scenario.heap0
    = [OElectrode c; OElectrode a; OSeparator s; OElectrolyte l; OPouch p;
       OTab b]
    /\ Electrode.mass_ratio a !! "am" = Some 0.9
    /\ 0 < Electrode.density a
    /\ 0 < Electrode.capacity a
    /\ 0 < Electrode.areal_capacity c
    /\ Positive.electrode a
    /\ Positive.pouch p
    /\ 0 <= Electrolyte.volume_excess l
    /\ materials_density (Electrode.current_collector c) = Ok 2.7
    /\ materials_density (Electrode.current_collector a) = Ok 8.94
    /\ Electrode.mass_ratio c !! "am" = Some 0.9.
Proof.
  vm_compute Scenario.heap0. do 6 eexists.
  split; [reflexivity|].
  split; [reflexivity|].
  repeat (split; [reflexivity|]).
  split; [constructor; try reflexivity; exists 0.9; split; reflexivity|].
  split; [constructor; reflexivity|].
  split; [vm_compute; discriminate|].
  repeat (split; [reflexivity|]). reflexivity.
Qed.

(** The construction of the concrete cell returns; these are the objects
    it leaves. *)
Lemma scenario_constructed :
  exists cell h' c a l,
    Scenario.cell 5 Scenario.heap0 = (Ok cell, h')
    /\ h' !! 0%nat = Some (OElectrode c)
    /\ h' !! 1%nat = Some (OElectrode a)
    /\ h' !! 3%nat = Some (OElectrolyte l)
    /\ Electrode.voltage c == 3.2
    /\ Electrode.voltage a == 0.1
    /\ Electrolyte.volume_excess l == 0.
Proof.
  vm_compute (Scenario.cell 5 Scenario.heap0). do 5 eexists.
  repeat (split; [reflexivity|]). reflexivity.
Qed.

(** Two reads of one location give one object. *)
Ltac same_object H1 H2 :=
  rewrite H1 in H2; injection H2 as <-.

(** * The claims *)

(** ** Anode sizing *)

Lemma sizing_divisor_nonzero (a : Electrode.t) (m_am : Q) :
  ~ Electrode.density a == 0 -> ~ Electrode.capacity a == 0 -> ~ m_am == 0 ->
  ~ sizing_divisor a m_am == 0.
Proof.
  intros Hd Hc Hm H. unfold sizing_divisor in H.
  apply Qmult_integral in H as [H|H]; [|contradiction].
  apply Qmult_integral in H as [H|H]; contradiction.
Qed.

(** C1.  Anode sizing is inverse-consistent.  Whenever the anode has a
    nonzero density, a nonzero specific capacity and a nonzero
    [mass_ratio['am']], the sizing stage of the construction returns; it
    stores the thickness [cathode.areal_capacity * n_p_ratio / (anode.density
    * anode.capacity * anode.mass_ratio['am'])] in the anode, and the areal
    capacity recomputed from it is [cathode.areal_capacity * n_p_ratio].  The
    anode keeps these two values to the end of the construction, whether
    the aggregation stage returns or raises, and none of its other
    attributes changes. *)
Theorem anode_sizing_inverse_consistent
    (cathode anode separator electrolyte format tabs : loc)
    (layers_number : Z) (n_p_ratio ice : Q) (h : heap)
    (c a : Electrode.t) (m_am : Q) :
  h !! cathode = Some (OElectrode c) ->
  h !! anode = Some (OElectrode a) ->
  Electrode.mass_ratio a !! "am" = Some m_am ->
  ~ Electrode.density a == 0 ->
  ~ Electrode.capacity a == 0 ->
  ~ m_am == 0 ->
  exists a',
    Cell.calculate_anode_properties cathode anode n_p_ratio h
    = (Ok tt, <[anode := OElectrode a']> h)
    /\ snd (Cell.new cathode anode separator electrolyte format tabs
              layers_number n_p_ratio ice h) !! anode
       = Some (OElectrode a')
    /\ Electrode.thickness a'
       == Electrode.areal_capacity c * n_p_ratio
          / (Electrode.density a * Electrode.capacity a * m_am)
    /\ Electrode.areal_capacity a' == Electrode.areal_capacity c * n_p_ratio
    /\ Frame.electrode a a'.
Proof.
  intros Hc Ha Hm Hd Hcap Hm0.
  pose proof (sizing_divisor_nonzero a m_am Hd Hcap Hm0) as Hdiv.
  pose proof (calculate_anode_properties_Ok cathode anode n_p_ratio h c a
                m_am Hc Ha Hm Hdiv) as Hrun.
  eexists. split; [exact Hrun|]. split; [|split; [|split]].
  - rewrite (new_after_sizing _ _ _ _ _ _ _ _ _ _ _ Hrun).
    apply keeps_electrodes. eapply lookup_insert_same, Ha.
  - reflexivity.
  - simpl. unfold sizing_divisor. field. auto.
  - apply frame_sized_anode.
Qed.

(** The sizing on the concrete cell: the anode, constructed with the
    default thickness 0, ends with the areal capacity of the cathode times
    1.1. *)
Lemma anode_sizing_inverse_consistent_witness :
  exists c a a',
    Scenario.heap0 !! 0%nat = Some (OElectrode c)
    /\ Scenario.heap0 !! 1%nat = Some (OElectrode a)
    /\ snd (Scenario.cell 5 Scenario.heap0) !! 1%nat = Some (OElectrode a')
    /\ Electrode.areal_capacity a' == Electrode.areal_capacity c * 1.1.
Proof.
  destruct scenario_components
    as (c & a & s & l & p & b & Hh & Hm & Hd & Hcap & _).
  assert (Hc : Scenario.heap0 !! 0%nat = Some (OElectrode c))
    by now rewrite Hh.
  assert (Ha : Scenario.heap0 !! 1%nat = Some (OElectrode a))
    by now rewrite Hh.
  destruct (anode_sizing_inverse_consistent 0%nat 1%nat 2%nat 3%nat 4%nat
              5%nat 5 1.1 Cell.default_ice Scenario.heap0 c a 0.9 Hc Ha Hm)
    as (a' & _ & Hfinal & _ & Hareal & _).
  - now apply Qpos_nonzero.
  - now apply Qpos_nonzero.
  - discriminate.
  - exists c, a, a'. auto.
Defined.

(** ** The aggregated results *)

(** The objects read by the aggregation stay where they are when the
    electrolyte is written. *)
Lemma lookup_insert_electrolyte (h : heap) (r l : loc) (e e' : Electrolyte.t)
    (o : obj) :
  h !! r = Some (OElectrolyte e) ->
  h !! l = Some o ->
  (forall x, o <> OElectrolyte x) ->
  <[r := OElectrolyte e']> h !! l = Some o.
Proof.
  intros Hr Hl Ho. rewrite list_lookup_insert_ne; [assumption|].
  intros ->. rewrite Hr in Hl. injection Hl as <-. now apply (Ho e).
Qed.

Ltac final_lookup :=
  first
    [ eapply lookup_insert_same; eassumption
    | eapply lookup_insert_electrolyte; [eassumption | eassumption | discriminate] ].

Lemma capacity_of_le (c a : Electrode.t) (c_am a_am : Q) (n : Z) (ice : Q) :
  ice <= 1 ->
  0 <= Qmin (Cell.cathode_capacity c c_am n) (Cell.anode_capacity a a_am n) ->
  Cell.capacity_of c a c_am a_am n ice
  <= Qmin (Cell.cathode_capacity c c_am n) (Cell.anode_capacity a a_am n).
Proof.
  intros Hi Hm. unfold Cell.capacity_of.
  set (m := Qmin _ _) in *. nra.
Qed.

Lemma capacity_of_zero (c a : Electrode.t) (c_am a_am : Q) (n : Z) (ice : Q) :
  0 < ice ->
  Cell.capacity_of c a c_am a_am n ice == 0 ->
  Qmin (Cell.cathode_capacity c c_am n) (Cell.anode_capacity a a_am n) == 0.
Proof.
  intros Hi H. unfold Cell.capacity_of in H.
  apply Qmult_integral in H as [H|H]; [assumption|]. lra.
Qed.

(** C2.  The capacity of a constructed Cell is the smaller of the two
    electrode capacities, each [mass * mass_ratio['am'] * capacity / 1000]
    on the electrode as the construction left it, times [ice].  If [ice] is
    at most 1 and the numeric inputs are non-negative (every attribute of
    the components, [layers_number] and [n_p_ratio]), the capacity does not
    exceed that minimum; and for a positive [ice] it is zero only if the
    minimum is zero. *)
Theorem capacity_is_limiting_electrode_times_ice
    (cathode anode separator electrolyte format tabs : loc)
    (layers_number : Z) (n_p_ratio ice : Q) (h h' : heap) (cell : Cell.t) :
  Cell.new cathode anode separator electrolyte format tabs layers_number
    n_p_ratio ice h = (Ok cell, h') ->
  exists c a c_am a_am,
    h' !! cathode = Some (OElectrode c)
    /\ h' !! anode = Some (OElectrode a)
    /\ Electrode.mass_ratio c !! "am" = Some c_am
    /\ Electrode.mass_ratio a !! "am" = Some a_am
    /\ let cathode_capacity :=
         Cell.cathode_mass c layers_number * c_am * Electrode.capacity c / 1000
       in
       let anode_capacity :=
         Cell.anode_mass a layers_number * a_am * Electrode.capacity a / 1000
       in
       Cell.capacity cell == Qmin cathode_capacity anode_capacity * ice
       /\ (ice <= 1 ->
           Forall Nonneg.object h -> (0 <= layers_number)%Z ->
           0 <= n_p_ratio ->
           Cell.capacity cell <= Qmin cathode_capacity anode_capacity)
       /\ (0 < ice -> Cell.capacity cell == 0 ->
           Qmin cathode_capacity anode_capacity == 0).
Proof.
  intros H. apply new_Ok_stages in H as (h1 & Hsize & Hagg).
  destruct Hagg as [c a s p b l d_ccc d_acc c_am a_am Hc Ha Hs Hp Hb Hl Hdc
                      Hda Hcm Ham volume capacity energy total_mass
                      total_volume Hcap Htv Htm].
  exists c, a, c_am, a_am.
  split; [final_lookup|]. split; [final_lookup|].
  split; [assumption|]. split; [assumption|].
  cbv zeta. simpl Cell.capacity.
  fold (Cell.cathode_capacity c c_am layers_number).
  fold (Cell.anode_capacity a a_am layers_number).
  split; [reflexivity|]. split.
  - intros Hi Hh Hn Hnp. apply capacity_of_le; [assumption|].
    pose proof (heap_nonneg_after_sizing _ _ _ _ _ _ Hh Hnp Hsize) as Hh1.
    apply Q.min_glb.
    + apply cathode_capacity_nonneg; [assumption| |assumption].
      apply (Forall_lookup_1 _ _ _ _ Hh1 Hc).
    + apply anode_capacity_nonneg; [assumption| |assumption].
      apply (Forall_lookup_1 _ _ _ _ Hh1 Ha).
  - apply capacity_of_zero.
Qed.

Lemma capacity_is_limiting_electrode_times_ice_witness :
  exists cell h' c a c_am a_am,
    Scenario.cell 5 Scenario.heap0 = (Ok cell, h')
    /\ h' !! 0%nat = Some (OElectrode c)
    /\ h' !! 1%nat = Some (OElectrode a)
    /\ Electrode.mass_ratio c !! "am" = Some c_am
    /\ Electrode.mass_ratio a !! "am" = Some a_am
    /\ Cell.capacity cell
       <= Qmin (Cell.cathode_mass c 5 * c_am * Electrode.capacity c / 1000)
               (Cell.anode_mass a 5 * a_am * Electrode.capacity a / 1000).
Proof.
  destruct scenario_constructed as (cell & h' & _ & _ & _ & E & _).
  destruct (capacity_is_limiting_electrode_times_ice _ _ _ _ _ _ _ _ _ _ _ _ E)
    as (c & a & c_am & a_am & Hc & Ha & Hcm & Ham & _ & Hle & _).
  exists cell, h', c, a, c_am, a_am.
  split; [exact E|]. repeat (split; [assumption|]).
  apply Hle.
  - vm_compute. discriminate.
  - apply scenario_heap0_nonneg.
  - lia.
  - vm_compute. discriminate.
Defined.

(** ** Energy *)

(** C3.  The energy of a constructed Cell is its capacity times the cell
    voltage [cathode.voltage - anode.voltage]; with the voltages 3.2 V and
    0.1 V of the concrete scenario it is [capacity * (3.2 - 0.1)].  The two
    energy densities are [energy / total_volume * 1000] and [energy /
    total_mass * 1000]; when the numeric inputs are non-negative and the
    cathode voltage exceeds the anode voltage, both are strictly positive.
    (Rationals have no infinities or NaN: a computed number is finite.) *)
Theorem energy_is_capacity_times_cell_voltage
    (cathode anode separator electrolyte format tabs : loc)
    (layers_number : Z) (n_p_ratio ice : Q) (h h' : heap) (cell : Cell.t) :
  Cell.new cathode anode separator electrolyte format tabs layers_number
    n_p_ratio ice h = (Ok cell, h') ->
  exists c a,
    h' !! cathode = Some (OElectrode c)
    /\ h' !! anode = Some (OElectrode a)
    /\ Cell.energy cell
       == Cell.capacity cell * (Electrode.voltage c - Electrode.voltage a)
    /\ (Electrode.voltage c == 3.2 -> Electrode.voltage a == 0.1 ->
        Cell.energy cell == Cell.capacity cell * (3.2 - 0.1))
    /\ Cell.volumetric_energy_density cell
       == Cell.energy cell / Cell.total_volume cell * 1000
    /\ Cell.gravimetric_energy_density cell
       == Cell.energy cell / Cell.total_mass cell * 1000
    /\ (Forall Nonneg.object h -> (0 <= layers_number)%Z ->
        0 <= n_p_ratio -> 0 <= ice ->
        Electrode.voltage a < Electrode.voltage c ->
        0 < Cell.volumetric_energy_density cell
        /\ 0 < Cell.gravimetric_energy_density cell).
Proof.
  intros H. apply new_Ok_stages in H as (h1 & Hsize & Hagg).
  destruct Hagg as [c a s p b l d_ccc d_acc c_am a_am Hc Ha Hs Hp Hb Hl Hdc
                      Hda Hcm Ham volume capacity energy total_mass
                      total_volume Hcap Htv Htm].
  exists c, a.
  split; [final_lookup|]. split; [final_lookup|].
  simpl. split; [reflexivity|]. split.
  { intros Ec Ea. subst energy. unfold Cell.energy_of, Cell.cell_voltage.
    now rewrite Ec, Ea. }
  split; [reflexivity|]. split; [reflexivity|].
  intros Hh Hn Hnp Hice Hv.
  pose proof (heap_nonneg_after_sizing _ _ _ _ _ _ Hh Hnp Hsize) as Hh1.
  pose proof (Forall_lookup_1 _ _ _ _ Hh1 Hc) as Nc.
  pose proof (Forall_lookup_1 _ _ _ _ Hh1 Ha) as Na.
  pose proof (Forall_lookup_1 _ _ _ _ Hh1 Hs) as Ns.
  pose proof (Forall_lookup_1 _ _ _ _ Hh1 Hp) as Np.
  pose proof (Forall_lookup_1 _ _ _ _ Hh1 Hb) as Nb.
  pose proof (Forall_lookup_1 _ _ _ _ Hh1 Hl) as Nl.
  simpl in Nc, Na, Ns, Np, Nb, Nl.
  assert (0 < capacity) as Pcap.
  { apply Qnonneg_nonzero_pos; [|assumption].
    subst capacity. unfold Cell.capacity_of.
    apply Qmult_le_0_compat; [|assumption]. apply Q.min_glb.
    - now apply cathode_capacity_nonneg.
    - now apply anode_capacity_nonneg. }
  assert (0 < energy) as Pen.
  { subst energy. fold capacity. unfold Cell.energy_of, Cell.cell_voltage.
    fold capacity. apply Qmult_lt_0_compat; [assumption|lra]. }
  assert (0 < total_volume) as Ptv.
  { apply Qnonneg_nonzero_pos; [|assumption].
    now apply total_volume_of_nonneg. }
  assert (0 < total_mass) as Ptm.
  { apply Qnonneg_nonzero_pos; [|assumption].
    apply total_mass_of_nonneg; try assumption.
    - apply Qlt_le_weak, (materials_density_pos _ _ Hdc).
    - apply Qlt_le_weak, (materials_density_pos _ _ Hda). }
  split; positive.
Qed.

Lemma energy_is_capacity_times_cell_voltage_witness :
  exists cell h',
    Scenario.cell 5 Scenario.heap0 = (Ok cell, h')
    /\ Cell.energy cell == Cell.capacity cell * (3.2 - 0.1)
    /\ 0 < Cell.volumetric_energy_density cell
    /\ 0 < Cell.gravimetric_energy_density cell.
Proof.
  destruct scenario_constructed
    as (cell & h' & c0 & a0 & _ & E & Hc0 & Ha0 & _ & Vc & Va & _).
  destruct (energy_is_capacity_times_cell_voltage _ _ _ _ _ _ _ _ _ _ _ _ E)
    as (c & a & Hc & Ha & _ & Hen & _ & _ & Hpos).
  same_object Hc Hc0. same_object Ha Ha0.
  exists cell, h'. split; [exact E|].
  split; [exact (Hen Vc Va)|].
  apply Hpos.
  - apply scenario_heap0_nonneg.
  - lia.
  - vm_compute. discriminate.
  - vm_compute. discriminate.
  - rewrite Vc, Va. reflexivity.
Defined.

(** ** Volume *)

(** C4.  The total volume of a constructed Cell is the sum of the volumes of
    the cathode, anode, separator and pouch and of the two current
    collectors, plus the electrolyte volume less the total void volume,
    where the total void volume is the porosity-weighted sum of the cathode,
    anode and separator volumes: the pores, already inside the volumes of
    the porous components, are counted once. *)
Theorem total_volume_counts_void_once
    (cathode anode separator electrolyte format tabs : loc)
    (layers_number : Z) (n_p_ratio ice : Q) (h h' : heap) (cell : Cell.t) :
  Cell.new cathode anode separator electrolyte format tabs layers_number
    n_p_ratio ice h = (Ok cell, h') ->
  exists c a s p l volume,
    h' !! cathode = Some (OElectrode c)
    /\ h' !! anode = Some (OElectrode a)
    /\ h' !! separator = Some (OSeparator s)
    /\ h' !! format = Some (OPouch p)
    /\ h' !! electrolyte = Some (OElectrolyte l)
    /\ Electrolyte.volume l = Some volume
    /\ let total_void_volume :=
         Cell.cathode_volume c layers_number * Electrode.porosity c
         + Cell.anode_volume a layers_number * Electrode.porosity a
         + Cell.separator_volume s layers_number * Separator.porosity s
       in
       Cell.total_volume cell
       == Cell.cathode_volume c layers_number
          + Cell.anode_volume a layers_number
          + Cell.separator_volume s layers_number
          + Cell.pouch_volume p
          + Cell.anode_cc_volume a layers_number
          + Cell.cathode_cc_volume c layers_number
          + (volume - total_void_volume).
Proof.
  intros H. apply new_Ok_stages in H as (h1 & Hsize & Hagg).
  destruct Hagg as [c a s p b l d_ccc d_acc c_am a_am Hc Ha Hs Hp Hb Hl Hdc
                      Hda Hcm Ham volume capacity energy total_mass
                      total_volume Hcap Htv Htm].
  exists c, a, s, p. eexists. exists volume.
  repeat (split; [final_lookup|]).
  split; [reflexivity|].
  cbv zeta. simpl Cell.total_volume. subst total_volume volume.
  unfold Cell.total_volume_of, Cell.total_void_volume,
    Cell.cathode_void_volume, Cell.anode_void_volume,
    Cell.separator_void_volume.
  ring.
Qed.

Lemma total_volume_counts_void_once_witness :
  exists cell h' c a s p l volume,
    Scenario.cell 5 Scenario.heap0 = (Ok cell, h')
    /\ h' !! 0%nat = Some (OElectrode c)
    /\ h' !! 1%nat = Some (OElectrode a)
    /\ h' !! 2%nat = Some (OSeparator s)
    /\ h' !! 4%nat = Some (OPouch p)
    /\ h' !! 3%nat = Some (OElectrolyte l)
    /\ Electrolyte.volume l = Some volume
    /\ Cell.total_volume cell
       == Cell.cathode_volume c 5 + Cell.anode_volume a 5
          + Cell.separator_volume s 5 + Cell.pouch_volume p
          + Cell.anode_cc_volume a 5 + Cell.cathode_cc_volume c 5
          + (volume
             - (Cell.cathode_volume c 5 * Electrode.porosity c
                + Cell.anode_volume a 5 * Electrode.porosity a
                + Cell.separator_volume s 5 * Separator.porosity s)).
Proof.
  destruct scenario_constructed as (cell & h' & _ & _ & _ & E & _).
  destruct (total_volume_counts_void_once _ _ _ _ _ _ _ _ _ _ _ _ E)
    as (c & a & s & p & l & v & Hc & Ha & Hs & Hp & Hl & Hv & Htv).
  exists cell, h', c, a, s, p, l, v.
  split; [exact E|]. repeat (split; [assumption|]). exact Htv.
Defined.

(** C10.  With [volume_excess = 0] the electrolyte volume assigned during
    the construction is the total void volume, so the electrolyte adds
    nothing to the total volume, which is then the sum of the volumes of
    the cathode, anode, separator and pouch and of the two current
    collectors. *)
Theorem no_excess_electrolyte_adds_no_volume
    (cathode anode separator electrolyte format tabs : loc)
    (layers_number : Z) (n_p_ratio ice : Q) (h h' : heap) (cell : Cell.t) :
  Cell.new cathode anode separator electrolyte format tabs layers_number
    n_p_ratio ice h = (Ok cell, h') ->
  exists c a s p l volume,
    h' !! cathode = Some (OElectrode c)
    /\ h' !! anode = Some (OElectrode a)
    /\ h' !! separator = Some (OSeparator s)
    /\ h' !! format = Some (OPouch p)
    /\ h' !! electrolyte = Some (OElectrolyte l)
    /\ Electrolyte.volume l = Some volume
    /\ (Electrolyte.volume_excess l == 0 ->
        volume == Cell.total_void_volume c a s layers_number
        /\ volume - Cell.total_void_volume c a s layers_number == 0
        /\ Cell.total_volume cell
           == Cell.cathode_volume c layers_number
              + Cell.anode_volume a layers_number
              + Cell.separator_volume s layers_number
              + Cell.pouch_volume p
              + Cell.anode_cc_volume a layers_number
              + Cell.cathode_cc_volume c layers_number).
Proof.
  intros H. apply new_Ok_stages in H as (h1 & Hsize & Hagg).
  destruct Hagg as [c a s p b l d_ccc d_acc c_am a_am Hc Ha Hs Hp Hb Hl Hdc
                      Hda Hcm Ham volume capacity energy total_mass
                      total_volume Hcap Htv Htm].
  exists c, a, s, p. eexists. exists volume.
  repeat (split; [final_lookup|]).
  split; [reflexivity|].
  simpl. intros Hx. subst total_volume volume.
  unfold Cell.total_volume_of, Cell.electrolyte_volume.
  set (v := Cell.total_void_volume c a s layers_number).
  repeat split; rewrite Hx; ring.
Qed.

Lemma no_excess_electrolyte_adds_no_volume_witness :
  exists cell h' c a s p,
    Scenario.cell 5 Scenario.heap0 = (Ok cell, h')
    /\ h' !! 0%nat = Some (OElectrode c)
    /\ h' !! 1%nat = Some (OElectrode a)
    /\ h' !! 2%nat = Some (OSeparator s)
    /\ h' !! 4%nat = Some (OPouch p)
    /\ Cell.total_volume cell
       == Cell.cathode_volume c 5 + Cell.anode_volume a 5
          + Cell.separator_volume s 5 + Cell.pouch_volume p
          + Cell.anode_cc_volume a 5 + Cell.cathode_cc_volume c 5.
Proof.
  destruct scenario_constructed
    as (cell & h' & _ & _ & l0 & E & _ & _ & Hl0 & _ & _ & Hx).
  destruct (no_excess_electrolyte_adds_no_volume _ _ _ _ _ _ _ _ _ _ _ _ E)
    as (c & a & s & p & l & v & Hc & Ha & Hs & Hp & Hl & Hv & Hzero).
  same_object Hl Hl0.
  exists cell, h', c, a, s, p.
  split; [exact E|]. repeat (split; [assumption|]).
  now apply Hzero.
Defined.

(** ** Composite density *)

(** A convex combination lies between the smallest and the largest of the
    combined values. *)
Lemma convex_combination_bounds (w1 w2 w3 d1 d2 d3 lo hi : Q) :
  0 <= w1 -> 0 <= w2 -> 0 <= w3 -> w1 + w2 + w3 == 1 ->
  lo <= d1 -> lo <= d2 -> lo <= d3 ->
  d1 <= hi -> d2 <= hi -> d3 <= hi ->
  lo <= w1 * d1 + w2 * d2 + w3 * d3 <= hi.
Proof.
  intros H1 H2 H3 Hs L1 L2 L3 U1 U2 U3.
  assert (0 <= w1 * (d1 - lo)) by (apply Qmult_le_0_compat; lra).
  assert (0 <= w2 * (d2 - lo)) by (apply Qmult_le_0_compat; lra).
  assert (0 <= w3 * (d3 - lo)) by (apply Qmult_le_0_compat; lra).
  assert (0 <= w1 * (hi - d1)) by (apply Qmult_le_0_compat; lra).
  assert (0 <= w2 * (hi - d2)) by (apply Qmult_le_0_compat; lra).
  assert (0 <= w3 * (hi - d3)) by (apply Qmult_le_0_compat; lra).
  assert (E : (w1 + w2 + w3) * lo == lo) by (rewrite Hs; ring).
  assert (E' : (w1 + w2 + w3) * hi == hi) by (rewrite Hs; ring).
  split; lra.
Qed.

(** The volumes of the three constituents add up to a positive number when
    the mass fractions are non-negative and sum to 1. *)
Lemma sum_volumes_pos (m1 m2 m3 d1 d2 d3 : Q) :
  0 <= m1 -> 0 <= m2 -> 0 <= m3 -> m1 + m2 + m3 == 1 ->
  0 < d1 -> 0 < d2 -> 0 < d3 ->
  0 < Electrode.sum_volumes (m1 / d1, m2 / d2, m3 / d3).
Proof.
  intros H1 H2 H3 Hs P1 P2 P3. unfold Electrode.sum_volumes.
  assert (0 <= m1 / d1) by (apply Qdiv_nonneg; lra).
  assert (0 <= m2 / d2) by (apply Qdiv_nonneg; lra).
  assert (0 <= m3 / d3) by (apply Qdiv_nonneg; lra).
  destruct (Qlt_le_dec 0 m1) as [G1|G1];
    [assert (0 < m1 / d1) by now apply Qdiv_pos|].
  { lra. }
  destruct (Qlt_le_dec 0 m2) as [G2|G2];
    [assert (0 < m2 / d2) by now apply Qdiv_pos|].
  { lra. }
  assert (0 < m3) by lra.
  assert (0 < m3 / d3) by now apply Qdiv_pos.
  lra.
Qed.

Lemma scale_bounds_nonneg (k lo x hi : Q) :
  0 <= k -> lo <= x <= hi -> k * lo <= k * x <= k * hi.
Proof.
  intros Hk [H1 H2].
  assert (0 <= k * (x - lo)) by (apply Qmult_le_0_compat; lra).
  assert (0 <= k * (hi - x)) by (apply Qmult_le_0_compat; lra).
  split; lra.
Qed.

Lemma scale_bounds_nonpos (k lo x hi : Q) :
  k <= 0 -> lo <= x <= hi -> k * hi <= k * x <= k * lo.
Proof.
  intros Hk [H1 H2].
  assert (0 <= - k * (x - lo)) by (apply Qmult_le_0_compat; lra).
  assert (0 <= - k * (hi - x)) by (apply Qmult_le_0_compat; lra).
  split; lra.
Qed.

(** C6.  For an Electrode whose mass ratios [am], [carbon], [binder] are
    non-negative and sum to 1, whose active-material density is positive
    and whose binder is in the table (the table's densities, that of the
    conductive carbon SuperP, 1.9, included, are positive), the constructor
    returns and the composite density lies between [(1 - porosity)] times
    the smallest and [(1 - porosity)] times the largest of the three
    constituent densities; for a porosity of at most 1 the first is the
    lower bound and the second the upper bound. *)
Theorem composite_density_bounds
    (active_material : string) (mass_ratio : gmap string Q) (binder : string)
    (porosity voltage capacity density_am width height cc_thickness : Q)
    (current_collector : string) (thickness tab_height tab_width : Q)
    (m_am m_carbon m_binder density_binder : Q) :
  mass_ratio !! "am" = Some m_am ->
  mass_ratio !! "carbon" = Some m_carbon ->
  mass_ratio !! "binder" = Some m_binder ->
  0 <= m_am -> 0 <= m_carbon -> 0 <= m_binder ->
  m_am + m_carbon + m_binder == 1 ->
  0 < density_am ->
  materials_density binder = Ok density_binder ->
  exists e,
    Electrode.new active_material mass_ratio binder porosity voltage capacity
      density_am width height cc_thickness current_collector thickness
      tab_height tab_width = Ok e
    /\ let lo :=
         (1 - porosity) * Qmin density_am (Qmin 1.9 density_binder) in
       let hi :=
         (1 - porosity) * Qmax density_am (Qmax 1.9 density_binder) in
       Qmin lo hi <= Electrode.density e <= Qmax lo hi
       /\ (porosity <= 1 -> lo <= Electrode.density e <= hi).
Proof.
  intros Ham Hc Hb Nam Nc Nb Hsum Pam Hdb.
  pose proof (materials_density_pos _ _ Hdb) as Pb.
  assert (Pc : 0 < 1.9) by reflexivity.
  pose proof (sum_volumes_pos _ _ _ _ _ _ Nam Nc Nb Hsum Pam Pc Pb) as Ps.
  pose proof (Qpos_nonzero _ Ps) as Zs.
  apply getitem_Ok_inv in Ham, Hc, Hb.
  eexists. split.
  { unfold Electrode.new, Electrode.calculate_composite_density,
      Electrode.volumes.
    cbn [rbind Electrode.mass_ratio Electrode.density_am Electrode.binder
           Electrode.porosity].
    rewrite Ham, Hc, Hb, Hdb, materials_density_SuperP. cbn [rbind].
    rewrite (pydiv_Ok _ _ (Qpos_nonzero _ Pam)). cbn [rbind].
    rewrite (pydiv_Ok _ _ (Qpos_nonzero _ Pc)). cbn [rbind].
    rewrite (pydiv_Ok _ _ (Qpos_nonzero _ Pb)). cbn [rbind].
    rewrite !(pydiv_Ok _ _ Zs). cbn [rbind].
    unfold Electrode.calculate_areal_capacity.
    cbn [rbind Electrode.mass_ratio Electrode.set_density].
    rewrite Ham. cbn [rbind]. reflexivity. }
  cbn [Electrode.density Electrode.set_areal_capacity Electrode.set_density].
  set (s := Electrode.sum_volumes _) in *.
  set (avg := m_am / density_am / s * density_am + m_carbon / 1.9 / s * 1.9
              + m_binder / density_binder / s * density_binder).
  assert (Havg : Qmin density_am (Qmin 1.9 density_binder) <= avg
                 <= Qmax density_am (Qmax 1.9 density_binder)).
  { apply convex_combination_bounds.
    - apply Qdiv_nonneg; [apply Qdiv_nonneg|]; lra.
    - apply Qdiv_nonneg; [apply Qdiv_nonneg|]; lra.
    - apply Qdiv_nonneg; [apply Qdiv_nonneg|]; lra.
    - assert (Es : m_am / density_am + m_carbon / 1.9
                   + m_binder / density_binder == s)
        by (subst s; cbv [Electrode.sum_volumes]; ring).
      clearbody s.
      transitivity
        ((m_am / density_am + m_carbon / 1.9 + m_binder / density_binder) / s).
      + field. repeat split; try assumption; apply Qpos_nonzero; assumption.
      + rewrite Es. now field.
    - apply Q.le_min_l.
    - eapply Qle_trans; [apply Q.le_min_r | apply Q.le_min_l].
    - eapply Qle_trans; [apply Q.le_min_r | apply Q.le_min_r].
    - apply Q.le_max_l.
    - eapply Qle_trans; [apply Q.le_max_l | apply Q.le_max_r].
    - eapply Qle_trans; [apply Q.le_max_r | apply Q.le_max_r]. }
  set (d_min := Qmin density_am _) in *.
  set (d_max := Qmax density_am _) in *.
  clearbody avg d_min d_max. cbv zeta.
  destruct Havg as [Hlo Hhi]. split.
  - destruct (Qlt_le_dec 1 porosity) as [G|G].
    + destruct (scale_bounds_nonpos (1 - porosity) d_min avg d_max)
        as [B1 B2]; [lra | split; assumption |].
      rewrite Q.min_r, Q.max_l by lra. split; assumption.
    + destruct (scale_bounds_nonneg (1 - porosity) d_min avg d_max)
        as [B1 B2]; [lra | split; assumption |].
      rewrite Q.min_l, Q.max_r by lra. split; assumption.
  - intros G. apply scale_bounds_nonneg; [lra | split; assumption].
Qed.

Lemma composite_density_bounds_witness :
  exists e,
    Scenario.cathode "Al" = Ok e
    /\ (1 - 0.25) * Qmin 1.8 (Qmin 1.9 ((1.6 + 0.96) / 2))
       <= Electrode.density e
       <= (1 - 0.25) * Qmax 1.8 (Qmax 1.9 ((1.6 + 0.96) / 2)).
Proof.
  destruct (composite_density_bounds "Prussian Blue" Scenario.mass_ratio
              "CMC+SBR" 0.25 3.2 150 1.8 5 8 0.0016 "Al" 0.01
              Electrode.default_tab_height Electrode.default_tab_width
              0.9 0.05 0.05 ((1.6 + 0.96) / 2))
    as (e & He & _ & Hb);
    try reflexivity; try (vm_compute; discriminate).
  exists e. split; [exact He|]. apply Hb. vm_compute. discriminate.
Defined.

(** ** What the construction writes *)

Section Outcomes.

Variables (cathode anode separator electrolyte format tabs : loc).
Variable layers_number : Z.
Variables (n_p_ratio ice : Q).

Local Abbreviation construct :=
  (Cell.new cathode anode separator electrolyte format tabs layers_number
     n_p_ratio ice).

Lemma update_electrode_run (l : loc) f (h : heap) (e : Electrode.t) :
  h !! l = Some (OElectrode e) ->
  update_electrode l f h
  = match f e with
    | Ok e' => (Ok tt, <[l := OElectrode e']> h)
    | Raise x => (Raise x, h)
    end.
Proof.
  intros Hl. unfold update_electrode.
  rewrite (bind_Ok _ _ _ _ _ (get_electrode_Ok _ _ _ Hl)).
  unfold bind, lift. now destruct (f e).
Qed.

(** Every outcome of the sizing stage, once the two references are
    followed. *)
Lemma calculate_anode_properties_run (h : heap) (c a : Electrode.t) :
  h !! cathode = Some (OElectrode c) ->
  h !! anode = Some (OElectrode a) ->
  Cell.calculate_anode_properties cathode anode n_p_ratio h
  = match getitem (Electrode.mass_ratio a) "am" with
    | Raise e => (Raise e, h)
    | Ok m_am =>
        match pydiv (Electrode.areal_capacity c * n_p_ratio)
                    (sizing_divisor a m_am) with
        | Raise e => (Raise e, h)
        | Ok x => (Ok tt, <[anode := OElectrode (sized_anode a x m_am)]> h)
        end
    end.
Proof.
  intros Hc Ha. unfold Cell.calculate_anode_properties.
  rewrite (bind_Ok _ _ _ _ _ (get_electrode_Ok _ _ _ Hc)).
  unfold bind at 1. rewrite (update_electrode_run _ _ _ _ Ha).
  unfold Cell.required_anode_thickness.
  destruct (getitem (Electrode.mass_ratio a) "am") as [m|e] eqn:Hm;
    [|reflexivity].
  cbn [rbind]. fold (sizing_divisor a m).
  destruct (pydiv _ (sizing_divisor a m)) as [x|e] eqn:Hx; [|reflexivity].
  cbn [rbind].
  rewrite (update_electrode_run _ _ _ _ (lookup_insert_same _ _ _ _ Ha)).
  unfold Electrode.calculate_areal_capacity.
  cbn [Electrode.mass_ratio Electrode.set_thickness]. rewrite Hm.
  cbn [rbind]. now rewrite list_insert_insert_eq.
Qed.

Lemma calculate_anode_properties_no_cathode (h : heap) :
  (forall c, h !! cathode <> Some (OElectrode c)) ->
  Cell.calculate_anode_properties cathode anode n_p_ratio h
  = (Raise AttributeError, h).
Proof.
  intros Hc. unfold Cell.calculate_anode_properties, bind, get_electrode.
  destruct (h !! cathode) as [[c| | | |]|]; try reflexivity.
  now destruct (Hc c).
Qed.

End Outcomes.

(** C8.  Cell construction writes the anode's [thickness] and
    [areal_capacity], the electrolyte's [volume] and [volume_per_ah], and
    the computed attributes of the new Cell, and nothing else.  Whether the
    construction returns or raises: every object other than the anode and
    the electrolyte is left as it was, in particular the cathode (an object
    distinct from the anode), the separator, the pouch and the tabs; the
    anode keeps all its other attributes and so does the electrolyte; and
    the Cell that is returned carries the nine constructor arguments
    unchanged. *)
Theorem construction_frame
    (cathode anode separator electrolyte format tabs : loc)
    (layers_number : Z) (n_p_ratio ice : Q) (h : heap) :
  let outcome :=
    Cell.new cathode anode separator electrolyte format tabs layers_number
      n_p_ratio ice h in
  let h' := snd outcome in
  (forall l, l <> anode -> l <> electrolyte -> h' !! l = h !! l)
  /\ (forall c, cathode <> anode -> h !! cathode = Some (OElectrode c) ->
      h' !! cathode = Some (OElectrode c))
  /\ (forall s, h !! separator = Some (OSeparator s) ->
      h' !! separator = Some (OSeparator s))
  /\ (forall p, h !! format = Some (OPouch p) ->
      h' !! format = Some (OPouch p))
  /\ (forall b, h !! tabs = Some (OTab b) -> h' !! tabs = Some (OTab b))
  /\ (forall a, h !! anode = Some (OElectrode a) ->
      exists a', h' !! anode = Some (OElectrode a') /\ Frame.electrode a a')
  /\ (forall l, h !! electrolyte = Some (OElectrolyte l) ->
      exists l', h' !! electrolyte = Some (OElectrolyte l')
                 /\ Frame.electrolyte l l')
  /\ (forall cell, fst outcome = Ok cell ->
      Cell.cathode cell = cathode /\ Cell.anode cell = anode
      /\ Cell.separator cell = separator
      /\ Cell.electrolyte cell = electrolyte
      /\ Cell.format cell = format /\ Cell.tabs cell = tabs
      /\ Cell.layers_number cell = layers_number
      /\ Cell.n_p_ratio cell = n_p_ratio /\ Cell.ice cell = ice).
Proof.
  intros outcome h'.
  pose proof (keeps_new cathode anode separator electrolyte format tabs
                layers_number n_p_ratio ice h) as F.
  fold outcome in F. fold h' in F.
  repeat apply conj.
  - intros l Ha Hl.
    destruct (F l) as [E|[(E & _)|(E & _)]]; congruence.
  - intros c Hne Hc.
    destruct (F cathode) as [E|[(E & _)|(_ & e & e' & E & _)]]; congruence.
  - intros s Hs.
    destruct (F separator)
      as [E|[(_ & e & e' & E & _)|(_ & e & e' & E & _)]]; congruence.
  - intros p Hp.
    destruct (F format)
      as [E|[(_ & e & e' & E & _)|(_ & e & e' & E & _)]]; congruence.
  - intros b Hb.
    destruct (F tabs)
      as [E|[(_ & e & e' & E & _)|(_ & e & e' & E & _)]]; congruence.
  - intros a Ha.
    destruct (F anode)
      as [E|[(_ & e & e' & E & E' & Fe)|(_ & e & e' & E & _)]];
      [|rewrite Ha in E; injection E as <-|congruence].
    + exists a. split; [congruence | apply frame_electrode_refl].
    + exists e'. auto.
  - intros l Hl.
    destruct (F electrolyte)
      as [E|[(_ & e & e' & E & _)|(_ & e & e' & E & E' & Fe)]];
      [|congruence|rewrite Hl in E; injection E as <-].
    + exists l. split; [congruence | apply frame_electrolyte_refl].
    + exists e'. auto.
  - intros cell Hcell. subst h'.
    destruct outcome as [r h1] eqn:E. simpl in Hcell. subst r.
    apply new_Ok_stages in E as (h2 & _ & []). simpl. auto 10.
Qed.

Lemma construction_frame_witness :
  snd (Scenario.cell 5 Scenario.heap0) !! 0%nat = Scenario.heap0 !! 0%nat
  /\ snd (Scenario.cell 5 Scenario.heap0) !! 2%nat = Scenario.heap0 !! 2%nat
  /\ snd (Scenario.cell 5 Scenario.heap0) !! 4%nat = Scenario.heap0 !! 4%nat
  /\ snd (Scenario.cell 5 Scenario.heap0) !! 5%nat = Scenario.heap0 !! 5%nat.
Proof.
  destruct (construction_frame 0%nat 1%nat 2%nat 3%nat 4%nat 5%nat 5 1.1
              Cell.default_ice Scenario.heap0) as (Hother & _).
  repeat split; apply Hother; discriminate.
Defined.

(** Sharing.  The frame above is about objects, not about roles: when one
    Electrode object is passed as cathode and as anode, it is the anode, and
    the sizing overwrites its thickness.  On the concrete components, the
    electrode at location 0 goes from 0.01 to 0.011. *)
Lemma aliased_cathode_is_resized :
  exists c c',
    Scenario.heap0 !! 0%nat = Some (OElectrode c)
    /\ snd (Scenario.aliased_cell Scenario.heap0) !! 0%nat
       = Some (OElectrode c')
    /\ Electrode.thickness c == 0.01
    /\ Electrode.thickness c' == 0.011.
Proof.
  vm_compute. do 2 eexists.
  split; [reflexivity|]. split; [reflexivity|]. split; reflexivity.
Qed.

(** C9.  The outcome of a construction does not depend on the thickness the
    anode had before it, nor on the areal capacity derived from that
    thickness.  Take two heaps that differ only in the anode, and two
    anodes that differ only in [thickness] and [areal_capacity], the
    cathode being another object than the anode.  Then the two
    constructions raise the same exception or return the same Cell; and
    whenever the sizing stage returns, in particular whenever a Cell is
    returned, they leave the same heap, so the anode ends with the same
    thickness and areal capacity. *)
Theorem construction_ignores_initial_anode_thickness
    (cathode anode separator electrolyte format tabs : loc)
    (layers_number : Z) (n_p_ratio ice : Q) (h1 h2 : heap)
    (a1 a2 : Electrode.t) :
  cathode <> anode ->
  h1 !! anode = Some (OElectrode a1) ->
  h2 = <[anode := OElectrode a2]> h1 ->
  Frame.electrode a1 a2 ->
  let construct :=
    Cell.new cathode anode separator electrolyte format tabs layers_number
      n_p_ratio ice in
  fst (construct h1) = fst (construct h2)
  /\ (forall hs,
        Cell.calculate_anode_properties cathode anode n_p_ratio h1
        = (Ok tt, hs) ->
        construct h1 = construct h2)
  /\ (forall cell h', construct h1 = (Ok cell, h') ->
        construct h2 = (Ok cell, h')).
Proof.
  intros Hne Ha1 -> Fa construct.
  pose proof (lookup_insert_same _ _ _ (OElectrode a2) Ha1) as Ha2.
  assert (Hstage :
    match Cell.calculate_anode_properties cathode anode n_p_ratio h1 with
    | (Ok u, hs) =>
        Cell.calculate_anode_properties cathode anode n_p_ratio
          (<[anode := OElectrode a2]> h1) = (Ok u, hs)
    | (Raise e, _) =>
        Cell.calculate_anode_properties cathode anode n_p_ratio
          (<[anode := OElectrode a2]> h1)
        = (Raise e, <[anode := OElectrode a2]> h1)
        /\ Cell.calculate_anode_properties cathode anode n_p_ratio h1
           = (Raise e, h1)
    end).
  { assert (Hno : (forall c, h1 !! cathode <> Some (OElectrode c)) ->
      match Cell.calculate_anode_properties cathode anode n_p_ratio h1 with
      | (Ok u, hs) =>
          Cell.calculate_anode_properties cathode anode n_p_ratio
            (<[anode := OElectrode a2]> h1) = (Ok u, hs)
      | (Raise e, _) =>
          Cell.calculate_anode_properties cathode anode n_p_ratio
            (<[anode := OElectrode a2]> h1)
          = (Raise e, <[anode := OElectrode a2]> h1)
          /\ Cell.calculate_anode_properties cathode anode n_p_ratio h1
             = (Raise e, h1)
      end).
    { intros Hc.
      rewrite (calculate_anode_properties_no_cathode _ _ _ h1 Hc).
      split; [|reflexivity].
      apply calculate_anode_properties_no_cathode.
      intros c. rewrite list_lookup_insert_ne by auto. apply Hc. }
    destruct (h1 !! cathode) as [[c| | | |]|] eqn:Hc;
      try (apply Hno; intros c'; discriminate).
    assert (Hc2 : <[anode := OElectrode a2]> h1 !! cathode
                  = Some (OElectrode c))
      by now rewrite list_lookup_insert_ne by auto.
    rewrite (calculate_anode_properties_run _ _ _ _ _ _ Hc Ha1).
    rewrite (calculate_anode_properties_run _ _ _ _ _ _ Hc2 Ha2).
    pose proof Fa as [_ Em _ _ _ Ecap _ _ _ _ _ _ _ Ed].
    rewrite Em. unfold sizing_divisor. rewrite Ed, Ecap.
    destruct (getitem (Electrode.mass_ratio a1) "am") as [m|e]; [|auto].
    destruct (pydiv _ _) as [x|e]; [|auto].
    rewrite list_insert_insert_eq. do 3 f_equal.
    unfold sized_anode. rewrite Ed, Ecap.
    now apply frame_electrode_overwrite. }
  subst construct. unfold Cell.new. cbv zeta.
  destruct (Cell.calculate_anode_properties cathode anode n_p_ratio h1)
    as [[[]|e] hs] eqn:E1.
  - rewrite (bind_Ok _ _ _ _ _ E1), (bind_Ok _ _ _ _ _ Hstage).
    repeat split; auto.
  - destruct Hstage as [E2 E1']. injection E1' as ->.
    rewrite (bind_Raise _ _ _ _ _ E1), (bind_Raise _ _ _ _ _ E2).
    repeat split; [discriminate | discriminate].
Qed.

Lemma construction_ignores_initial_anode_thickness_witness :
  exists c a s l p b,
    Scenario.heap0
    = [OElectrode c; OElectrode a; OSeparator s; OElectrolyte l; OPouch p;
       OTab b]
    /\ Scenario.cell 5 Scenario.heap0
       = Scenario.cell 5
           [OElectrode c; OElectrode (Electrode.set_thickness 0.02 a);
            OSeparator s; OElectrolyte l; OPouch p; OTab b].
Proof.
  destruct scenario_components as (c & a & s & l & p & b & Hh & Hm & Hd & Hc & _).
  exists c, a, s, l, p, b. split; [exact Hh|].
  destruct (construction_ignores_initial_anode_thickness 0%nat 1%nat 2%nat
              3%nat 4%nat 5%nat 5 1.1 Cell.default_ice Scenario.heap0
              (<[1%nat := OElectrode (Electrode.set_thickness 0.02 a)]>
                 Scenario.heap0)
              a (Electrode.set_thickness 0.02 a))
    as (_ & Hsame & _).
  - discriminate.
  - now rewrite Hh.
  - reflexivity.
  - apply frame_set_thickness.
  - rewrite Hh in Hsame |- *. cbn [insert list_insert] in Hsame.
    eapply Hsame.
    erewrite calculate_anode_properties_Ok;
      [reflexivity | reflexivity | reflexivity | exact Hm |].
    apply sizing_divisor_nonzero.
    + now apply Qpos_nonzero.
    + now apply Qpos_nonzero.
    + discriminate.
Defined.

(** ** Failures of the aggregation *)

Section Failures.

Variables (cathode anode separator electrolyte format tabs : loc).
Variable layers_number : Z.
Variables (n_p_ratio ice : Q).

Local Abbreviation aggregate :=
  (Cell.calculate_energy_density cathode anode separator electrolyte format
     tabs layers_number n_p_ratio ice).

(** The first table look-up fails: nothing has been written yet. *)
Lemma aggregate_unknown_cathode_collector (h : heap) (c a : Electrode.t)
    (s : Separator.t) (p : Pouch.t) (e : exn) :
  h !! cathode = Some (OElectrode c) ->
  h !! anode = Some (OElectrode a) ->
  h !! separator = Some (OSeparator s) ->
  h !! format = Some (OPouch p) ->
  materials_density (Electrode.current_collector c) = Raise e ->
  aggregate h = (Raise e, h).
Proof.
  intros Hc Ha Hs Hp Hd. unfold Cell.calculate_energy_density.
  rewrite (bind_Ok _ _ _ _ _ (get_electrode_Ok _ _ _ Hc)).
  rewrite (bind_Ok _ _ _ _ _ (get_electrode_Ok _ _ _ Ha)).
  rewrite (bind_Ok _ _ _ _ _ (get_separator_Ok _ _ _ Hs)).
  rewrite (bind_Ok _ _ _ _ _ (get_pouch_Ok _ _ _ Hp)).
  now rewrite (bind_Raise _ _ _ _ _ (lift_Raise _ h _ Hd)).
Qed.

Lemma aggregate_unknown_anode_collector (h : heap) (c a : Electrode.t)
    (s : Separator.t) (p : Pouch.t) (d : Q) (e : exn) :
  h !! cathode = Some (OElectrode c) ->
  h !! anode = Some (OElectrode a) ->
  h !! separator = Some (OSeparator s) ->
  h !! format = Some (OPouch p) ->
  materials_density (Electrode.current_collector c) = Ok d ->
  materials_density (Electrode.current_collector a) = Raise e ->
  aggregate h = (Raise e, h).
Proof.
  intros Hc Ha Hs Hp Hd He. unfold Cell.calculate_energy_density.
  rewrite (bind_Ok _ _ _ _ _ (get_electrode_Ok _ _ _ Hc)).
  rewrite (bind_Ok _ _ _ _ _ (get_electrode_Ok _ _ _ Ha)).
  rewrite (bind_Ok _ _ _ _ _ (get_separator_Ok _ _ _ Hs)).
  rewrite (bind_Ok _ _ _ _ _ (get_pouch_Ok _ _ _ Hp)).
  rewrite (bind_Ok _ _ _ _ _ (lift_Ok _ h _ Hd)).
  now rewrite (bind_Raise _ _ _ _ _ (lift_Raise _ h _ He)).
Qed.

(** The capacity is zero: the electrolyte volume has been assigned, the
    volume per Ah cannot be computed. *)
Lemma aggregate_zero_capacity (h : heap) (c a : Electrode.t) (s : Separator.t)
    (p : Pouch.t) (b : Tab.t) (l : Electrolyte.t) (d_ccc d_acc c_am a_am : Q) :
  h !! cathode = Some (OElectrode c) ->
  h !! anode = Some (OElectrode a) ->
  h !! separator = Some (OSeparator s) ->
  h !! format = Some (OPouch p) ->
  h !! tabs = Some (OTab b) ->
  h !! electrolyte = Some (OElectrolyte l) ->
  materials_density (Electrode.current_collector c) = Ok d_ccc ->
  materials_density (Electrode.current_collector a) = Ok d_acc ->
  Electrode.mass_ratio c !! "am" = Some c_am ->
  Electrode.mass_ratio a !! "am" = Some a_am ->
  Cell.capacity_of c a c_am a_am layers_number ice == 0 ->
  aggregate h
  = (Raise ZeroDivisionError,
     <[electrolyte :=
         OElectrolyte
           (Electrolyte.set_volume
              (Cell.electrolyte_volume c a s l layers_number) l)]> h).
Proof.
  intros Hc Ha Hs Hp Hb Hl Hdc Hda Hcm Ham Hz.
  apply getitem_Ok_inv in Hcm, Ham.
  unfold Cell.calculate_energy_density.
  rewrite (bind_Ok _ _ _ _ _ (get_electrode_Ok _ _ _ Hc)).
  rewrite (bind_Ok _ _ _ _ _ (get_electrode_Ok _ _ _ Ha)).
  rewrite (bind_Ok _ _ _ _ _ (get_separator_Ok _ _ _ Hs)).
  rewrite (bind_Ok _ _ _ _ _ (get_pouch_Ok _ _ _ Hp)).
  rewrite (bind_Ok _ _ _ _ _ (lift_Ok _ h _ Hdc)).
  rewrite (bind_Ok _ _ _ _ _ (lift_Ok _ h _ Hda)).
  rewrite (bind_Ok _ _ _ _ _ (get_tab_Ok _ _ _ Hb)).
  rewrite (bind_Ok _ _ _ _ _ (get_electrolyte_Ok _ _ _ Hl)).
  cbv zeta.
  rewrite (bind_Ok _ _ _ _ _ (update_electrolyte_Ok _ _ _ _ Hl)).
  rewrite (bind_Ok _ _ _ _ _ (lift_Ok _ _ _ Hcm)).
  rewrite (bind_Ok _ _ _ _ _ (lift_Ok _ _ _ Ham)).
  now rewrite (bind_Raise _ _ _ _ _ (lift_Raise _ _ _ (pydiv_zero _ _ Hz))).
Qed.

End Failures.

(** An electrode read after the sizing is the electrode read before it, up
    to the sizing attributes (it is the resized anode itself when the two
    references are one). *)
Lemma lookup_sized_heap (h : heap) (anode l : loc) (a e : Electrode.t)
    (x m_am : Q) :
  h !! anode = Some (OElectrode a) ->
  h !! l = Some (OElectrode e) ->
  exists e',
    <[anode := OElectrode (sized_anode a x m_am)]> h !! l
    = Some (OElectrode e')
    /\ Frame.electrode e e'.
Proof.
  intros Ha Hl. destruct (decide (l = anode)) as [->|Hne].
  - rewrite (lookup_insert_same _ _ _ _ Ha).
    rewrite Ha in Hl. injection Hl as ->.
    eexists. split; [reflexivity | apply frame_sized_anode].
  - rewrite list_lookup_insert_ne by auto.
    exists e. split; [assumption | apply frame_electrode_refl].
Qed.

Lemma lookup_sized_heap_other (h : heap) (anode l : loc) (a a' : Electrode.t)
    (o : obj) :
  h !! anode = Some (OElectrode a) ->
  h !! l = Some o ->
  (forall e, o <> OElectrode e) ->
  <[anode := OElectrode a']> h !! l = Some o.
Proof.
  intros Ha Hl Ho. rewrite list_lookup_insert_ne; [assumption|].
  intros ->. rewrite Ha in Hl. injection Hl as <-. now apply (Ho a).
Qed.

(** ** Unknown materials *)

(** C5, as amended.  A name that is not in the table makes the
    construction fail, with Python's own exceptions: a Tab whose cathode
    contact material is unknown, or whose anode contact material is unknown
    while the cathode's has a density, fails with [TypeError] ([get]
    returned [None]); a Cell whose cathode names an unknown current
    collector, or whose anode does while the cathode's is known, fails with
    [KeyError] for that name.  The Cell fails after the sizing stage has
    run: the heap it leaves is the one in which the anode is resized. *)
Theorem unknown_material_failures :
  (forall material_cathode material_anode height width thickness,
      materials !! material_cathode = None ->
      Tab.new material_cathode material_anode height width thickness
      = Raise TypeError)
  /\ (forall material_cathode material_anode height width thickness d,
         materials_get_density material_cathode = Ok d ->
         materials !! material_anode = None ->
         Tab.new material_cathode material_anode height width thickness
         = Raise TypeError)
  /\ (forall cathode anode separator electrolyte format tabs layers_number
             n_p_ratio ice (h : heap) c a s p m_am,
         h !! cathode = Some (OElectrode c) ->
         h !! anode = Some (OElectrode a) ->
         h !! separator = Some (OSeparator s) ->
         h !! format = Some (OPouch p) ->
         Electrode.mass_ratio a !! "am" = Some m_am ->
         ~ sizing_divisor a m_am == 0 ->
         let construct :=
           Cell.new cathode anode separator electrolyte format tabs
             layers_number n_p_ratio ice in
         let resized :=
           <[anode := OElectrode
               (sized_anode a
                  (Electrode.areal_capacity c * n_p_ratio
                   / sizing_divisor a m_am) m_am)]> h in
         (materials !! Electrode.current_collector c = None ->
          construct h
          = (Raise (KeyError (Electrode.current_collector c)), resized))
         /\ (forall d,
                materials_density (Electrode.current_collector c) = Ok d ->
                materials !! Electrode.current_collector a = None ->
                construct h
                = (Raise (KeyError (Electrode.current_collector a)),
                   resized))).
Proof.
  repeat apply conj.
  - intros mc ma hh w t Hmc. unfold Tab.new.
    now rewrite (materials_get_density_unknown _ Hmc).
  - intros mc ma hh w t d Hd Hma. unfold Tab.new.
    rewrite Hd. cbn [rbind].
    now rewrite (materials_get_density_unknown _ Hma).
  - intros cathode anode separator electrolyte format tabs layers_number
      n_p_ratio ice h c a s p m_am Hc Ha Hs Hp Hm Hd construct resized.
    pose proof (calculate_anode_properties_Ok _ _ n_p_ratio _ _ _ _
                  Hc Ha Hm Hd) as Hsize.
    fold resized in Hsize.
    destruct (lookup_sized_heap h anode cathode a c
                (Electrode.areal_capacity c * n_p_ratio
                 / sizing_divisor a m_am) m_am Ha Hc) as (c' & Hc' & Fc).
    destruct (lookup_sized_heap h anode anode a a
                (Electrode.areal_capacity c * n_p_ratio
                 / sizing_divisor a m_am) m_am Ha Ha) as (a' & Ha' & Fa).
    fold resized in Hc', Ha'.
    assert (Hs' : resized !! separator = Some (OSeparator s))
      by (eapply lookup_sized_heap_other; eauto; discriminate).
    assert (Hp' : resized !! format = Some (OPouch p))
      by (eapply lookup_sized_heap_other; eauto; discriminate).
    destruct Fc as [_ _ _ _ _ _ _ _ _ _ Ec _ _ _].
    destruct Fa as [_ _ _ _ _ _ _ _ _ _ Ea _ _ _].
    subst construct.
    rewrite (new_after_sizing _ _ _ _ _ _ _ _ _ _ _ Hsize).
    split.
    + intros Hnone.
      eapply aggregate_unknown_cathode_collector; eauto.
      rewrite Ec. now apply materials_density_unknown.
    + intros d Hdc Hnone.
      eapply aggregate_unknown_anode_collector; eauto.
      * rewrite Ec. exact Hdc.
      * rewrite Ea. now apply materials_density_unknown.
Qed.

(** The claim as it stands fails on the concrete components: a Tab
    naming ["Zn"] fails with [TypeError]; and the Cell whose cathode names
    the collector ["Zn"] raises [KeyError] only after the anode, constructed
    with the thickness 0, has been given its derived thickness. *)
Lemma unknown_material_counterexample :
  Tab.new "Zn" "Cu" 1 1 0.01 = Raise TypeError
  /\ fst (Scenario.cell 5 Scenario.heap_Zn) = Raise (KeyError "Zn")
  /\ exists a a',
       Scenario.heap_Zn !! 1%nat = Some (OElectrode a)
       /\ snd (Scenario.cell 5 Scenario.heap_Zn) !! 1%nat
          = Some (OElectrode a')
       /\ Electrode.thickness a == 0
       /\ 0 < Electrode.thickness a'.
Proof.
  split; [reflexivity|]. split; [vm_compute; reflexivity|].
  vm_compute. do 2 eexists.
  split; [reflexivity|]. split; [reflexivity|]. split; reflexivity.
Qed.

Lemma scenario_Zn_components :
  exists c a s l p b,
    Scenario.heap_Zn
    = [OElectrode c; OElectrode a; OSeparator s; OElectrolyte l; OPouch p;
       OTab b]
    /\ Electrode.current_collector c = "Zn"
    /\ Electrode.mass_ratio a !! "am" = Some 0.9
    /\ 0 < Electrode.density a
    /\ 0 < Electrode.capacity a.
Proof.
  vm_compute Scenario.heap_Zn. do 6 eexists.
  repeat (split; [reflexivity|]). reflexivity.
Qed.

Lemma unknown_material_failures_witness :
  Tab.new "Zn" "Cu" 1 1 0.01 = Raise TypeError
  /\ exists c a,
       Scenario.heap_Zn !! 0%nat = Some (OElectrode c)
       /\ Scenario.heap_Zn !! 1%nat = Some (OElectrode a)
       /\ Scenario.cell 5 Scenario.heap_Zn
          = (Raise (KeyError "Zn"),
             <[1%nat := OElectrode
                 (sized_anode a
                    (Electrode.areal_capacity c * 1.1 / sizing_divisor a 0.9)
                    0.9)]> Scenario.heap_Zn).
Proof.
  destruct unknown_material_failures as (Htab & _ & Hcell).
  split; [apply Htab; reflexivity|].
  destruct scenario_Zn_components
    as (c & a & s & l & p & b & Hh & Hzn & Hm & Hd & Hcap).
  exists c, a.
  assert (Hc : Scenario.heap_Zn !! 0%nat = Some (OElectrode c))
    by now rewrite Hh.
  assert (Ha : Scenario.heap_Zn !! 1%nat = Some (OElectrode a))
    by now rewrite Hh.
  split; [exact Hc|]. split; [exact Ha|].
  destruct (Hcell 0%nat 1%nat 2%nat 3%nat 4%nat 5%nat 5%Z 1.1 Cell.default_ice
              Scenario.heap_Zn c a s p 0.9 Hc Ha) as [Hzinc _].
  - now rewrite Hh.
  - now rewrite Hh.
  - exact Hm.
  - apply sizing_divisor_nonzero.
    + now apply Qpos_nonzero.
    + now apply Qpos_nonzero.
    + discriminate.
  - rewrite Hzn in Hzinc. apply Hzinc. reflexivity.
Defined.

(** ** Zero layers *)

(** C7, as amended.  With [layers_number = 0] and positive inputs, the
    cathode and separator volumes are zero, while the pouch volume, the
    volume of the extra anode layer ([2 * w * h * thickness] with the
    thickness given by the sizing), the volume of the extra anode current
    collector and the electrolyte volume are positive.  The construction
    does not complete: the cathode capacity, hence the cell capacity, is
    zero, and dividing the electrolyte volume by it raises
    [ZeroDivisionError], after the anode has been resized and the
    electrolyte volume assigned. *)
Theorem zero_layers_boundary
    (cathode anode separator electrolyte format tabs : loc)
    (n_p_ratio ice : Q) (h : heap) (c a : Electrode.t) (s : Separator.t)
    (p : Pouch.t) (b : Tab.t) (l : Electrolyte.t) (d_ccc d_acc c_am : Q) :
  h !! cathode = Some (OElectrode c) ->
  h !! anode = Some (OElectrode a) ->
  h !! separator = Some (OSeparator s) ->
  h !! format = Some (OPouch p) ->
  h !! tabs = Some (OTab b) ->
  h !! electrolyte = Some (OElectrolyte l) ->
  materials_density (Electrode.current_collector c) = Ok d_ccc ->
  materials_density (Electrode.current_collector a) = Ok d_acc ->
  Electrode.mass_ratio c !! "am" = Some c_am ->
  Positive.electrode a ->
  Positive.pouch p ->
  0 < Electrode.areal_capacity c ->
  0 < n_p_ratio ->
  0 <= Electrolyte.volume_excess l ->
  exists a' volume,
    Cell.cathode_volume c 0 == 0
    /\ Cell.separator_volume s 0 == 0
    /\ 0 < Cell.pouch_volume p
    /\ Cell.anode_volume a' 0
       == 2 * Electrode.width a' * Electrode.height a' * Electrode.thickness a'
    /\ 0 < Cell.anode_volume a' 0
    /\ 0 < Cell.anode_cc_volume a' 0
    /\ 0 < volume
    /\ Cell.new cathode anode separator electrolyte format tabs 0 n_p_ratio
         ice h
       = (Raise ZeroDivisionError,
          <[electrolyte := OElectrolyte (Electrolyte.set_volume volume l)]>
            (<[anode := OElectrode a']> h)).
Proof.
  intros Hc Ha Hs Hp Hb Hl Hdc Hda Hcm Pa Pp Pareal Pnp Px.
  destruct Pa as [Ppor Pcap Pw Ph Pcc Pth Ptw Pd (a_am & Ham & Pam)].
  destruct Pp as [Ppw Pph Ppt].
  assert (Pdiv : 0 < sizing_divisor a a_am)
    by (unfold sizing_divisor; positive).
  pose proof (Qpos_nonzero _ Pdiv) as Zdiv.
  set (x := Electrode.areal_capacity c * n_p_ratio / sizing_divisor a a_am).
  assert (Px' : 0 < x) by (subst x; positive).
  pose proof (calculate_anode_properties_Ok _ _ n_p_ratio _ _ _ _
                Hc Ha Ham Zdiv) as Hsize.
  fold x in Hsize.
  set (a' := sized_anode a x a_am) in *.
  set (h1 := <[anode := OElectrode a']> h) in *.
  destruct (lookup_sized_heap h anode cathode a c x a_am Ha Hc)
    as (c' & Hc' & Fc).
  pose proof (lookup_insert_same _ _ _ (OElectrode a') Ha) as Ha'.
  fold a' in Hc'. fold h1 in Hc', Ha'.
  assert (Hs' : h1 !! separator = Some (OSeparator s))
    by (eapply lookup_sized_heap_other; eauto; discriminate).
  assert (Hp' : h1 !! format = Some (OPouch p))
    by (eapply lookup_sized_heap_other; eauto; discriminate).
  assert (Hb' : h1 !! tabs = Some (OTab b))
    by (eapply lookup_sized_heap_other; eauto; discriminate).
  assert (Hl' : h1 !! electrolyte = Some (OElectrolyte l))
    by (eapply lookup_sized_heap_other; eauto; discriminate).
  destruct Fc as [_ Ecm _ _ _ _ _ _ _ _ Ecc _ _ _].
  assert (Pav : 0 < Cell.anode_volume a' 0).
  { unfold Cell.anode_volume. change (inject_Z (2 * 0 + 2)) with 2.
    subst a'. cbn [sized_anode Electrode.width Electrode.height
                     Electrode.thickness Electrode.set_areal_capacity
                     Electrode.set_thickness].
    positive. }
  assert (Ev : Cell.total_void_volume c' a' s 0
               == Cell.anode_volume a' 0 * Electrode.porosity a).
  { unfold Cell.total_void_volume, Cell.cathode_void_volume,
      Cell.separator_void_volume, Cell.anode_void_volume,
      Cell.cathode_volume, Cell.separator_volume.
    change (inject_Z 0) with 0.
    change (Electrode.porosity a') with (Electrode.porosity a). ring. }
  exists a', (Cell.electrolyte_volume c' a' s l 0).
  repeat apply conj.
  - unfold Cell.cathode_volume. change (inject_Z 0) with 0. ring.
  - unfold Cell.separator_volume. change (inject_Z 0) with 0. ring.
  - unfold Cell.pouch_volume. positive.
  - unfold Cell.anode_volume. change (inject_Z (2 * 0 + 2)) with 2. ring.
  - exact Pav.
  - unfold Cell.anode_cc_volume. change (inject_Z (0 + 1)) with 1.
    change (Electrode.width a') with (Electrode.width a).
    change (Electrode.height a') with (Electrode.height a).
    change (Electrode.tab_height a') with (Electrode.tab_height a).
    change (Electrode.tab_width a') with (Electrode.tab_width a).
    change (Electrode.cc_thickness a') with (Electrode.cc_thickness a).
    assert (0 < Electrode.width a * Electrode.height a
                + Electrode.tab_height a + Electrode.tab_width a).
    { assert (0 < Electrode.width a * Electrode.height a) by positive. lra. }
    positive.
  - unfold Cell.electrolyte_volume. rewrite Ev.
    assert (0 < 1 + Electrolyte.volume_excess l) by lra.
    positive.
  - rewrite (new_after_sizing _ _ _ _ _ _ _ _ _ _ _ Hsize).
    eapply aggregate_zero_capacity; eauto.
    + rewrite Ecc. exact Hdc.
    + rewrite Ecm. exact Hcm.
    + unfold Cell.capacity_of.
      assert (Ez : Cell.cathode_capacity c' c_am 0 == 0).
      { unfold Cell.cathode_capacity, Cell.cathode_mass, Cell.cathode_volume.
        change (inject_Z 0) with 0. field. }
      assert (0 < Cell.anode_capacity a' a_am 0).
      { unfold Cell.anode_capacity, Cell.anode_mass.
        change (Electrode.density a') with (Electrode.density a).
        change (Electrode.capacity a') with (Electrode.capacity a).
        positive. }
      rewrite Q.min_l by (rewrite Ez; lra). rewrite Ez. ring.
Qed.

Lemma zero_layers_boundary_witness :
  exists l a' volume,
    Scenario.heap0 !! 3%nat = Some (OElectrolyte l)
    /\ 0 < volume
    /\ Scenario.cell 0 Scenario.heap0
       = (Raise ZeroDivisionError,
          <[3%nat := OElectrolyte (Electrolyte.set_volume volume l)]>
            (<[1%nat := OElectrode a']> Scenario.heap0)).
Proof.
  destruct scenario_components
    as (c & a & s & l & p & b & Hh & Hm & Hd & Hcap & Hareal & Pa & Pp & Hx
        & Hdc & Hda & Hcm).
  destruct (zero_layers_boundary 0%nat 1%nat 2%nat 3%nat 4%nat 5%nat 1.1
              Cell.default_ice Scenario.heap0 c a s p b l 2.7 8.94 0.9)
    as (a' & volume & _ & _ & _ & _ & _ & _ & Hv & Hrun);
    try (rewrite Hh; reflexivity); try assumption; try reflexivity.
  exists l, a', volume. split; [now rewrite Hh|]. split; assumption.
Defined.

(** The claim as it stands fails on the concrete cell: with zero layers
    the construction raises. *)
Lemma zero_layers_counterexample :
  fst (Scenario.cell 0 Scenario.heap0) = Raise ZeroDivisionError.
Proof. vm_compute. reflexivity. Qed.

(** * Further properties of the code *)

(** ** More of the concrete cell *)

Lemma scenario_positive :
  exists c a s l p b,
    Scenario.heap0
    = [OElectrode c; OElectrode a; OSeparator s; OElectrolyte l; OPouch p;
       OTab b]
    /\ Positive.electrode c
    /\ Positive.electrode a
    /\ 0 < Electrode.thickness c
    /\ 0 < Electrode.areal_capacity c
    /\ materials_density (Electrode.current_collector c) = Ok 2.7
    /\ materials_density (Electrode.current_collector a) = Ok 8.94.
Proof.
  vm_compute Scenario.heap0. do 6 eexists.
  split; [reflexivity|].
  split; [constructor; try reflexivity; exists 0.9; split; reflexivity|].
  split; [constructor; try reflexivity; exists 0.9; split; reflexivity|].
  repeat (split; [reflexivity|]). reflexivity.
Qed.

(** ** Electrode construction *)

Section ElectrodeNew.

Variables (active_material : string) (mass_ratio : gmap string Q)
  (binder : string).
Variables (porosity voltage capacity density_am width height cc_thickness : Q).
Variable current_collector : string.
Variables (thickness tab_height tab_width : Q).

Local Abbreviation construct :=
  (Electrode.new active_material mass_ratio binder porosity voltage capacity
     density_am width height cc_thickness current_collector thickness
     tab_height tab_width).

(** The density assigned by [calculate_composite_density], for the mass
    ratios [m_am], [m_c], [m_b] and the binder density [d_b]. *)
Local Abbreviation mixed_density m_am m_c m_b d_b :=
  ((1 - porosity)
   * (m_am / density_am
      / Electrode.sum_volumes (m_am / density_am, m_c / 1.9, m_b / d_b)
      * density_am
      + m_c / 1.9
        / Electrode.sum_volumes (m_am / density_am, m_c / 1.9, m_b / d_b)
        * 1.9
      + m_b / d_b
        / Electrode.sum_volumes (m_am / density_am, m_c / 1.9, m_b / d_b)
        * d_b)).

(** When the constructor returns, and what. *)
Lemma electrode_new_Ok (m_am m_c m_b d_b : Q) :
  mass_ratio !! "am" = Some m_am ->
  mass_ratio !! "carbon" = Some m_c ->
  mass_ratio !! "binder" = Some m_b ->
  materials_density binder = Ok d_b ->
  ~ density_am == 0 ->
  ~ Electrode.sum_volumes (m_am / density_am, m_c / 1.9, m_b / d_b) == 0 ->
  construct
  = Ok (Electrode.mk active_material mass_ratio binder porosity voltage
          capacity density_am width height cc_thickness current_collector
          thickness tab_height tab_width (mixed_density m_am m_c m_b d_b)
          (mixed_density m_am m_c m_b d_b * thickness * capacity * m_am)).
Proof.
  intros Ham Hc Hb Hdb Zam Zs.
  pose proof (Qpos_nonzero _ (materials_density_pos _ _ Hdb)) as Zb.
  assert (Zc : ~ 1.9 == 0) by discriminate.
  apply getitem_Ok_inv in Ham, Hc, Hb.
  unfold Electrode.new, Electrode.calculate_composite_density,
    Electrode.volumes.
  cbn [rbind Electrode.mass_ratio Electrode.density_am Electrode.binder
         Electrode.porosity].
  rewrite Ham, Hc, Hb, Hdb, materials_density_SuperP. cbn [rbind].
  rewrite (pydiv_Ok _ _ Zam). cbn [rbind].
  rewrite (pydiv_Ok _ _ Zc). cbn [rbind].
  rewrite (pydiv_Ok _ _ Zb). cbn [rbind].
  rewrite !(pydiv_Ok _ _ Zs). cbn [rbind].
  unfold Electrode.calculate_areal_capacity.
  cbn [rbind Electrode.mass_ratio Electrode.set_density].
  rewrite Ham. reflexivity.
Qed.

Lemma electrode_new_Ok_inv (e : Electrode.t) :
  construct = Ok e ->
  exists m_am m_c m_b d_b,
    mass_ratio !! "am" = Some m_am
    /\ mass_ratio !! "carbon" = Some m_c
    /\ mass_ratio !! "binder" = Some m_b
    /\ materials_density binder = Ok d_b
    /\ ~ density_am == 0
    /\ ~ Electrode.sum_volumes (m_am / density_am, m_c / 1.9, m_b / d_b) == 0
    /\ e = Electrode.mk active_material mass_ratio binder porosity voltage
             capacity density_am width height cc_thickness current_collector
             thickness tab_height tab_width (mixed_density m_am m_c m_b d_b)
             (mixed_density m_am m_c m_b d_b * thickness * capacity * m_am).
Proof.
  unfold Electrode.new, Electrode.calculate_composite_density,
    Electrode.volumes.
  cbn [Electrode.mass_ratio Electrode.density_am Electrode.binder
         Electrode.porosity].
  intros H.
  apply rbind_Ok_inv in H as (e1 & H & Hareal).
  apply rbind_Ok_inv in H as ([[v_am v_c] v_b] & Hv & H).
  apply rbind_Ok_inv in Hv as (m_am & Ham & Hv).
  apply rbind_Ok_inv in Hv as (v1 & Hv1 & Hv).
  apply rbind_Ok_inv in Hv as (m_c & Hc & Hv).
  apply rbind_Ok_inv in Hv as (d_c & Hdc & Hv).
  apply rbind_Ok_inv in Hv as (v2 & Hv2 & Hv).
  apply rbind_Ok_inv in Hv as (m_b & Hb & Hv).
  apply rbind_Ok_inv in Hv as (d_b & Hdb & Hv).
  apply rbind_Ok_inv in Hv as (v3 & Hv3 & Hv).
  injection Hv as <- <- <-.
  rewrite materials_density_SuperP in Hdc. injection Hdc as <-.
  apply pydiv_Ok_inv in Hv1 as [Zam ->].
  apply pydiv_Ok_inv in Hv2 as [_ ->].
  apply pydiv_Ok_inv in Hv3 as [_ ->].
  apply rbind_Ok_inv in H as (r1 & Hr1 & H).
  apply rbind_Ok_inv in H as (r2 & Hr2 & H).
  apply rbind_Ok_inv in H as (r3 & Hr3 & H).
  apply pydiv_Ok_inv in Hr1 as [Zs ->].
  apply pydiv_Ok_inv in Hr2 as [_ ->].
  apply pydiv_Ok_inv in Hr3 as [_ ->].
  rewrite materials_density_SuperP, Hdb in H. cbn [rbind] in H.
  injection H as <-.
  unfold Electrode.calculate_areal_capacity in Hareal.
  cbn [Electrode.mass_ratio Electrode.set_density] in Hareal.
  rewrite Ham in Hareal. cbn [rbind] in Hareal. injection Hareal as <-.
  apply getitem_Ok_inv in Ham, Hc, Hb.
  exists m_am, m_c, m_b, d_b. repeat (split; [assumption|]). reflexivity.
Qed.

End ElectrodeNew.

(** The volume-weighted mean of the densities is the total mass fraction
    over the total volume. *)
Lemma mixed_density_closed_form (porosity density_am m_am m_c m_b d_b : Q) :
  ~ density_am == 0 -> ~ d_b == 0 ->
  ~ Electrode.sum_volumes (m_am / density_am, m_c / 1.9, m_b / d_b) == 0 ->
  (1 - porosity)
  * (m_am / density_am
     / Electrode.sum_volumes (m_am / density_am, m_c / 1.9, m_b / d_b)
     * density_am
     + m_c / 1.9
       / Electrode.sum_volumes (m_am / density_am, m_c / 1.9, m_b / d_b)
       * 1.9
     + m_b / d_b
       / Electrode.sum_volumes (m_am / density_am, m_c / 1.9, m_b / d_b)
       * d_b)
  == (1 - porosity) * (m_am + m_c + m_b)
     / (m_am / density_am + m_c / 1.9 + m_b / d_b).
Proof.
  intros Zam Zb Zs.
  assert (Es : Electrode.sum_volumes (m_am / density_am, m_c / 1.9, m_b / d_b)
               == m_am / density_am + m_c / 1.9 + m_b / d_b)
    by (cbv [Electrode.sum_volumes]; ring).
  set (s := Electrode.sum_volumes _) in *. clearbody s.
  rewrite <- Es. field. auto.
Qed.

(** X1.  The composite density of a constructed Electrode is [(1 -
    porosity)] times the sum of the three mass ratios over the sum of the
    three constituent volumes [ratio / density]: the mass ratios are
    normalised by the computation and need not sum to 1. *)
Theorem composite_density_closed_form
    (active_material : string) (mass_ratio : gmap string Q) (binder : string)
    (porosity voltage capacity density_am width height cc_thickness : Q)
    (current_collector : string) (thickness tab_height tab_width : Q)
    (e : Electrode.t) :
  Electrode.new active_material mass_ratio binder porosity voltage capacity
    density_am width height cc_thickness current_collector thickness
    tab_height tab_width = Ok e ->
  exists m_am m_carbon m_binder density_binder,
    mass_ratio !! "am" = Some m_am
    /\ mass_ratio !! "carbon" = Some m_carbon
    /\ mass_ratio !! "binder" = Some m_binder
    /\ materials_density binder = Ok density_binder
    /\ ~ m_am / density_am + m_carbon / 1.9 + m_binder / density_binder == 0
    /\ Electrode.density e
       == (1 - porosity) * (m_am + m_carbon + m_binder)
          / (m_am / density_am + m_carbon / 1.9 + m_binder / density_binder).
Proof.
  intros H.
  apply electrode_new_Ok_inv in H
    as (m_am & m_c & m_b & d_b & Ham & Hc & Hb & Hdb & Zam & Zs & ->).
  pose proof (Qpos_nonzero _ (materials_density_pos _ _ Hdb)) as Zb.
  exists m_am, m_c, m_b, d_b. repeat (split; [assumption|]). split.
  - intros E. apply Zs. rewrite <- E. cbv [Electrode.sum_volumes]. ring.
  - cbn [Electrode.density]. now apply mixed_density_closed_form.
Qed.

Lemma scenario_cathode_constructed :
  exists e, Scenario.cathode "Al" = Ok e.
Proof. vm_compute. eauto. Qed.

Lemma composite_density_closed_form_witness :
  exists e m_am m_carbon m_binder density_binder,
    Scenario.cathode "Al" = Ok e
    /\ Scenario.mass_ratio !! "am" = Some m_am
    /\ Scenario.mass_ratio !! "carbon" = Some m_carbon
    /\ Scenario.mass_ratio !! "binder" = Some m_binder
    /\ materials_density "CMC+SBR" = Ok density_binder
    /\ Electrode.density e
       == (1 - 0.25) * (m_am + m_carbon + m_binder)
          / (m_am / 1.8 + m_carbon / 1.9 + m_binder / density_binder).
Proof.
  destruct scenario_cathode_constructed as (e & He).
  destruct (composite_density_closed_form _ _ _ _ _ _ _ _ _ _ _ _ _ _ _ He)
    as (m_am & m_c & m_b & d_b & Ham & Hc & Hb & Hdb & _ & Hd).
  exists e, m_am, m_c, m_b, d_b. auto 10.
Defined.

(** X2.  Only the proportions of the mass ratios matter for the density:
    multiplying the three of them by a nonzero factor [k] leaves the
    constructor's outcome a success and the density the same, and
    multiplies the areal capacity by [k]. *)
Theorem composite_density_scale_invariant
    (active_material : string) (mass_ratio mass_ratio' : gmap string Q)
    (binder : string)
    (porosity voltage capacity density_am width height cc_thickness : Q)
    (current_collector : string) (thickness tab_height tab_width : Q)
    (k m_am m_carbon m_binder : Q) (e : Electrode.t) :
  ~ k == 0 ->
  mass_ratio !! "am" = Some m_am ->
  mass_ratio !! "carbon" = Some m_carbon ->
  mass_ratio !! "binder" = Some m_binder ->
  mass_ratio' !! "am" = Some (k * m_am) ->
  mass_ratio' !! "carbon" = Some (k * m_carbon) ->
  mass_ratio' !! "binder" = Some (k * m_binder) ->
  Electrode.new active_material mass_ratio binder porosity voltage capacity
    density_am width height cc_thickness current_collector thickness
    tab_height tab_width = Ok e ->
  exists e',
    Electrode.new active_material mass_ratio' binder porosity voltage capacity
      density_am width height cc_thickness current_collector thickness
      tab_height tab_width = Ok e'
    /\ Electrode.density e' == Electrode.density e
    /\ Electrode.areal_capacity e' == k * Electrode.areal_capacity e.
Proof.
  intros Zk Ham Hc Hb Ham' Hc' Hb' H.
  apply electrode_new_Ok_inv in H
    as (m_am0 & m_c0 & m_b0 & d_b & Ham0 & Hc0 & Hb0 & Hdb & Zam & Zs & ->).
  rewrite Ham in Ham0. injection Ham0 as <-.
  rewrite Hc in Hc0. injection Hc0 as <-.
  rewrite Hb in Hb0. injection Hb0 as <-.
  pose proof (Qpos_nonzero _ (materials_density_pos _ _ Hdb)) as Zb.
  assert (Es : Electrode.sum_volumes
                 (k * m_am / density_am, k * m_carbon / 1.9,
                  k * m_binder / d_b)
               == k * Electrode.sum_volumes
                        (m_am / density_am, m_carbon / 1.9, m_binder / d_b)).
  { cbv [Electrode.sum_volumes]. field. auto. }
  assert (Zs' : ~ Electrode.sum_volumes
                    (k * m_am / density_am, k * m_carbon / 1.9,
                     k * m_binder / d_b) == 0).
  { rewrite Es. intros E. apply Qmult_integral in E as [E|E]; auto. }
  eexists. split.
  { apply (electrode_new_Ok _ _ _ _ _ _ _ _ _ _ _ _ _ _ _ _ _ _
             Ham' Hc' Hb' Hdb Zam Zs'). }
  cbn [Electrode.density Electrode.areal_capacity].
  assert (Ed : forall a b c,
             ~ Electrode.sum_volumes (a / density_am, b / 1.9, c / d_b) == 0 ->
             (1 - porosity)
             * (a / density_am
                / Electrode.sum_volumes (a / density_am, b / 1.9, c / d_b)
                * density_am
                + b / 1.9
                  / Electrode.sum_volumes (a / density_am, b / 1.9, c / d_b)
                  * 1.9
                + c / d_b
                  / Electrode.sum_volumes (a / density_am, b / 1.9, c / d_b)
                  * d_b)
             == (1 - porosity) * (a + b + c)
                / (a / density_am + b / 1.9 + c / d_b))
    by (intros; now apply mixed_density_closed_form).
  rewrite (Ed _ _ _ Zs'), (Ed _ _ _ Zs).
  assert (Zq : ~ m_am / density_am + m_carbon / 1.9 + m_binder / d_b == 0).
  { intros E. apply Zs. rewrite <- E. cbv [Electrode.sum_volumes]. ring. }
  assert (Zq' : ~ k * m_am / density_am + k * m_carbon / 1.9
                  + k * m_binder / d_b == 0).
  { intros E. apply Zs'. rewrite <- E. cbv [Electrode.sum_volumes]. ring. }
  assert (E1 : (1 - porosity) * (k * m_am + k * m_carbon + k * m_binder)
               / (k * m_am / density_am + k * m_carbon / 1.9
                  + k * m_binder / d_b)
               == (1 - porosity) * (m_am + m_carbon + m_binder)
                  / (m_am / density_am + m_carbon / 1.9 + m_binder / d_b)).
  { set (q := m_am / density_am + m_carbon / 1.9 + m_binder / d_b) in *.
    assert (Eq : k * m_am / density_am + k * m_carbon / 1.9
                 + k * m_binder / d_b == k * q)
      by (subst q; field; auto).
    clearbody q. rewrite Eq. field. auto. }
  split.
  - exact E1.
  - rewrite E1. ring.
Qed.

Lemma composite_density_scale_invariant_witness :
  exists e e',
    Scenario.cathode "Al" = Ok e
    /\ Electrode.new "Prussian Blue" Variants.mass_ratio_doubled "CMC+SBR"
         0.25 3.2 150 1.8 5 8 0.0016 "Al" 0.01 Electrode.default_tab_height
         Electrode.default_tab_width = Ok e'
    /\ Electrode.density e' == Electrode.density e
    /\ Electrode.areal_capacity e' == 2 * Electrode.areal_capacity e.
Proof.
  destruct scenario_cathode_constructed as (e & He).
  destruct (composite_density_scale_invariant "Prussian Blue"
              Scenario.mass_ratio Variants.mass_ratio_doubled "CMC+SBR" 0.25
              3.2 150 1.8 5 8 0.0016 "Al" 0.01 Electrode.default_tab_height
              Electrode.default_tab_width 2 0.9 0.05 0.05 e)
    as (e' & He' & Hd & Ha);
    try reflexivity; [discriminate | exact He |].
  exists e, e'. auto.
Defined.

(** X3.  The areal capacity is linear in the coating thickness, and the
    density does not depend on it: if the constructor returns for one
    thickness it returns for every other, with the same density and with
    the areal capacity in the proportion of the thicknesses.  With the
    default thickness 0 the areal capacity is 0. *)
Theorem areal_capacity_linear_in_thickness
    (active_material : string) (mass_ratio : gmap string Q) (binder : string)
    (porosity voltage capacity density_am width height cc_thickness : Q)
    (current_collector : string) (thickness tab_height tab_width : Q)
    (e : Electrode.t) :
  Electrode.new active_material mass_ratio binder porosity voltage capacity
    density_am width height cc_thickness current_collector thickness
    tab_height tab_width = Ok e ->
  (forall k,
      exists e',
        Electrode.new active_material mass_ratio binder porosity voltage
          capacity density_am width height cc_thickness current_collector
          (k * thickness) tab_height tab_width = Ok e'
        /\ Electrode.density e' = Electrode.density e
        /\ Electrode.areal_capacity e' == k * Electrode.areal_capacity e)
  /\ (exists e0,
        Electrode.new active_material mass_ratio binder porosity voltage
          capacity density_am width height cc_thickness current_collector
          Electrode.default_thickness tab_height tab_width = Ok e0
        /\ Electrode.density e0 = Electrode.density e
        /\ Electrode.areal_capacity e0 == 0).
Proof.
  intros H.
  apply electrode_new_Ok_inv in H
    as (m_am & m_c & m_b & d_b & Ham & Hc & Hb & Hdb & Zam & Zs & ->).
  split.
  - intros k. eexists. split.
    { apply (electrode_new_Ok _ _ _ _ _ _ _ _ _ _ _ _ _ _ _ _ _ _
               Ham Hc Hb Hdb Zam Zs). }
    cbn [Electrode.density Electrode.areal_capacity].
    split; [reflexivity | ring].
  - eexists. split.
    { apply (electrode_new_Ok _ _ _ _ _ _ _ _ _ _ _ _ _ _ _ _ _ _
               Ham Hc Hb Hdb Zam Zs). }
    cbn [Electrode.density Electrode.areal_capacity].
    split; [reflexivity | unfold Electrode.default_thickness; ring].
Qed.

Lemma areal_capacity_linear_in_thickness_witness :
  exists e e',
    Scenario.cathode "Al" = Ok e
    /\ Electrode.new "Prussian Blue" Scenario.mass_ratio "CMC+SBR" 0.25 3.2
         150 1.8 5 8 0.0016 "Al" (2 * 0.01) Electrode.default_tab_height
         Electrode.default_tab_width = Ok e'
    /\ Electrode.areal_capacity e' == 2 * Electrode.areal_capacity e.
Proof.
  destruct scenario_cathode_constructed as (e & He).
  destruct (areal_capacity_linear_in_thickness _ _ _ _ _ _ _ _ _ _ _ _ _ _ _
              He) as [Hk _].
  destruct (Hk 2) as (e' & He' & _ & Ha).
  exists e, e'. auto.
Defined.

(** X4.  Look-up failures of the Electrode constructor, in the order the
    source meets them: a mass-ratio dict without ['am'] raises [KeyError
    'am'] whatever the other arguments; without ['carbon'], or without
    ['binder'], it raises [KeyError] for that key once the divisions before
    it have passed; and a binder name that is not in the table raises
    [KeyError] for the binder name. *)
Theorem electrode_lookup_failures
    (active_material : string) (mass_ratio : gmap string Q) (binder : string)
    (porosity voltage capacity density_am width height cc_thickness : Q)
    (current_collector : string) (thickness tab_height tab_width : Q) :
  let construct :=
    Electrode.new active_material mass_ratio binder porosity voltage capacity
      density_am width height cc_thickness current_collector thickness
      tab_height tab_width in
  (mass_ratio !! "am" = None -> construct = Raise (KeyError "am"))
  /\ (forall m_am,
         mass_ratio !! "am" = Some m_am -> ~ density_am == 0 ->
         mass_ratio !! "carbon" = None ->
         construct = Raise (KeyError "carbon"))
  /\ (forall m_am m_carbon,
         mass_ratio !! "am" = Some m_am -> ~ density_am == 0 ->
         mass_ratio !! "carbon" = Some m_carbon ->
         mass_ratio !! "binder" = None ->
         construct = Raise (KeyError "binder"))
  /\ (forall m_am m_carbon m_binder,
         mass_ratio !! "am" = Some m_am -> ~ density_am == 0 ->
         mass_ratio !! "carbon" = Some m_carbon ->
         mass_ratio !! "binder" = Some m_binder ->
         materials !! binder = None ->
         construct = Raise (KeyError binder)).
Proof.
  intros construct. subst construct.
  unfold Electrode.new, Electrode.calculate_composite_density,
    Electrode.volumes, getitem.
  cbn [Electrode.mass_ratio Electrode.density_am Electrode.binder].
  assert (Zc : ~ 1.9 == 0) by discriminate.
  repeat apply conj.
  - intros ->. reflexivity.
  - intros m_am -> Zam ->. cbn [rbind].
    rewrite (pydiv_Ok _ _ Zam). reflexivity.
  - intros m_am m_c -> Zam -> ->. cbn [rbind].
    rewrite (pydiv_Ok _ _ Zam), materials_density_SuperP. cbn [rbind].
    rewrite (pydiv_Ok _ _ Zc). reflexivity.
  - intros m_am m_c m_b -> Zam -> -> Hb. cbn [rbind].
    rewrite (pydiv_Ok _ _ Zam), materials_density_SuperP. cbn [rbind].
    rewrite (pydiv_Ok _ _ Zc). cbn [rbind].
    rewrite (materials_density_unknown _ Hb). reflexivity.
Qed.

Lemma electrode_lookup_failures_witness :
  Electrode.new "Prussian Blue" Variants.mass_ratio_no_carbon "CMC+SBR" 0.25
    3.2 150 1.8 5 8 0.0016 "Al" 0.01 1 1 = Raise (KeyError "carbon")
  /\ Electrode.new "Prussian Blue" Scenario.mass_ratio "PTFE" 0.25 3.2 150
       1.8 5 8 0.0016 "Al" 0.01 1 1 = Raise (KeyError "PTFE").
Proof.
  split.
  - destruct (electrode_lookup_failures "Prussian Blue"
                Variants.mass_ratio_no_carbon "CMC+SBR" 0.25 3.2 150 1.8 5 8
                0.0016 "Al" 0.01 1 1) as (_ & Hc & _).
    apply (Hc 0.9); [reflexivity | discriminate | reflexivity].
  - destruct (electrode_lookup_failures "Prussian Blue" Scenario.mass_ratio
                "PTFE" 0.25 3.2 150 1.8 5 8 0.0016 "Al" 0.01 1 1)
      as (_ & _ & _ & Hb).
    apply (Hb 0.9 0.05 0.05); try reflexivity. discriminate.
Defined.

(** X5.  Division failures of the Electrode constructor: an
    active-material density of 0 raises [ZeroDivisionError] as soon as the
    ['am'] ratio is read, and so does a composition whose three mass
    ratios are all 0 (the volumes sum to 0), given a binder of the
    table. *)
Theorem electrode_division_failures
    (active_material : string) (mass_ratio : gmap string Q) (binder : string)
    (porosity voltage capacity density_am width height cc_thickness : Q)
    (current_collector : string) (thickness tab_height tab_width : Q) :
  let construct :=
    Electrode.new active_material mass_ratio binder porosity voltage capacity
      density_am width height cc_thickness current_collector thickness
      tab_height tab_width in
  (forall m_am,
      mass_ratio !! "am" = Some m_am -> density_am == 0 ->
      construct = Raise ZeroDivisionError)
  /\ (forall m_am m_carbon m_binder density_binder,
         mass_ratio !! "am" = Some m_am ->
         mass_ratio !! "carbon" = Some m_carbon ->
         mass_ratio !! "binder" = Some m_binder ->
         materials_density binder = Ok density_binder ->
         ~ density_am == 0 ->
         m_am == 0 -> m_carbon == 0 -> m_binder == 0 ->
         construct = Raise ZeroDivisionError).
Proof.
  intros construct. subst construct.
  unfold Electrode.new, Electrode.calculate_composite_density,
    Electrode.volumes, getitem.
  cbn [Electrode.mass_ratio Electrode.density_am Electrode.binder].
  assert (Zc : ~ 1.9 == 0) by discriminate.
  split.
  - intros m_am -> Zam. cbn [rbind]. now rewrite (pydiv_zero _ _ Zam).
  - intros m_am m_c m_b d_b -> -> -> Hdb Zam E1 E2 E3. cbn [rbind].
    pose proof (Qpos_nonzero _ (materials_density_pos _ _ Hdb)) as Zb.
    rewrite (pydiv_Ok _ _ Zam), materials_density_SuperP, Hdb. cbn [rbind].
    rewrite (pydiv_Ok _ _ Zc). cbn [rbind].
    rewrite (pydiv_Ok _ _ Zb). cbn [rbind].
    rewrite pydiv_zero; [reflexivity|].
    cbv [Electrode.sum_volumes]. rewrite E1, E2, E3. field. auto.
Qed.

Lemma electrode_division_failures_witness :
  Electrode.new "Prussian Blue" Scenario.mass_ratio "CMC+SBR" 0.25 3.2 150 0
    5 8 0.0016 "Al" 0.01 1 1 = Raise ZeroDivisionError
  /\ Electrode.new "Prussian Blue" Variants.mass_ratio_zero "CMC+SBR" 0.25
       3.2 150 1.8 5 8 0.0016 "Al" 0.01 1 1 = Raise ZeroDivisionError.
Proof.
  split.
  - destruct (electrode_division_failures "Prussian Blue" Scenario.mass_ratio
                "CMC+SBR" 0.25 3.2 150 0 5 8 0.0016 "Al" 0.01 1 1)
      as (Hz & _).
    apply (Hz 0.9); reflexivity.
  - destruct (electrode_division_failures "Prussian Blue"
                Variants.mass_ratio_zero "CMC+SBR" 0.25 3.2 150 1.8 5 8
                0.0016 "Al" 0.01 1 1) as (_ & Hz).
    apply (Hz 0 0 0 ((1.6 + 0.96) / 2)); try reflexivity. discriminate.
Defined.

(** X6.  The Electrode constructor never looks the active material or the
    current collector up: with any other two names, in the table or not,
    it returns whenever it returned, with the same density and areal
    capacity, and stores the names as given. *)
Theorem electrode_names_not_looked_up
    (active_material active_material' : string) (mass_ratio : gmap string Q)
    (binder : string)
    (porosity voltage capacity density_am width height cc_thickness : Q)
    (current_collector current_collector' : string)
    (thickness tab_height tab_width : Q) (e : Electrode.t) :
  Electrode.new active_material mass_ratio binder porosity voltage capacity
    density_am width height cc_thickness current_collector thickness
    tab_height tab_width = Ok e ->
  exists e',
    Electrode.new active_material' mass_ratio binder porosity voltage capacity
      density_am width height cc_thickness current_collector' thickness
      tab_height tab_width = Ok e'
    /\ Electrode.active_material e' = active_material'
    /\ Electrode.current_collector e' = current_collector'
    /\ Electrode.density e' = Electrode.density e
    /\ Electrode.areal_capacity e' = Electrode.areal_capacity e.
Proof.
  intros H.
  apply electrode_new_Ok_inv in H
    as (m_am & m_c & m_b & d_b & Ham & Hc & Hb & Hdb & Zam & Zs & ->).
  eexists. split.
  { apply (electrode_new_Ok _ _ _ _ _ _ _ _ _ _ _ _ _ _ _ _ _ _
             Ham Hc Hb Hdb Zam Zs). }
  repeat split.
Qed.

Lemma electrode_names_not_looked_up_witness :
  exists e e',
    Scenario.cathode "Al" = Ok e
    /\ Scenario.cathode "Zn" = Ok e'
    /\ materials !! "Zn" = None
    /\ Electrode.current_collector e' = "Zn"
    /\ Electrode.density e' = Electrode.density e.
Proof.
  destruct scenario_cathode_constructed as (e & He).
  destruct (electrode_names_not_looked_up "Prussian Blue" "Prussian Blue"
              Scenario.mass_ratio "CMC+SBR" 0.25 3.2 150 1.8 5 8 0.0016 "Al"
              "Zn" 0.01 Electrode.default_tab_height
              Electrode.default_tab_width e He)
    as (e' & He' & _ & Hcc & Hd & _).
  exists e, e'. repeat (split; [assumption || reflexivity|]). exact Hd.
Defined.

(** ** Tab construction *)

Lemma density_of_get (name : string) (d : Q) :
  materials_get_density name = Ok d <-> materials_density name = Ok d.
Proof.
  unfold materials_get_density, materials_density.
  destruct (materials !! name); [reflexivity|]. split; discriminate.
Qed.

(** X7.  A Tab is constructed exactly when both contact materials have a
    density in the top level of the table (the nested ['tabs'] entry is
    not consulted): the Tab then stores the two table densities, which are
    positive, and its arguments unchanged.  A name that is in the table
    without a density raises [KeyError 'density']. *)
Theorem tab_construction
    (material_cathode material_anode : string) (height width thickness : Q) :
  let construct :=
    Tab.new material_cathode material_anode height width thickness in
  (forall b,
      construct = Ok b ->
      materials_density material_cathode = Ok (Tab.density_cathode b)
      /\ materials_density material_anode = Ok (Tab.density_anode b)
      /\ 0 < Tab.density_cathode b /\ 0 < Tab.density_anode b
      /\ Tab.material_cathode b = material_cathode
      /\ Tab.material_anode b = material_anode
      /\ Tab.height b = height /\ Tab.width b = width
      /\ Tab.thickness b = thickness)
  /\ (forall d_c d_a,
         materials_density material_cathode = Ok d_c ->
         materials_density material_anode = Ok d_a ->
         construct
         = Ok (Tab.mk material_cathode material_anode height width thickness
                 d_c d_a))
  /\ (forall d,
         materials !! material_cathode = Some (PDict d) ->
         d !! "density" = None ->
         construct = Raise (KeyError "density")).
Proof.
  intros construct. subst construct. unfold Tab.new. repeat apply conj.
  - intros b H.
    apply rbind_Ok_inv in H as (d_c & Hc & H).
    apply rbind_Ok_inv in H as (d_a & Ha & [= <-]).
    apply density_of_get in Hc, Ha. cbn.
    repeat split; eauto using materials_density_pos.
  - intros d_c d_a Hc Ha. apply density_of_get in Hc, Ha.
    now rewrite Hc, Ha.
  - intros d Hm Hd. unfold materials_get_density, density_of.
    now rewrite Hm, Hd.
Qed.

Lemma tab_construction_witness :
  Tab.new "Al" "Cu" 1 1 0.01 = Ok (Tab.mk "Al" "Cu" 1 1 0.01 2.7 8.94)
  /\ Tab.new "tabs" "Cu" 1 1 0.01 = Raise (KeyError "density").
Proof.
  destruct (tab_construction "Al" "Cu" 1 1 0.01) as (_ & Hok & _).
  destruct (tab_construction "tabs" "Cu" 1 1 0.01) as (_ & _ & Hno).
  split.
  - apply Hok; reflexivity.
  - eapply Hno; reflexivity.
Defined.

(** ** Constructed cells *)

(** X8.  What holds of every constructed Cell: its capacity, its [ice],
    its total volume and its total mass are nonzero (the construction
    divides by the first, third and fourth); each energy density times its
    denominator gives back [energy * 1000]; and the electrolyte has both
    its [volume] and its [volume_per_ah] assigned, with [volume_per_ah *
    capacity] equal to the volume. *)
Theorem constructed_cell_invariants
    (cathode anode separator electrolyte format tabs : loc)
    (layers_number : Z) (n_p_ratio ice : Q) (h h' : heap) (cell : Cell.t) :
  Cell.new cathode anode separator electrolyte format tabs layers_number
    n_p_ratio ice h = (Ok cell, h') ->
  ~ Cell.capacity cell == 0
  /\ ~ ice == 0
  /\ ~ Cell.total_volume cell == 0
  /\ ~ Cell.total_mass cell == 0
  /\ Cell.volumetric_energy_density cell * Cell.total_volume cell
     == Cell.energy cell * 1000
  /\ Cell.gravimetric_energy_density cell * Cell.total_mass cell
     == Cell.energy cell * 1000
  /\ exists l volume volume_per_ah,
       h' !! electrolyte = Some (OElectrolyte l)
       /\ Electrolyte.volume l = Some volume
       /\ Electrolyte.volume_per_ah l = Some volume_per_ah
       /\ volume_per_ah * Cell.capacity cell == volume.
Proof.
  intros H. apply new_Ok_stages in H as (h1 & Hsize & Hagg).
  destruct Hagg as [c a s p b l d_ccc d_acc c_am a_am Hc Ha Hs Hp Hb Hl Hdc
                      Hda Hcm Ham volume capacity energy total_mass
                      total_volume Hcap Htv Htm].
  cbn [Cell.capacity Cell.total_volume Cell.total_mass Cell.energy
         Cell.volumetric_energy_density Cell.gravimetric_energy_density].
  repeat apply conj; try assumption.
  - intros E. apply Hcap. subst capacity. unfold Cell.capacity_of.
    rewrite E. ring.
  - now field.
  - now field.
  - do 3 eexists. split; [final_lookup|].
    split; [reflexivity|]. split; [reflexivity|]. now field.
Qed.

Lemma constructed_cell_invariants_witness :
  exists cell h',
    Scenario.cell 5 Scenario.heap0 = (Ok cell, h')
    /\ Cell.volumetric_energy_density cell * Cell.total_volume cell
       == Cell.energy cell * 1000
    /\ Cell.gravimetric_energy_density cell * Cell.total_mass cell
       == Cell.energy cell * 1000.
Proof.
  destruct scenario_constructed as (cell & h' & _ & _ & _ & E & _).
  destruct (constructed_cell_invariants _ _ _ _ _ _ _ _ _ _ _ _ E)
    as (_ & _ & _ & _ & Hv & Hg & _).
  exists cell, h'. auto.
Defined.

(** X9.  The electrolyte volume assigned by the construction is the total
    void volume times [1 + volume_excess], and what it adds to the total
    volume of the Cell is the total void volume times [volume_excess]. *)
Theorem total_volume_with_excess
    (cathode anode separator electrolyte format tabs : loc)
    (layers_number : Z) (n_p_ratio ice : Q) (h h' : heap) (cell : Cell.t) :
  Cell.new cathode anode separator electrolyte format tabs layers_number
    n_p_ratio ice h = (Ok cell, h') ->
  exists c a s p l volume,
    h' !! cathode = Some (OElectrode c)
    /\ h' !! anode = Some (OElectrode a)
    /\ h' !! separator = Some (OSeparator s)
    /\ h' !! format = Some (OPouch p)
    /\ h' !! electrolyte = Some (OElectrolyte l)
    /\ Electrolyte.volume l = Some volume
    /\ volume
       == Cell.total_void_volume c a s layers_number
          * (1 + Electrolyte.volume_excess l)
    /\ Cell.total_volume cell
       == Cell.cathode_volume c layers_number
          + Cell.anode_volume a layers_number
          + Cell.separator_volume s layers_number
          + Cell.pouch_volume p
          + Cell.anode_cc_volume a layers_number
          + Cell.cathode_cc_volume c layers_number
          + Cell.total_void_volume c a s layers_number
            * Electrolyte.volume_excess l.
Proof.
  intros H. apply new_Ok_stages in H as (h1 & Hsize & Hagg).
  destruct Hagg as [c a s p b l d_ccc d_acc c_am a_am Hc Ha Hs Hp Hb Hl Hdc
                      Hda Hcm Ham volume capacity energy total_mass
                      total_volume Hcap Htv Htm].
  exists c, a, s, p. eexists. exists volume.
  repeat (split; [final_lookup|]).
  split; [reflexivity|].
  cbn [Cell.total_volume Electrolyte.volume_excess
         Electrolyte.set_volume_per_ah Electrolyte.set_volume].
  subst total_volume volume.
  unfold Cell.total_volume_of, Cell.electrolyte_volume.
  split; [reflexivity | ring].
Qed.

Lemma total_volume_with_excess_witness :
  exists cell h' c a s p l,
    Scenario.cell 5 Scenario.heap0 = (Ok cell, h')
    /\ h' !! 0%nat = Some (OElectrode c)
    /\ h' !! 1%nat = Some (OElectrode a)
    /\ h' !! 2%nat = Some (OSeparator s)
    /\ h' !! 4%nat = Some (OPouch p)
    /\ h' !! 3%nat = Some (OElectrolyte l)
    /\ Cell.total_volume cell
       == Cell.cathode_volume c 5 + Cell.anode_volume a 5
          + Cell.separator_volume s 5 + Cell.pouch_volume p
          + Cell.anode_cc_volume a 5 + Cell.cathode_cc_volume c 5
          + Cell.total_void_volume c a s 5 * Electrolyte.volume_excess l.
Proof.
  destruct scenario_constructed as (cell & h' & _ & _ & _ & E & _).
  destruct (total_volume_with_excess _ _ _ _ _ _ _ _ _ _ _ _ E)
    as (c & a & s & p & l & v & Hc & Ha & Hs & Hp & Hl & _ & _ & Htv).
  exists cell, h', c, a, s, p, l. auto 10.
Defined.


Lemma positive_electrode_nonneg (e : Electrode.t) :
  Positive.electrode e -> 0 <= Electrode.thickness e ->
  0 <= Electrode.areal_capacity e -> Nonneg.electrode e.
Proof.
  intros [? ? ? ? ? ? ? ? (m & Hm & Pm)] Ht Ha.
  constructor; try (apply Qlt_le_weak; assumption); try assumption.
  intros m' Hm'. rewrite Hm in Hm'. injection Hm' as <-.
  now apply Qlt_le_weak.
Qed.



(** ** Failures of the construction *)

(** X11.  The sizing stage fails atomically: when it raises, the heap is
    as it was, and the exception is [AttributeError] (a reference that is
    not an Electrode), [KeyError 'am'] (the anode's mass ratios lack the
    key) or [ZeroDivisionError] (the anode's density, capacity or ['am']
    ratio is zero). *)
Theorem sizing_failure_is_atomic
    (cathode anode : loc) (n_p_ratio : Q) (h h' : heap) (e : exn) :
  Cell.calculate_anode_properties cathode anode n_p_ratio h = (Raise e, h') ->
  h' = h
  /\ (e = AttributeError \/ e = KeyError "am" \/ e = ZeroDivisionError).
Proof.
  destruct (h !! cathode) as [[c| | | |]|] eqn:Hc;
    try (rewrite calculate_anode_properties_no_cathode
           by (intros c'; rewrite Hc; discriminate);
         intros [= <- <-]; auto).
  destruct (h !! anode) as [[a| | | |]|] eqn:Ha.
  - rewrite (calculate_anode_properties_run _ _ _ _ _ _ Hc Ha).
    unfold getitem, pydiv.
    destruct (Electrode.mass_ratio a !! "am") as [m|];
      [|intros [= <- <-]; auto].
    destruct (Qeq_bool (sizing_divisor a m) 0);
      [intros [= <- <-]; auto | discriminate].
  - unfold Cell.calculate_anode_properties.
    rewrite (bind_Ok _ _ _ _ _ (get_electrode_Ok _ _ _ Hc)).
    unfold bind, update_electrode, bind, get_electrode. rewrite Ha.
    intros [= <- <-]; auto.
  - unfold Cell.calculate_anode_properties.
    rewrite (bind_Ok _ _ _ _ _ (get_electrode_Ok _ _ _ Hc)).
    unfold bind, update_electrode, bind, get_electrode. rewrite Ha.
    intros [= <- <-]; auto.
  - unfold Cell.calculate_anode_properties.
    rewrite (bind_Ok _ _ _ _ _ (get_electrode_Ok _ _ _ Hc)).
    unfold bind, update_electrode, bind, get_electrode. rewrite Ha.
    intros [= <- <-]; auto.
  - unfold Cell.calculate_anode_properties.
    rewrite (bind_Ok _ _ _ _ _ (get_electrode_Ok _ _ _ Hc)).
    unfold bind, update_electrode, bind, get_electrode. rewrite Ha.
    intros [= <- <-]; auto.
  - unfold Cell.calculate_anode_properties.
    rewrite (bind_Ok _ _ _ _ _ (get_electrode_Ok _ _ _ Hc)).
    unfold bind, update_electrode, bind, get_electrode. rewrite Ha.
    intros [= <- <-]; auto.
Qed.

(** An anode of specific capacity 0 can be constructed; sizing it divides
    by zero. *)
Lemma dead_anode_sizing :
  exists e h',
    Cell.calculate_anode_properties 0%nat 1%nat 1.1 Variants.heap_dead_anode
    = (Raise e, h')
    /\ e = ZeroDivisionError.
Proof. vm_compute. do 2 eexists. split; reflexivity. Qed.

Lemma sizing_failure_is_atomic_witness :
  Cell.calculate_anode_properties 0%nat 1%nat 1.1 Variants.heap_dead_anode
  = (Raise ZeroDivisionError, Variants.heap_dead_anode).
Proof.
  destruct dead_anode_sizing as (e & h' & E & ->).
  destruct (sizing_failure_is_atomic _ _ _ _ _ _ E) as [-> _]. exact E.
Defined.

(** X12.  With [ice = 0] the construction raises [ZeroDivisionError] when
    it divides the electrolyte volume by the capacity, provided the steps
    before that pass (the six references are of the right classes, the
    sizing divisor is nonzero, both collectors are known and the cathode
    has an ['am'] ratio).  The heap it leaves has the anode resized and
    the electrolyte's [volume] assigned, the electrolyte's [volume_per_ah]
    being as before. *)
Theorem zero_ice_raises
    (cathode anode separator electrolyte format tabs : loc)
    (layers_number : Z) (n_p_ratio ice : Q) (h : heap) (c a : Electrode.t)
    (s : Separator.t) (p : Pouch.t) (b : Tab.t) (l : Electrolyte.t)
    (d_ccc d_acc c_am a_am : Q) :
  ice == 0 ->
  h !! cathode = Some (OElectrode c) ->
  h !! anode = Some (OElectrode a) ->
  h !! separator = Some (OSeparator s) ->
  h !! format = Some (OPouch p) ->
  h !! tabs = Some (OTab b) ->
  h !! electrolyte = Some (OElectrolyte l) ->
  materials_density (Electrode.current_collector c) = Ok d_ccc ->
  materials_density (Electrode.current_collector a) = Ok d_acc ->
  Electrode.mass_ratio c !! "am" = Some c_am ->
  Electrode.mass_ratio a !! "am" = Some a_am ->
  ~ sizing_divisor a a_am == 0 ->
  exists a' volume,
    Cell.new cathode anode separator electrolyte format tabs layers_number
      n_p_ratio ice h
    = (Raise ZeroDivisionError,
       <[electrolyte := OElectrolyte (Electrolyte.set_volume volume l)]>
         (<[anode := OElectrode a']> h))
    /\ Frame.electrode a a'
    /\ Electrolyte.volume_per_ah (Electrolyte.set_volume volume l)
       = Electrolyte.volume_per_ah l.
Proof.
  intros Hice Hc Ha Hs Hp Hb Hl Hdc Hda Hcm Ham Zdiv.
  set (x := Electrode.areal_capacity c * n_p_ratio / sizing_divisor a a_am).
  pose proof (calculate_anode_properties_Ok _ _ n_p_ratio _ _ _ _
                Hc Ha Ham Zdiv) as Hsize.
  fold x in Hsize.
  set (a' := sized_anode a x a_am) in *.
  set (h1 := <[anode := OElectrode a']> h) in *.
  destruct (lookup_sized_heap h anode cathode a c x a_am Ha Hc)
    as (c' & Hc' & Fc).
  pose proof (lookup_insert_same _ _ _ (OElectrode a') Ha) as Ha'.
  fold a' in Hc'. fold h1 in Hc', Ha'.
  assert (Hs' : h1 !! separator = Some (OSeparator s))
    by (eapply lookup_sized_heap_other; eauto; discriminate).
  assert (Hp' : h1 !! format = Some (OPouch p))
    by (eapply lookup_sized_heap_other; eauto; discriminate).
  assert (Hb' : h1 !! tabs = Some (OTab b))
    by (eapply lookup_sized_heap_other; eauto; discriminate).
  assert (Hl' : h1 !! electrolyte = Some (OElectrolyte l))
    by (eapply lookup_sized_heap_other; eauto; discriminate).
  destruct Fc as [_ Ecm _ _ _ _ _ _ _ _ Ecc _ _ _].
  exists a', (Cell.electrolyte_volume c' a' s l layers_number).
  split; [|split; [apply frame_sized_anode | reflexivity]].
  rewrite (new_after_sizing _ _ _ _ _ _ _ _ _ _ _ Hsize).
  eapply aggregate_zero_capacity; eauto.
  - rewrite Ecc. exact Hdc.
  - rewrite Ecm. exact Hcm.
  - unfold Cell.capacity_of. rewrite Hice. ring.
Qed.

Lemma zero_ice_raises_witness :
  exists l a' volume,
    Scenario.heap0 !! 3%nat = Some (OElectrolyte l)
    /\ Variants.cell_with_ice 0 Scenario.heap0
       = (Raise ZeroDivisionError,
          <[3%nat := OElectrolyte (Electrolyte.set_volume volume l)]>
            (<[1%nat := OElectrode a']> Scenario.heap0)).
Proof.
  destruct scenario_components
    as (c & a & s & l & p & b & Hh & Hm & Hd & Hcap & Hareal & Pa & Pp & Hx
        & Hdc & Hda & Hcm).
  destruct (zero_ice_raises 0%nat 1%nat 2%nat 3%nat 4%nat 5%nat 5 1.1 0
              Scenario.heap0 c a s p b l 2.7 8.94 0.9 0.9)
    as (a' & volume & Hrun & _);
    try (rewrite Hh; reflexivity); try assumption; try reflexivity.
  - apply sizing_divisor_nonzero; now apply Qpos_nonzero.
  - exists l, a', volume. split; [now rewrite Hh | exact Hrun].
Defined.

(** ** Constructing again *)

(** X13.  Construction is idempotent on its components: constructing a
    Cell a second time from the components as the first construction left
    them (the cathode being another object than the anode) returns an
    equal Cell and leaves the heap as it is.  The anode is given the same
    thickness again and the electrolyte the same volumes. *)
Theorem construction_idempotent
    (cathode anode separator electrolyte format tabs : loc)
    (layers_number : Z) (n_p_ratio ice : Q) (h h' : heap) (cell : Cell.t) :
  cathode <> anode ->
  Cell.new cathode anode separator electrolyte format tabs layers_number
    n_p_ratio ice h = (Ok cell, h') ->
  Cell.new cathode anode separator electrolyte format tabs layers_number
    n_p_ratio ice h' = (Ok cell, h').
Proof.
  intros Hne H.
  apply new_Ok_inv in H as (c0 & a0 & m & Hc0 & Ha0 & Hm & Hd & Hagg).
  set (x := Electrode.areal_capacity c0 * n_p_ratio / sizing_divisor a0 m)
    in *.
  set (a1 := sized_anode a0 x m) in *.
  set (h1 := <[anode := OElectrode a1]> h) in *.
  destruct Hagg as [c a s p b l d_ccc d_acc c_am a_am Hc Ha Hs Hp Hb Hl Hdc
                      Hda Hcm Ham volume capacity energy total_mass
                      total_volume Hcap Htv Htm].
  assert (c = c0) as ->.
  { subst h1. rewrite list_lookup_insert_ne in Hc by auto. congruence. }
  assert (a = a1) as ->.
  { subst h1. rewrite (lookup_insert_same _ _ _ _ Ha0) in Ha. congruence. }
  set (l1 := Electrolyte.set_volume_per_ah (volume / capacity)
               (Electrolyte.set_volume volume l)) in *.
  set (h2 := <[electrolyte := OElectrolyte l1]> h1) in *.
  assert (Hc2 : h2 !! cathode = Some (OElectrode c0)) by (subst h2; final_lookup).
  assert (Ha2 : h2 !! anode = Some (OElectrode a1)) by (subst h2; final_lookup).
  assert (Hs2 : h2 !! separator = Some (OSeparator s))
    by (subst h2; final_lookup).
  assert (Hp2 : h2 !! format = Some (OPouch p)) by (subst h2; final_lookup).
  assert (Hb2 : h2 !! tabs = Some (OTab b)) by (subst h2; final_lookup).
  assert (Hl2 : h2 !! electrolyte = Some (OElectrolyte l1))
    by (subst h2; final_lookup).
  assert (Hsize : Cell.calculate_anode_properties cathode anode n_p_ratio h2
                  = (Ok tt, h2)).
  { rewrite (calculate_anode_properties_Ok _ _ n_p_ratio h2 c0 a1 m Hc2 Ha2
               Hm Hd).
    f_equal. now apply list_insert_id. }
  rewrite (new_after_sizing _ _ _ _ _ _ _ _ _ _ _ Hsize).
  apply calculate_energy_density_Ok.
  pose proof (Aggregated cathode anode separator electrolyte format tabs
                layers_number n_p_ratio ice h2 c0 a1 s p b l1 d_ccc d_acc
                c_am a_am Hc2 Ha2 Hs2 Hp2 Hb2 Hl2 Hdc Hda Hcm Ham Hcap Htv Htm)
    as G.
  rewrite list_insert_id in G by exact Hl2. exact G.
Qed.

Lemma construction_idempotent_witness :
  exists cell h',
    Scenario.cell 5 Scenario.heap0 = (Ok cell, h')
    /\ Scenario.cell 5 h' = (Ok cell, h').
Proof.
  destruct scenario_constructed as (cell & h' & _ & _ & _ & E & _).
  exists cell, h'. split; [exact E|].
  apply (construction_idempotent 0%nat 1%nat 2%nat 3%nat 4%nat 5%nat 5 1.1
           Cell.default_ice Scenario.heap0 h' cell); [discriminate | exact E].
Defined.

(** X14.  The outcome does not depend on the [volume] and [volume_per_ah]
    the electrolyte carried before: from two heaps that differ only in
    these two attributes of the electrolyte, a construction that returns
    on the first returns the same Cell and leaves the same heap on the
    second. *)
Theorem construction_ignores_previous_electrolyte_volume
    (cathode anode separator electrolyte format tabs : loc)
    (layers_number : Z) (n_p_ratio ice : Q) (h h' : heap)
    (l l' : Electrolyte.t) (cell : Cell.t) :
  h !! electrolyte = Some (OElectrolyte l) ->
  Frame.electrolyte l l' ->
  Cell.new cathode anode separator electrolyte format tabs layers_number
    n_p_ratio ice h = (Ok cell, h') ->
  Cell.new cathode anode separator electrolyte format tabs layers_number
    n_p_ratio ice (<[electrolyte := OElectrolyte l']> h) = (Ok cell, h').
Proof.
  intros Hl0 Fl H.
  apply new_Ok_inv in H as (c0 & a0 & m & Hc0 & Ha0 & Hm & Hd & Hagg).
  set (x := Electrode.areal_capacity c0 * n_p_ratio / sizing_divisor a0 m)
    in *.
  set (a1 := sized_anode a0 x m) in *.
  destruct Hagg as [c a s p b l1 d_ccc d_acc c_am a_am Hc Ha Hs Hp Hb Hl Hdc
                      Hda Hcm Ham volume capacity energy total_mass
                      total_volume Hcap Htv Htm].
  assert (Hea : electrolyte <> anode) by (intros ->; congruence).
  assert (l1 = l) as ->.
  { rewrite list_lookup_insert_ne in Hl by auto. congruence. }
  set (g := <[electrolyte := OElectrolyte l']> h).
  assert (Hcg : g !! cathode = Some (OElectrode c0))
    by (subst g; eapply lookup_insert_electrolyte; eauto; discriminate).
  assert (Hag : g !! anode = Some (OElectrode a0))
    by (subst g; eapply lookup_insert_electrolyte; eauto; discriminate).
  pose proof (calculate_anode_properties_Ok _ _ n_p_ratio g c0 a0 m Hcg Hag
                Hm Hd) as Hsize.
  fold x in Hsize. fold a1 in Hsize.
  rewrite (new_after_sizing _ _ _ _ _ _ _ _ _ _ _ Hsize).
  subst g. rewrite (list_insert_insert_ne h anode electrolyte) by auto.
  set (h1 := <[anode := OElectrode a1]> h) in *.
  assert (Hl' : <[electrolyte := OElectrolyte l']> h1 !! electrolyte
                = Some (OElectrolyte l'))
    by (eapply lookup_insert_same; eauto).
  apply calculate_energy_density_Ok.
  assert (Hc' : <[electrolyte := OElectrolyte l']> h1 !! cathode
                = Some (OElectrode c)) by final_lookup.
  assert (Ha' : <[electrolyte := OElectrolyte l']> h1 !! anode
                = Some (OElectrode a)) by final_lookup.
  assert (Hs' : <[electrolyte := OElectrolyte l']> h1 !! separator
                = Some (OSeparator s)) by final_lookup.
  assert (Hp' : <[electrolyte := OElectrolyte l']> h1 !! format
                = Some (OPouch p)) by final_lookup.
  assert (Hb' : <[electrolyte := OElectrolyte l']> h1 !! tabs
                = Some (OTab b)) by final_lookup.
  destruct Fl as [Emat Eden Eex].
  assert (Ev : Cell.electrolyte_volume c a s l' layers_number = volume)
    by (subst volume; unfold Cell.electrolyte_volume; now rewrite Eex).
  assert (Etm : Cell.total_mass_of c a s p b l' d_ccc d_acc layers_number
                = total_mass).
  { subst total_mass. unfold Cell.total_mass_of, Cell.electrolyte_mass.
    fold volume. now rewrite Ev, Eden. }
  assert (Etv : Cell.total_volume_of c a s p l' layers_number = total_volume).
  { subst total_volume. unfold Cell.total_volume_of. fold volume.
    now rewrite Ev. }
  pose proof (Aggregated cathode anode separator electrolyte format tabs
                layers_number n_p_ratio ice
                (<[electrolyte := OElectrolyte l']> h1) c a s p b l' d_ccc
                d_acc c_am a_am Hc' Ha' Hs' Hp' Hb' Hl' Hdc Hda Hcm Ham) as G.
  cbv zeta in G. rewrite Ev, Etm, Etv in G.
  specialize (G Hcap Htv Htm).
  rewrite list_insert_insert_eq in G.
  assert (Eset : forall v w,
             Electrolyte.set_volume_per_ah v (Electrolyte.set_volume w l')
             = Electrolyte.set_volume_per_ah v (Electrolyte.set_volume w l)).
  { intros v w. unfold Electrolyte.set_volume_per_ah, Electrolyte.set_volume.
    cbn. now rewrite Emat, Eden, Eex. }
  rewrite Eset in G. exact G.
Qed.

Lemma construction_ignores_previous_electrolyte_volume_witness :
  exists cell h',
    Scenario.cell 5 Scenario.heap0 = (Ok cell, h')
    /\ Scenario.cell 5
         (<[3%nat := OElectrolyte
              (Electrolyte.set_volume 7 Scenario.electrolyte)]>
            Scenario.heap0)
       = (Ok cell, h').
Proof.
  destruct scenario_constructed as (cell & h' & _ & _ & _ & E & _).
  exists cell, h'. split; [exact E|].
  apply (construction_ignores_previous_electrolyte_volume 0%nat 1%nat 2%nat
           3%nat 4%nat 5%nat 5 1.1 Cell.default_ice Scenario.heap0 h'
           Scenario.electrolyte
           (Electrolyte.set_volume 7 Scenario.electrolyte) cell).
  - vm_compute. reflexivity.
  - now constructor.
  - exact E.
Defined.

(** ** Balance of the electrodes *)

(** An Electrode as its constructor leaves it: the areal capacity agrees
    with the thickness. *)
Lemma electrode_new_consistent
    (active_material : string) (mass_ratio : gmap string Q) (binder : string)
    (porosity voltage capacity density_am width height cc_thickness : Q)
    (current_collector : string) (thickness tab_height tab_width : Q)
    (e : Electrode.t) (m_am : Q) :
  Electrode.new active_material mass_ratio binder porosity voltage capacity
    density_am width height cc_thickness current_collector thickness
    tab_height tab_width = Ok e ->
  Electrode.mass_ratio e !! "am" = Some m_am ->
  Electrode.areal_capacity e
  = Electrode.density e * Electrode.thickness e * Electrode.capacity e * m_am.
Proof.
  intros H Hm.
  apply electrode_new_Ok_inv in H
    as (m & m_c & m_b & d_b & Ham & _ & _ & _ & _ & _ & ->).
  cbn in Hm |- *. rewrite Ham in Hm. now injection Hm as <-.
Qed.

Lemma sizing_divisor_factors (a : Electrode.t) (m_am : Q) :
  ~ sizing_divisor a m_am == 0 ->
  ~ Electrode.density a == 0 /\ ~ Electrode.capacity a == 0 /\ ~ m_am == 0.
Proof.
  unfold sizing_divisor. intros H.
  repeat split; intros E; apply H; rewrite E; ring.
Qed.

Lemma inject_Z_layers (n : Z) : inject_Z (2 * n + 2) == 2 * inject_Z n + 2.
Proof. rewrite inject_Z_plus, inject_Z_mult. reflexivity. Qed.

(** X15.  The two electrode capacities in terms of the cathode's areal
    capacity, for a cathode that is another object than the anode and
    whose areal capacity agrees with its thickness (as its constructor
    leaves it): the cathode capacity is [w * h * 2 * layers_number *
    areal_capacity / 1000] and the anode capacity is [w * h * (2 *
    layers_number + 2) * areal_capacity * n_p_ratio / 1000], each on its
    own plate.  Hence when the anode plate is at least as large as the
    cathode plate and [n_p_ratio >= 1] (non-negative inputs), the cathode
    is the limiting electrode: the Cell capacity is the cathode capacity
    times [ice]. *)
Theorem capacities_from_areal_capacity
    (cathode anode separator electrolyte format tabs : loc)
    (layers_number : Z) (n_p_ratio ice : Q) (h h' : heap) (cell : Cell.t)
    (c : Electrode.t) (c_am : Q) :
  cathode <> anode ->
  h !! cathode = Some (OElectrode c) ->
  Electrode.mass_ratio c !! "am" = Some c_am ->
  Electrode.areal_capacity c
  == Electrode.density c * Electrode.thickness c * Electrode.capacity c * c_am ->
  Cell.new cathode anode separator electrolyte format tabs layers_number
    n_p_ratio ice h = (Ok cell, h') ->
  exists a a_am,
    h' !! cathode = Some (OElectrode c)
    /\ h' !! anode = Some (OElectrode a)
    /\ Electrode.mass_ratio a !! "am" = Some a_am
    /\ Cell.cathode_capacity c c_am layers_number
       == Electrode.width c * Electrode.height c * 2 * inject_Z layers_number
          * Electrode.areal_capacity c / 1000
    /\ Cell.anode_capacity a a_am layers_number
       == Electrode.width a * Electrode.height a
          * inject_Z (2 * layers_number + 2)
          * (Electrode.areal_capacity c * n_p_ratio) / 1000
    /\ ((0 <= layers_number)%Z ->
        0 <= Electrode.areal_capacity c ->
        0 <= Electrode.width c * Electrode.height c
          <= Electrode.width a * Electrode.height a ->
        1 <= n_p_ratio ->
        Cell.capacity cell == Cell.cathode_capacity c c_am layers_number * ice).
Proof.
  intros Hne Hc0 Hcm0 Hcons H.
  apply new_Ok_inv in H as (c0 & a0 & m & Hc0' & Ha0 & Hm & Hd & Hagg).
  rewrite Hc0 in Hc0'. injection Hc0' as <-.
  set (x := Electrode.areal_capacity c * n_p_ratio / sizing_divisor a0 m)
    in *.
  set (a1 := sized_anode a0 x m) in *.
  set (h1 := <[anode := OElectrode a1]> h) in *.
  destruct Hagg as [c1 a s p b l d_ccc d_acc c_am1 a_am Hc Ha Hs Hp Hb Hl Hdc
                      Hda Hcm Ham volume capacity energy total_mass
                      total_volume Hcap Htv Htm].
  assert (c1 = c) as ->.
  { subst h1. rewrite list_lookup_insert_ne in Hc by auto. congruence. }
  assert (a = a1) as ->.
  { subst h1. rewrite (lookup_insert_same _ _ _ _ Ha0) in Ha. congruence. }
  rewrite Hcm0 in Hcm. injection Hcm as <-.
  assert (a_am = m) as -> by (cbn in Ham; congruence).
  assert (Ec : Cell.cathode_capacity c c_am layers_number
               == Electrode.width c * Electrode.height c * 2
                  * inject_Z layers_number * Electrode.areal_capacity c / 1000).
  { rewrite Hcons.
    unfold Cell.cathode_capacity, Cell.cathode_mass, Cell.cathode_volume.
    field. }
  assert (Ea : Cell.anode_capacity a1 m layers_number
               == Electrode.width a1 * Electrode.height a1
                  * inject_Z (2 * layers_number + 2)
                  * (Electrode.areal_capacity c * n_p_ratio) / 1000).
  { unfold Cell.anode_capacity, Cell.anode_mass, Cell.anode_volume.
    subst a1. cbn [sized_anode Electrode.width Electrode.height
                     Electrode.thickness Electrode.density Electrode.capacity
                     Electrode.set_areal_capacity Electrode.set_thickness].
    destruct (sizing_divisor_factors _ _ Hd) as (Z1 & Z2 & Z3).
    subst x. unfold sizing_divisor in *. field. auto. }
  exists a1, m.
  split; [final_lookup|]. split; [final_lookup|].
  split; [assumption|]. split; [exact Ec|]. split; [exact Ea|].
  intros Hn Hareal [Hp0 Hple] Hnp.
  cbn [Cell.capacity]. subst capacity. unfold Cell.capacity_of.
  rewrite Q.min_l; [reflexivity|].
  rewrite Ec, Ea, inject_Z_layers.
  pose proof (inject_Z_nonneg _ Hn) as Hn'.
  set (P := Electrode.width c * Electrode.height c) in *.
  set (R := Electrode.width a1 * Electrode.height a1) in *.
  set (N := inject_Z layers_number) in *.
  set (A := Electrode.areal_capacity c) in *.
  assert (H1 : 0 <= (R - P) * (2 * N * A))
    by (apply Qmult_le_0_compat; [lra | nonneg]).
  assert (H2 : 0 <= R * (2 * A))
    by (apply Qmult_le_0_compat; [lra | nonneg]).
  assert (H3 : 0 <= (R * (2 * N + 2) * A) * (n_p_ratio - 1)).
  { apply Qmult_le_0_compat; [|lra].
    assert (0 <= R) by lra. assert (0 <= 2 * N + 2) by lra. nonneg. }
  apply Qmult_le_r with (z := 1000); [reflexivity|].
  assert (E1 : P * 2 * N * A / 1000 * 1000 == P * 2 * N * A) by field.
  assert (E2 : R * (2 * N + 2) * (A * n_p_ratio) / 1000 * 1000
               == R * (2 * N + 2) * (A * n_p_ratio)) by field.
  rewrite E1, E2. lra.
Qed.

Lemma scenario_balance :
  exists cell h' c a,
    Scenario.cell 5 Scenario.heap0 = (Ok cell, h')
    /\ Scenario.heap0 !! 0%nat = Some (OElectrode c)
    /\ h' !! 1%nat = Some (OElectrode a)
    /\ Electrode.mass_ratio c !! "am" = Some 0.9
    /\ Electrode.areal_capacity c
       == Electrode.density c * Electrode.thickness c * Electrode.capacity c
          * 0.9
    /\ 0 <= Electrode.areal_capacity c
    /\ 0 <= Electrode.width c * Electrode.height c
         <= Electrode.width a * Electrode.height a.
Proof.
  vm_compute (Scenario.cell 5 Scenario.heap0). vm_compute Scenario.heap0.
  do 4 eexists.
  repeat (split; [reflexivity|]).
  split; [vm_compute; discriminate|].
  split; vm_compute; discriminate.
Qed.

Lemma capacities_from_areal_capacity_witness :
  exists cell h' c,
    Scenario.cell 5 Scenario.heap0 = (Ok cell, h')
    /\ Scenario.heap0 !! 0%nat = Some (OElectrode c)
    /\ Cell.capacity cell == Cell.cathode_capacity c 0.9 5 * Cell.default_ice.
Proof.
  destruct scenario_balance
    as (cell & h' & c & a0 & E & Hc & Ha0 & Hcm & Hcons & Hareal & Hplate).
  destruct (capacities_from_areal_capacity 0%nat 1%nat 2%nat 3%nat 4%nat
              5%nat 5 1.1 Cell.default_ice Scenario.heap0 h' cell c 0.9)
    as (a & a_am & _ & Ha & _ & _ & _ & Hlim);
    [discriminate | exact Hc | exact Hcm | exact Hcons | exact E |].
  same_object Ha Ha0.
  exists cell, h', c. split; [exact E|]. split; [exact Hc|].
  apply Hlim; [lia | exact Hareal | exact Hplate | vm_compute; discriminate].
Defined.

(** ** One Electrode in both roles *)

(** X16.  When one Electrode object is passed as cathode and as anode, the
    sizing reads its areal capacity as the cathode's and then resizes it as
    the anode: for an electrode whose areal capacity agrees with its
    thickness, the thickness and the areal capacity are both multiplied by
    [n_p_ratio]. *)
Theorem shared_electrode_is_rescaled
    (r : loc) (n_p_ratio : Q) (h : heap) (e : Electrode.t) (m_am : Q) :
  h !! r = Some (OElectrode e) ->
  Electrode.mass_ratio e !! "am" = Some m_am ->
  ~ sizing_divisor e m_am == 0 ->
  Electrode.areal_capacity e
  == Electrode.density e * Electrode.thickness e * Electrode.capacity e * m_am ->
  exists e',
    Cell.calculate_anode_properties r r n_p_ratio h
    = (Ok tt, <[r := OElectrode e']> h)
    /\ Electrode.thickness e' == Electrode.thickness e * n_p_ratio
    /\ Electrode.areal_capacity e' == Electrode.areal_capacity e * n_p_ratio
    /\ Frame.electrode e e'.
Proof.
  intros Hr Hm Hd Hcons.
  pose proof (calculate_anode_properties_Ok r r n_p_ratio h e e m_am
                Hr Hr Hm Hd) as Hrun.
  destruct (sizing_divisor_factors _ _ Hd) as (Z1 & Z2 & Z3).
  eexists. split; [exact Hrun|].
  cbn [sized_anode Electrode.thickness Electrode.areal_capacity
         Electrode.set_areal_capacity Electrode.set_thickness].
  unfold sizing_divisor in *.
  split; [|split; [|apply frame_sized_anode]].
  - rewrite Hcons. field. auto.
  - field. auto.
Qed.

Lemma shared_electrode_is_rescaled_witness :
  exists c c',
    Scenario.heap0 !! 0%nat = Some (OElectrode c)
    /\ Cell.calculate_anode_properties 0%nat 0%nat 1.1 Scenario.heap0
       = (Ok tt, <[0%nat := OElectrode c']> Scenario.heap0)
    /\ Electrode.thickness c' == Electrode.thickness c * 1.1.
Proof.
  destruct scenario_balance
    as (_ & _ & c & _ & _ & Hc & _ & Hcm & Hcons & _).
  destruct scenario_positive
    as (c0 & a & s & l & p & b & Hh & Pc & _).
  assert (Hc0 : Scenario.heap0 !! 0%nat = Some (OElectrode c0))
    by now rewrite Hh.
  same_object Hc Hc0.
  destruct Pc as [_ Pcap _ _ _ _ _ Pd _].
  destruct (shared_electrode_is_rescaled 0%nat 1.1 Scenario.heap0 c 0.9
              Hc Hcm) as (c' & Hrun & Ht & _).
  - apply sizing_divisor_nonzero; now apply Qpos_nonzero.
  - exact Hcons.
  - exists c, c'. auto.
Defined.

(** ** The exceptions a construction can raise *)


Section Raises.

(** The exceptions allowed: [P]. *)
Variable P : exn -> Prop.
Hypothesis P_attribute : P AttributeError.

(** [m] raises only exceptions in [P]. *)
Local Abbreviation only m := (forall h e h', m h = (Raise e, h') -> P e).











End Raises.






(** ** The first-cycle efficiency *)

(** X18.  [ice] only scales: if the construction returns for one [ice], it
    returns for every other nonzero [ice'] on the same components, with the
    same total mass and total volume, and with the capacity, the energy and
    both energy densities in the proportion [ice' : ice]. *)
Theorem ice_only_scales
    (cathode anode separator electrolyte format tabs : loc)
    (layers_number : Z) (n_p_ratio ice ice' : Q) (h h' : heap)
    (cell : Cell.t) :
  ~ ice' == 0 ->
  Cell.new cathode anode separator electrolyte format tabs layers_number
    n_p_ratio ice h = (Ok cell, h') ->
  exists cell' h'',
    Cell.new cathode anode separator electrolyte format tabs layers_number
      n_p_ratio ice' h = (Ok cell', h'')
    /\ Cell.total_mass cell' = Cell.total_mass cell
    /\ Cell.total_volume cell' = Cell.total_volume cell
    /\ Cell.capacity cell' * ice == Cell.capacity cell * ice'
    /\ Cell.energy cell' * ice == Cell.energy cell * ice'
    /\ Cell.volumetric_energy_density cell' * ice
       == Cell.volumetric_energy_density cell * ice'
    /\ Cell.gravimetric_energy_density cell' * ice
       == Cell.gravimetric_energy_density cell * ice'.
Proof.
  intros Hice H.
  apply new_Ok_stages in H as (h1 & Hsize & Hagg).
  destruct Hagg as [c a s p b l d_ccc d_acc c_am a_am Hc Ha Hs Hp Hb Hl Hdc
                      Hda Hcm Ham volume capacity energy total_mass
                      total_volume Hcap Htv Htm].
  assert (Hcap' : ~ Cell.capacity_of c a c_am a_am layers_number ice' == 0).
  { subst capacity. unfold Cell.capacity_of in *. intros E. apply Hcap.
    apply Qmult_integral in E as [E|E]; [|contradiction].
    rewrite E. ring. }
  do 2 eexists. split.
  { rewrite (new_after_sizing _ _ _ _ _ _ _ _ ice' _ _ Hsize).
    apply calculate_energy_density_Ok.
    exact (Aggregated cathode anode separator electrolyte format tabs
             layers_number n_p_ratio ice' h1 c a s p b l d_ccc d_acc c_am
             a_am Hc Ha Hs Hp Hb Hl Hdc Hda Hcm Ham Hcap' Htv Htm). }
  cbn [Cell.total_mass Cell.total_volume Cell.capacity Cell.energy
       Cell.volumetric_energy_density Cell.gravimetric_energy_density].
  split; [reflexivity|]. split; [reflexivity|].
  subst capacity energy. unfold Cell.energy_of, Cell.capacity_of.
  subst total_mass total_volume.
  set (tm := Cell.total_mass_of _ _ _ _ _ _ _ _ _) in *.
  set (tv := Cell.total_volume_of _ _ _ _ _ _) in *.
  set (m := Qmin _ _). clearbody m tm tv.
  split; [ring|]. split; [ring|]. split; field; assumption.
Qed.

Lemma ice_only_scales_witness :
  exists cell h' cell' h'',
    Scenario.cell 5 Scenario.heap0 = (Ok cell, h')
    /\ Variants.cell_with_ice (1 # 2) Scenario.heap0 = (Ok cell', h'')
    /\ Cell.capacity cell' * Cell.default_ice
       == Cell.capacity cell * (1 # 2).
Proof.
  destruct scenario_constructed
    as (cell & h' & c & a & l & Hrun & _).
  destruct (ice_only_scales 0%nat 1%nat 2%nat 3%nat 4%nat 5%nat 5%Z 1.1
              Cell.default_ice (1 # 2) Scenario.heap0 h' cell)
    as (cell' & h'' & Hrun' & _ & _ & Hcap & _); [discriminate | exact Hrun|].
  exists cell, h', cell', h''. split; [exact Hrun|]. split; [exact Hrun'|].
  exact Hcap.
Defined.

(** ** The material table *)

(** X19.  [materials[name]['density']] and [materials.get(name)['density']]
    on every name: a name outside the table gives [KeyError name] and
    [TypeError]; the two group entries ['tabs'] and ['electrolytes'] have no
    density of their own, so both look-ups raise [KeyError] for ['density'];
    every other entry gives the same positive density to both. *)
Theorem materials_density_cases (name : string) :
  (materials !! name = None ->
     materials_density name = Raise (KeyError name)
     /\ materials_get_density name = Raise TypeError)
  /\ (name = "tabs" \/ name = "electrolytes" ->
     materials_density name = Raise (KeyError "density")
     /\ materials_get_density name = Raise (KeyError "density"))
  /\ (is_Some (materials !! name) -> name <> "tabs" -> name <> "electrolytes" ->
     exists d, materials_density name = Ok d
               /\ materials_get_density name = Ok d /\ 0 < d).
Proof.
  split; [|split].
  - intros E. unfold materials_density, materials_get_density.
    rewrite E. split; reflexivity.
  - intros [->| ->]; split; vm_compute; reflexivity.
  - intros [v E] Ht He.
    unfold materials in E. apply elem_of_list_to_map_2 in E.
    repeat (apply elem_of_cons in E as [[= -> ->]|E];
            [first [ now destruct Ht | now destruct He
                   | eexists; split; [vm_compute; reflexivity|];
                     split; [vm_compute; reflexivity | reflexivity] ]|]).
    now apply elem_of_nil in E.
Qed.
